(** * Racing game core: vehicle dynamics, tire grip model, route graph,
      input and race loop

    A shallow embedding of [src/physics/Vehicle.ts], [src/physics/TireModel.ts],
    [src/data/terrains.ts], [src/data/cars.ts], [src/tracks/RouteGraph.ts],
    [src/input/InputManager.ts] and the race loop of [src/game/Game.ts],
    followed by the properties of the specification that concern them and by
    further properties of the code.

    Numbers.  A JavaScript [number] is modelled as a real number: arithmetic
    is exact, there is no rounding and no overflow.  The reals have no [NaN]
    and no infinity; wherever the source would produce one (a division by
    zero, arithmetic on [undefined], the tangent at a pole) the model stops
    with the outcome [NonFinite].  A run of the model that [Returns] is
    therefore a run of the source on finite values, computed exactly.
    Numbers that the source uses as counters or indices (the gear, a stage,
    a loop bound) are integers.

    Rounding.  The numbers the source runs on are IEEE 754 binary64: every
    operation rounds, and a value can overflow.  The properties on the real
    numbers are stated in a form that rounding keeps: an equality between
    two runs of the same operations, a range that comes from a clamp, an
    order that rounding cannot reverse; they speak of runs whose numbers
    stay finite.  Where the specification gives the value of a computation as a
    decimal, or as one of the numbers stored in a table, the function is
    also given on binary64 numbers, in the module [Binary64]
    ([pressureGripFactor], [frictionCircle], [torqueAtRpm]), and the value
    is computed there.

    The browser.  What the source reads from the browser is a parameter of
    the function that reads it: the state of the gamepad, the time
    [performance.now()] returns, the values [Math.random()] returns, the
    tuning kept in local storage.  The renderer, the HUD, the overlay and the
    audio are not modelled; calls on them return nothing to the game. *)

From Stdlib Require Import Reals Lra Lia ZArith List String Bool Sorted.
From Stdlib Require Floats.
Import ListNotations.

Open Scope string_scope.
Open Scope list_scope.
Open Scope R_scope.

(** * JavaScript values and outcomes *)

Module JS.

(** The three ways a call can end. *)
Inductive outcome (A : Type) : Type :=
| Returns (a : A)
| Throws
| NonFinite.

Arguments Returns {A} a.
Arguments Throws {A}.
Arguments NonFinite {A}.

Definition bind {A B : Type} (o : outcome A) (k : A -> outcome B) : outcome B :=
  match o with
  | Returns a => k a
  | Throws => Throws
  | NonFinite => NonFinite
  end.

(** [a > b], [a < b] and [a <= b] on numbers, as booleans. *)
Definition gtb (a b : R) : bool := if Rgt_dec a b then true else false.
Definition ltb (a b : R) : bool := if Rlt_dec a b then true else false.
Definition leb (a b : R) : bool := if Rle_dec a b then true else false.

(** [a / b]: infinite or [NaN] when [b] is zero. *)
Definition div (a b : R) : outcome R :=
  if Req_dec_T b 0 then NonFinite else Returns (a / b).

(** [arr[i]]: [undefined] outside the array. *)
Definition index {A : Type} (arr : list A) (i : Z) : option A :=
  if (i <? 0)%Z then None else nth_error arr (Z.to_nat i).

(** [a ?? b] *)
Definition nullish {A : Type} (a b : option A) : option A :=
  match a with
  | Some _ => a
  | None => b
  end.

(** A possibly [undefined] number used in arithmetic: [undefined] gives [NaN]. *)
Definition to_number (o : option R) : outcome R :=
  match o with
  | Some r => Returns r
  | None => NonFinite
  end.

(** [Math.hypot(a, b)] *)
Definition hypot (a b : R) : R := sqrt (a * a + b * b).

(** [Math.tan(a)]: no finite value at a pole. *)
Definition tan (a : R) : outcome R :=
  if Req_dec_T (cos a) 0 then NonFinite else Returns (Rtrigo1.tan a).

(** [Math.atan2(y, x)] *)
Definition atan2 (y x : R) : R :=
  if Rlt_dec 0 x then atan (y / x)
  else if Rlt_dec x 0 then
    (if Rle_dec 0 y then atan (y / x) + PI else atan (y / x) - PI)
  else
    (if Rlt_dec 0 y then PI / 2 else if Rlt_dec y 0 then - (PI / 2) else 0).

(** [Math.floor(a)] *)
Definition floor (a : R) : Z := Zfloor a.

(** A string used as a condition: the empty string and [undefined] are falsy. *)
Definition truthy (o : option string) : bool :=
  match o with
  | Some s => negb (String.eqb s "")
  | None => false
  end.

End JS.

Import JS.

Declare Scope js_scope.
Delimit Scope js_scope with js.
Notation "x <- o ;; k" := (bind o (fun x => k))
  (at level 61, o at next level, right associativity) : js_scope.
Notation "a // b" := (div a b) (at level 40, left associativity) : js_scope.
Notation "a >? b" := (gtb a b) (at level 70, no associativity) : js_scope.
Notation "a <? b" := (ltb a b) (at level 70, no associativity) : js_scope.
Notation "a <=? b" := (leb a b) (at level 70, no associativity) : js_scope.
Open Scope js_scope.

(** * src/data/terrains.ts *)

Module Terrains.

Inductive TerrainType : Set := asphalt | wet | dirt | sand | grass.

Record TerrainInfo : Type := {
  id : TerrainType;
  label : string;
  friction : R;
  rollingResistance : R;
  dustColor : Z
}.

Definition TERRAINS (t : TerrainType) : TerrainInfo :=
  match t with
  | asphalt => {| id := asphalt; label := "Asphalt"; friction := 1.0;
                  rollingResistance := 0.018; dustColor := 0x1b1b1b |}
  | wet => {| id := wet; label := "Wet Asphalt"; friction := 0.78;
              rollingResistance := 0.022; dustColor := 0x222f3a |}
  | dirt => {| id := dirt; label := "Dirt"; friction := 0.7;
               rollingResistance := 0.03; dustColor := 0x7a4b2a |}
  | sand => {| id := sand; label := "Sand"; friction := 0.6;
               rollingResistance := 0.04; dustColor := 0xb08a5a |}
  | grass => {| id := grass; label := "Grass"; friction := 0.65;
                rollingResistance := 0.035; dustColor := 0x2f5f2c |}
  end.

Definition is_wet (t : TerrainType) : bool :=
  match t with
  | wet => true
  | _ => false
  end.

End Terrains.

(** * src/physics/TireModel.ts *)

Module TireModel.

Import Terrains.

Inductive TireCompound : Set := street | sport | semi.

Record TireSetup : Type := {
  compound : TireCompound;
  pressureFrontPsi : R;
  pressureRearPsi : R
}.

Record TireState : Type := {
  slipAngle : R;
  slipRatio : R;
  combinedSlip : R;
  gripFactor : R
}.

Definition COMPOUND_GRIP (c : TireCompound) : R :=
  match c with
  | street => 0.95
  | sport => 1.05
  | semi => 1.15
  end.

Definition COMPOUND_WET_PENALTY (c : TireCompound) : R :=
  match c with
  | street => 0.85
  | sport => 0.78
  | semi => 0.7
  end.

Definition pressureGripFactor (psi : R) : R :=
  let delta := Rmin 6 (Rmax (-6) (psi - 33)) in
  1 - Rabs delta * 0.012.

Definition tireGripForTerrain (setup : TireSetup) (terrain : TerrainType)
    (isFront : bool) : R :=
  let base := friction (TERRAINS terrain) in
  let compoundGrip := COMPOUND_GRIP (compound setup) in
  let wetPenalty :=
    if is_wet terrain then COMPOUND_WET_PENALTY (compound setup) else 1 in
  let psi := if isFront then pressureFrontPsi setup else pressureRearPsi setup in
  base * compoundGrip * wetPenalty * pressureGripFactor psi.

(** The argument of the square root is a sum of two squares, where [sqrt]
    and [Math.sqrt] agree. *)
Definition frictionCircle (longitudinal lateral : R) : R :=
  let slip := Rmin 1 (sqrt (longitudinal * longitudinal + lateral * lateral)) in
  1 - slip * 0.4.

End TireModel.

(** ** The source on binary64 numbers

    The numbers the source runs on are IEEE 754 binary64.  The functions
    below are those whose values the specification gives as decimals or as
    stored numbers.  They are given here on binary64 numbers, every
    operation rounding as the source's does. *)

Module Binary64.

Import PrimFloat.
#[local] Open Scope bool_scope.
#[local] Open Scope float_scope.
#[local] Set Warnings "-inexact-float".

(** [Math.max(a, b)] and [Math.min(a, b)]: [NaN] if either argument is; of a
    negative and a positive zero the positive one is the larger. *)
Definition max (a b : float) : float :=
  if is_nan a || is_nan b then nan
  else if a <? b then b
  else if b <? a then a
  else if get_sign a then b else a.

Definition min (a b : float) : float :=
  if is_nan a || is_nan b then nan
  else if a <? b then a
  else if b <? a then b
  else if get_sign a then a else b.

(** *** src/physics/TireModel.ts *)

Definition pressureGripFactor (psi : float) : float :=
  let delta := min 6 (max (-6) (psi - 33)) in
  1 - abs delta * 0.012.

Definition frictionCircle (longitudinal lateral : float) : float :=
  let slip := min 1 (sqrt (longitudinal * longitudinal + lateral * lateral)) in
  1 - slip * 0.4.

(** *** src/physics/Vehicle.ts *)

(** The [for] loop of [torqueAtRpm]: [prev] is [curve[i - 1]] and the head
    of [rest] is [curve[i]].  A division by zero gives an infinity or a
    [NaN], and the function returns it. *)
Fixpoint torqueAtRpm_loop (rpm : float) (prev : float * float)
    (rest : list (float * float)) : float :=
  match rest with
  | [] => snd prev
  | cur :: rest' =>
      let '(r1, t1) := prev in
      let '(r2, t2) := cur in
      if rpm <=? r2 then
        let t := (rpm - r1) / (r2 - r1) in
        t1 + (t2 - t1) * t
      else torqueAtRpm_loop rpm cur rest'
  end.

(** [torqueAtRpm(rpm)] of a vehicle whose car has the torque curve
    [curve]; reading [curve[0][0]] of an empty curve throws. *)
Definition torqueAtRpm (curve : list (float * float)) (rpm : float) : outcome float :=
  match curve with
  | [] => Throws
  | first :: rest =>
      if rpm <=? fst first then Returns (snd first)
      else Returns (torqueAtRpm_loop rpm first rest)
  end.

(** *** src/data/cars.ts: the torque curves of the two cars *)

Definition m3_torqueCurve : list (float * float) :=
  [(1000, 240); (2000, 330); (3500, 410); (5500, 500); (7000, 430)].

Definition carnival_torqueCurve : list (float * float) :=
  [(1000, 250); (2000, 320); (3500, 360); (5000, 380); (6000, 310)].

(** *** Curves and predicates of the properties *)

(** A curve of two points that falls from 507 at 5500 to 238.1 at 7000. *)
Definition falling : list (float * float) := [(5500, 507); (7000, 238.1)].

(** The breakpoints of the curve are strictly increasing. *)
Definition increasing (curve : list (float * float)) : Prop :=
  Sorted (fun p q => (fst p <? fst q) = true) curve.

(** The call returned the number [expected]. *)
Definition yields (expected : float) (o : outcome float) : bool :=
  match o with
  | Returns f => f =? expected
  | _ => false
  end.

(** The order of two finite binary64 numbers that are not negative, each
    given by its exponent and its mantissa: by the exponent, then by the
    mantissa. *)
Definition lex (e1 : Z) (m1 : positive) (e2 : Z) (m2 : positive) : comparison :=
  match (e1 ?= e2)%Z with
  | Lt => Lt
  | Gt => Gt
  | Eq => Pos.compare_cont Eq m1 m2
  end.

End Binary64.

(** * src/data/cars.ts *)

Module Cars.

Import TireModel.

Record Suspension : Type := {
  rideHeight : R;
  springRate : R;
  damping : R;
  antiRoll : R
}.

Record CarSpec : Type := {
  id : string;
  name : string;
  description : string;
  massKg : R;
  wheelbaseM : R;
  trackWidthM : R;
  turningCircleM : R;
  enginePowerKw : R;
  torqueCurve : list (R * R);
  gearRatios : list R;
  finalDrive : R;
  wheelRadiusM : R;
  tireSetup : TireSetup;
  suspension : Suspension
}.

Definition m3 : CarSpec := {|
  id := "m3";
  name := "M3 Coupe";
  description := "Front-engine sport coupe. Nimble, eager to rotate.";
  massKg := 1720;
  wheelbaseM := 2.731;
  trackWidthM := 1.55;
  turningCircleM := 11.0;
  enginePowerKw := 317;
  torqueCurve := [(1000, 240); (2000, 330); (3500, 410); (5500, 500); (7000, 430)];
  gearRatios := [3.8; 2.4; 1.7; 1.3; 1.0; 0.86];
  finalDrive := 3.42;
  wheelRadiusM := 0.33;
  tireSetup := {| compound := sport; pressureFrontPsi := 34; pressureRearPsi := 33 |};
  suspension := {| rideHeight := 0.12; springRate := 0.7; damping := 0.6; antiRoll := 0.6 |}
|}.

Definition carnival : CarSpec := {|
  id := "carnival";
  name := "Kia Carnival";
  description := "Heavy minivan. Smooth but understeers, longer braking.";
  massKg := 1985;
  wheelbaseM := 3.09;
  trackWidthM := 1.68;
  turningCircleM := 11.75;
  enginePowerKw := 216;
  torqueCurve := [(1000, 250); (2000, 320); (3500, 360); (5000, 380); (6000, 310)];
  gearRatios := [3.6; 2.1; 1.5; 1.15; 0.85];
  finalDrive := 3.6;
  wheelRadiusM := 0.34;
  tireSetup := {| compound := street; pressureFrontPsi := 36; pressureRearPsi := 36 |};
  suspension := {| rideHeight := 0.18; springRate := 0.5; damping := 0.5; antiRoll := 0.4 |}
|}.

Definition CARS : list CarSpec := [m3; carnival].

End Cars.

(** * src/physics/Vehicle.ts *)

Module Vehicle.

Import Terrains TireModel.

Record VehicleInput : Type := {
  throttle : R;
  brake : R;
  steer : R;
  handbrake : R
}.

Record Vec2 : Type := { x : R; z : R }.

Record VehicleState : Type := {
  position : Vec2;
  velocity : Vec2;
  heading : R;
  yawRate : R;
  engineRpm : R;
  gear : Z;
  wheelSpeed : R;
  speed : R;
  tireState : TireState
}.

Record VehicleTuning : Type := {
  finalDrive : R;
  gearRatios : list R;
  brakeBias : R;
  brakeStrength : R;
  weightReduction : R;
  engineStage : R;
  suspension : Cars.Suspension;
  tireSetup : TireSetup
}.

(** The object a [Vehicle] instance is: its public fields, then the private
    [car] and [clutch].  The private [revLimiter] is initialised to 7200
    and never assigned; it is the constant below. *)
Record Vehicle : Type := {
  state : VehicleState;
  tuning : VehicleTuning;
  manualMode : bool;
  driftAssist : R;
  tractionAssist : R;
  maxSteerAngle : R;
  handbrakeGripLoss : R;
  terrain : TerrainType;
  car : Cars.CarSpec;
  clutch : R
}.

Definition revLimiter : R := 7200.

(** ** Assignments to fields *)

Definition set_x (v : R) (p : Vec2) : Vec2 := {| x := v; z := z p |}.
Definition set_z (v : R) (p : Vec2) : Vec2 := {| x := x p; z := v |}.

Definition set_position (v : Vec2) (s : VehicleState) : VehicleState :=
  {| position := v; velocity := velocity s; heading := heading s;
     yawRate := yawRate s; engineRpm := engineRpm s; gear := gear s;
     wheelSpeed := wheelSpeed s; speed := speed s; tireState := tireState s |}.

Definition set_velocity (v : Vec2) (s : VehicleState) : VehicleState :=
  {| position := position s; velocity := v; heading := heading s;
     yawRate := yawRate s; engineRpm := engineRpm s; gear := gear s;
     wheelSpeed := wheelSpeed s; speed := speed s; tireState := tireState s |}.

Definition set_heading (v : R) (s : VehicleState) : VehicleState :=
  {| position := position s; velocity := velocity s; heading := v;
     yawRate := yawRate s; engineRpm := engineRpm s; gear := gear s;
     wheelSpeed := wheelSpeed s; speed := speed s; tireState := tireState s |}.

Definition set_yawRate (v : R) (s : VehicleState) : VehicleState :=
  {| position := position s; velocity := velocity s; heading := heading s;
     yawRate := v; engineRpm := engineRpm s; gear := gear s;
     wheelSpeed := wheelSpeed s; speed := speed s; tireState := tireState s |}.

Definition set_engineRpm (v : R) (s : VehicleState) : VehicleState :=
  {| position := position s; velocity := velocity s; heading := heading s;
     yawRate := yawRate s; engineRpm := v; gear := gear s;
     wheelSpeed := wheelSpeed s; speed := speed s; tireState := tireState s |}.

Definition set_gear (v : Z) (s : VehicleState) : VehicleState :=
  {| position := position s; velocity := velocity s; heading := heading s;
     yawRate := yawRate s; engineRpm := engineRpm s; gear := v;
     wheelSpeed := wheelSpeed s; speed := speed s; tireState := tireState s |}.

Definition set_wheelSpeed (v : R) (s : VehicleState) : VehicleState :=
  {| position := position s; velocity := velocity s; heading := heading s;
     yawRate := yawRate s; engineRpm := engineRpm s; gear := gear s;
     wheelSpeed := v; speed := speed s; tireState := tireState s |}.

Definition set_speed (v : R) (s : VehicleState) : VehicleState :=
  {| position := position s; velocity := velocity s; heading := heading s;
     yawRate := yawRate s; engineRpm := engineRpm s; gear := gear s;
     wheelSpeed := wheelSpeed s; speed := v; tireState := tireState s |}.

Definition set_tireState (v : TireState) (s : VehicleState) : VehicleState :=
  {| position := position s; velocity := velocity s; heading := heading s;
     yawRate := yawRate s; engineRpm := engineRpm s; gear := gear s;
     wheelSpeed := wheelSpeed s; speed := speed s; tireState := v |}.

Definition set_state (s : VehicleState) (this : Vehicle) : Vehicle :=
  {| state := s; tuning := tuning this; manualMode := manualMode this;
     driftAssist := driftAssist this; tractionAssist := tractionAssist this;
     maxSteerAngle := maxSteerAngle this;
     handbrakeGripLoss := handbrakeGripLoss this; terrain := terrain this;
     car := car this; clutch := clutch this |}.

Definition set_clutch (c : R) (this : Vehicle) : Vehicle :=
  {| state := state this; tuning := tuning this; manualMode := manualMode this;
     driftAssist := driftAssist this; tractionAssist := tractionAssist this;
     maxSteerAngle := maxSteerAngle this;
     handbrakeGripLoss := handbrakeGripLoss this; terrain := terrain this;
     car := car this; clutch := c |}.

(** [this.state.f = ...], the new value computed from the current state. *)
Definition assign (f : VehicleState -> VehicleState) (this : Vehicle) : Vehicle :=
  set_state (f (state this)) this.

(** ** The class *)

Definition initialTireState : TireState :=
  {| slipAngle := 0; slipRatio := 0; combinedSlip := 0; gripFactor := 1 |}.

(** [constructor(car, tuning)], with the field initialisers of the class. *)
Definition new (car : Cars.CarSpec) (tuning : VehicleTuning) : Vehicle :=
  {| state := {| position := {| x := 0; z := 0 |};
                 velocity := {| x := 0; z := 0 |};
                 heading := 0;
                 yawRate := 0;
                 engineRpm := 1200;
                 gear := 1;
                 wheelSpeed := 0;
                 speed := 0;
                 tireState := initialTireState |};
     tuning := tuning;
     manualMode := false;
     driftAssist := 0.7;
     tractionAssist := 0.6;
     maxSteerAngle := 0.55;
     handbrakeGripLoss := 0.55;
     terrain := asphalt;
     car := car;
     clutch := 0 |}.

(** [reset(positionX, positionZ)]; both parameters default to 0 in the
    source and both callers pass 0. *)
Definition reset (positionX positionZ : R) (this : Vehicle) : Vehicle :=
  let this := assign (fun s => set_position (set_x positionX (position s)) s) this in
  let this := assign (fun s => set_position (set_z positionZ (position s)) s) this in
  let this := assign (fun s => set_velocity (set_x 0 (velocity s)) s) this in
  let this := assign (fun s => set_velocity (set_z 0 (velocity s)) s) this in
  let this := assign (set_heading 0) this in
  let this := assign (set_yawRate 0) this in
  let this := assign (set_engineRpm 1200) this in
  let this := assign (set_gear 1) this in
  let this := assign (set_wheelSpeed 0) this in
  assign (set_speed 0) this.

(** The [for] loop of [torqueAtRpm]: [prev] is [curve[i - 1]] and the head
    of [rest] is [curve[i]]; when [rest] is exhausted [prev] is the last
    point of the curve. *)
Fixpoint torqueAtRpm_loop (rpm : R) (prev : R * R) (rest : list (R * R)) : outcome R :=
  match rest with
  | [] => Returns (snd prev)
  | cur :: rest' =>
      let '(r1, t1) := prev in
      let '(r2, t2) := cur in
      if rpm <=? r2 then
        t <- (rpm - r1) // (r2 - r1) ;;
        Returns (t1 + (t2 - t1) * t)
      else torqueAtRpm_loop rpm cur rest'
  end.

(** Reading [curve[0][0]] of an empty curve throws. *)
Definition torqueAtRpm (this : Vehicle) (rpm : R) : outcome R :=
  let curve := Cars.torqueCurve (car this) in
  match curve with
  | [] => Throws
  | first :: rest =>
      if rpm <=? fst first then Returns (snd first)
      else torqueAtRpm_loop rpm first rest
  end.

Definition updateAutomaticGear (this : Vehicle) : Vehicle :=
  let rpm := engineRpm (state this) in
  let maxGear := Z.of_nat (List.length (gearRatios (tuning this))) in
  if (rpm >? 6500) && (gear (state this) <? maxGear)%Z then
    assign (fun s => set_gear (gear s + 1) s) this
  else if (rpm <? 2200) && (gear (state this) >? 1)%Z then
    assign (fun s => set_gear (gear s - 1) s) this
  else this.

Definition shiftUp (this : Vehicle) : Vehicle :=
  if negb (manualMode this) then this
  else
    let maxGear := Z.of_nat (List.length (gearRatios (tuning this))) in
    if (gear (state this) <? maxGear)%Z then
      let this := assign (fun s => set_gear (gear s + 1) s) this in
      set_clutch 0.2 this
    else this.

Definition shiftDown (this : Vehicle) : Vehicle :=
  if negb (manualMode this) then this
  else if (gear (state this) >? 1)%Z then
    let this := assign (fun s => set_gear (gear s - 1) s) this in
    set_clutch 0.2 this
  else this.

Definition update (dt : R) (input : VehicleInput) (this : Vehicle) : outcome Vehicle :=
  let state0 := state this in
  let totalMass := Cars.massKg (car this) * (1 - weightReduction (tuning this) * 0.08) in
  let steerInput := Rmax (-1) (Rmin 1 (steer input)) in
  let steerAngle := steerInput * maxSteerAngle this in
  let speed0 := hypot (x (velocity state0)) (z (velocity state0)) in

  let forwardX := sin (heading state0) in
  let forwardZ := cos (heading state0) in
  let sideX := sin (heading state0 + PI / 2) in
  let sideZ := cos (heading state0 + PI / 2) in

  let longitudinalSpeed := x (velocity state0) * forwardX + z (velocity state0) * forwardZ in
  let lateralSpeed := x (velocity state0) * sideX + z (velocity state0) * sideZ in

  let wheelRadius := Cars.wheelRadiusM (car this) in
  gearRatio <- to_number (nullish (index (gearRatios (tuning this)) (gear state0 - 1))
                                  (index (gearRatios (tuning this)) 0)) ;;
  let driveRatio := gearRatio * finalDrive (tuning this) in
  wheelTurns <- longitudinalSpeed // (2 * PI * wheelRadius) ;;
  let wheelRpm := Rmax 0 (wheelTurns * 60) in
  let this := assign (set_wheelSpeed wheelRpm) this in

  let this := assign (set_engineRpm
                (Rmax 1000 (Rmin revLimiter (wheelRpm * driveRatio + 1000)))) this in
  let this := if negb (manualMode this) then updateAutomaticGear this else this in

  curveTorque <- torqueAtRpm this (engineRpm (state this)) ;;
  let engineTorque := curveTorque * (1 + engineStage (tuning this) * 0.12) in
  let driveTorque := engineTorque * driveRatio * (1 - clutch this) in

  wheelForce <- driveTorque // wheelRadius ;;
  let throttleForce := wheelForce * throttle input in
  let brakeForce := brakeStrength (tuning this) * brake input * 12000 in
  let rolling := rollingResistance (TERRAINS (terrain this))
                 * longitudinalSpeed * longitudinalSpeed * 0.5 in

  let weightTransfer_longitudinal :=
    Cars.springRate (suspension (tuning this)) * (throttleForce - brakeForce) * 0.00004 in
  let weightTransfer_lateral :=
    Cars.antiRoll (suspension (tuning this)) * lateralSpeed * 0.002 in

  let frontGrip := tireGripForTerrain (tireSetup (tuning this)) (terrain this) true
                   * (1 - weightTransfer_longitudinal + weightTransfer_lateral * 0.2) in
  let rearGrip := tireGripForTerrain (tireSetup (tuning this)) (terrain this) false
                  * (1 + weightTransfer_longitudinal - weightTransfer_lateral * 0.2) in

  let gripLoss := if handbrake input >? 0 then handbrakeGripLoss this else 1 in
  let rearGripAdjusted := rearGrip * gripLoss in

  yawPerTan <- longitudinalSpeed // (Cars.wheelbaseM (car this) + 0.2) ;;
  tanSteer <- JS.tan steerAngle ;;
  let yawDesired := yawPerTan * tanSteer in
  let yawError := yawDesired - yawRate (state this) in
  let yawAccel := yawError * (2.2 - Cars.damping (suspension (tuning this))) * 3 in

  let lateralForce := (- lateralSpeed) * 4 * rearGripAdjusted in
  let longitudinalForce := throttleForce - brakeForce - rolling in

  let slipAngle := atan2 lateralSpeed (Rabs longitudinalSpeed + 0.5) in
  slipRatio <- (throttleForce - brakeForce) // Rmax 4000 (totalMass * 3) ;;

  let combinedSlip := Rmin 1 (Rabs slipAngle + Rabs slipRatio) in
  let circle := frictionCircle (Rabs slipRatio) (Rabs slipAngle) in
  let gripFactor := circle * (rearGripAdjusted + frontGrip) * 0.5 in

  let driftFactor :=
    if (combinedSlip >? 0.55) || (handbrake input >? 0.2) then 0.85 else 1 in
  let yawClamp := 1 + (1 - driftAssist this) * 1.2 in

  let this := assign (fun s => set_yawRate (yawRate s + yawAccel * dt) s) this in
  let this := assign (fun s =>
                set_yawRate (Rmax (- yawClamp) (Rmin yawClamp (yawRate s))) s) this in

  accelLong <- (longitudinalForce * gripFactor) // totalMass ;;
  accelLat <- (lateralForce * frontGrip * driftFactor) // totalMass ;;

  let this := assign (fun s => set_velocity
                (set_x (x (velocity s) + (forwardX * accelLong + sideX * accelLat) * dt)
                       (velocity s)) s) this in
  let this := assign (fun s => set_velocity
                (set_z (z (velocity s) + (forwardZ * accelLong + sideZ * accelLat) * dt)
                       (velocity s)) s) this in

  let this := assign (fun s => set_heading (heading s + yawRate s * dt) s) this in

  let traction := 1 - tractionAssist this * Rmax 0 (combinedSlip - 0.4) in
  let this := assign (fun s => set_velocity
                (set_x (x (velocity s) * traction) (velocity s)) s) this in
  let this := assign (fun s => set_velocity
                (set_z (z (velocity s) * traction) (velocity s)) s) this in

  let this := assign (fun s => set_position
                (set_x (x (position s) + x (velocity s) * dt) (position s)) s) this in
  let this := assign (fun s => set_position
                (set_z (z (position s) + z (velocity s) * dt) (position s)) s) this in

  let this := assign (fun s =>
                set_speed (hypot (x (velocity s)) (z (velocity s))) s) this in

  let this := set_clutch (Rmax 0 (clutch this - dt * 2)) this in
  let this := assign (set_tireState
                {| slipAngle := slipAngle; slipRatio := slipRatio;
                   combinedSlip := combinedSlip; gripFactor := gripFactor |}) this in
  Returns this.

(** ** Calls made on a vehicle, one after the other *)

Inductive call : Type :=
| Update (dt : R) (input : VehicleInput)
| ShiftUp
| ShiftDown.

Definition perform (c : call) (this : Vehicle) : outcome Vehicle :=
  match c with
  | Update dt input => update dt input this
  | ShiftUp => Returns (shiftUp this)
  | ShiftDown => Returns (shiftDown this)
  end.

Fixpoint run (calls : list call) (this : Vehicle) : outcome Vehicle :=
  match calls with
  | [] => Returns this
  | c :: calls' => this' <- perform c this ;; run calls' this'
  end.

End Vehicle.

(** * src/game/Game.ts: the tuning a vehicle is created with *)

Module Game.

Import Vehicle.

(** [loadTuning(car)]; [saved] is the tuning parsed from local storage, if
    there is one. *)
Definition loadTuning (saved : option VehicleTuning) (car : Cars.CarSpec) : VehicleTuning :=
  match saved with
  | Some tuning => tuning
  | None =>
      {| finalDrive := Cars.finalDrive car;
         gearRatios := Cars.gearRatios car;
         brakeBias := 0.6;
         brakeStrength := 1;
         weightReduction := 0;
         engineStage := 0;
         suspension := Cars.suspension car;
         tireSetup := Cars.tireSetup car |}
  end.

(** The vehicle of a new game: [new Vehicle(car, loadTuning(car))] with
    nothing saved. *)
Definition newVehicle (car : Cars.CarSpec) : Vehicle :=
  Vehicle.new car (loadTuning None car).

End Game.

(** * src/tracks/RouteGraph.ts *)

Module RouteSegment.
Record t : Type := {
  id : string;
  length : R;
  curvature : R;
  slope : R;
  width : R;
  scenery : R;
  terrain : Terrains.TerrainType
}.
End RouteSegment.

Module RouteNode.
Record t : Type := {
  id : string;
  stage : Z;
  segment : RouteSegment.t;
  left : option string;
  right : option string;
  destination : option string
}.
End RouteNode.

Module RoutePath.
Record t : Type := {
  nodes : list RouteNode.t;
  totalLength : R;
  destination : string
}.
End RoutePath.

Module Point.
Record t : Type := { x : R; y : R; z : R }.
End Point.

Module RouteSamples.
Record t : Type := {
  points : list Point.t;
  widths : list R;
  terrainTypes : list Terrains.TerrainType;
  distances : list R
}.
End RouteSamples.

Module RouteGraph.

Import Terrains.

(** A [Record<string, RouteNode>]: the keys with their nodes, in insertion
    order. *)
Definition graph : Type := list (string * RouteNode.t).

(** [g[key]] *)
Fixpoint lookup (g : graph) (key : string) : option RouteNode.t :=
  match g with
  | [] => None
  | (k, node) :: g' => if String.eqb k key then Some node else lookup g' key
  end.

(** [g[key] = node] *)
Fixpoint store (key : string) (node : RouteNode.t) (g : graph) : graph :=
  match g with
  | [] => [(key, node)]
  | (k, n) :: g' =>
      if String.eqb k key then (k, node) :: g' else (k, n) :: store key node g'
  end.

Definition fork (id : string) (stage : Z) (length curvature slope width scenery : R)
    (terrain : TerrainType) (left right : string) : string * RouteNode.t :=
  (id, {| RouteNode.id := id;
          RouteNode.stage := stage;
          RouteNode.segment :=
            {| RouteSegment.id := id;
               RouteSegment.length := length;
               RouteSegment.curvature := curvature;
               RouteSegment.slope := slope;
               RouteSegment.width := width;
               RouteSegment.scenery := scenery;
               RouteSegment.terrain := terrain |};
          RouteNode.left := Some left;
          RouteNode.right := Some right;
          RouteNode.destination := None |}).

(** The object literal [ROUTE_GRAPH] is declared with. *)
Definition ROUTE_GRAPH_literal : graph :=
  [ fork "s1" 1 900 0.001 0.002 10 0.7 asphalt "s2l" "s2r";
    fork "s2l" 2 850 (-0.0022) 0.004 9 0.9 wet "s3ll" "s3lr";
    fork "s2r" 2 800 0.0026 (-0.003) 9 0.8 dirt "s3rl" "s3rr";
    fork "s3ll" 3 780 0.0032 0.006 8.5 0.95 wet "s4lll" "s4llr";
    fork "s3lr" 3 760 (-0.0034) 0.001 8.8 0.85 asphalt "s4lrl" "s4lrr";
    fork "s3rl" 3 750 0.003 (-0.004) 9 0.7 dirt "s4rll" "s4rlr";
    fork "s3rr" 3 770 (-0.0028) 0.002 9.2 0.6 sand "s4rrl" "s4rrr";
    fork "s4lll" 4 720 0.0035 0.006 8 1 wet "s5llll" "s5lllr";
    fork "s4llr" 4 710 (-0.0036) 0.004 8.2 0.9 wet "s5llrl" "s5llrr";
    fork "s4lrl" 4 700 0.0032 (-0.003) 8.3 0.8 asphalt "s5lrll" "s5lrlr";
    fork "s4lrr" 4 700 (-0.0035) (-0.002) 8.4 0.7 asphalt "s5lrrl" "s5lrrr";
    fork "s4rll" 4 690 0.003 (-0.004) 8.6 0.6 dirt "s5rlll" "s5rllr";
    fork "s4rlr" 4 680 (-0.0032) (-0.003) 8.6 0.6 dirt "s5rlrl" "s5rlrr";
    fork "s4rrl" 4 670 0.0028 0.002 8.8 0.5 sand "s5rrll" "s5rrlr";
    fork "s4rrr" 4 660 (-0.003) 0.003 8.8 0.5 sand "s5rrrl" "s5rrrr" ].

Definition DESTINATIONS : list string := ["A"; "B"; "C"; "D"; "E"].

Definition stage5Nodes : list string :=
  [ "s5llll"; "s5lllr"; "s5llrl"; "s5llrr"; "s5lrll"; "s5lrlr"; "s5lrrl"; "s5lrrr";
    "s5rlll"; "s5rllr"; "s5rlrl"; "s5rlrr"; "s5rrll"; "s5rrlr"; "s5rrrl"; "s5rrrr" ].

(** The node the [forEach] callback builds for [id] at position [index]. *)
Definition stage5Node (id : string) (index : Z) : RouteNode.t :=
  {| RouteNode.id := id;
     RouteNode.stage := 5;
     RouteNode.segment :=
       {| RouteSegment.id := id;
          RouteSegment.length := 650 - IZR (index mod 4) * 15;
          RouteSegment.curvature :=
            (if (index mod 2 =? 0)%Z then 1 else -1) * (0.0025 + IZR (index mod 3) * 0.0004);
          RouteSegment.slope := (IZR (index mod 3) - 1) * 0.002;
          RouteSegment.width := 8.2;
          RouteSegment.scenery := 0.4;
          RouteSegment.terrain := if (index mod 2 =? 0)%Z then grass else asphalt |};
     RouteNode.left := None;
     RouteNode.right := None;
     RouteNode.destination :=
       JS.index DESTINATIONS (index mod Z.of_nat (List.length DESTINATIONS)) |}.

(** [ids.forEach((id, index) => { g[id] = stage5Node(id, index) })],
    started at [index]. *)
Fixpoint forEach_stage5 (ids : list string) (index : Z) (g : graph) : graph :=
  match ids with
  | [] => g
  | id :: ids' => forEach_stage5 ids' (index + 1) (store id (stage5Node id index) g)
  end.

Definition ROUTE_GRAPH : graph := forEach_stage5 stage5Nodes 0 ROUTE_GRAPH_literal.

(** The [while] loop of [buildRoutePath].  Each test of the loop condition
    takes one unit of [fuel]; [None] is a loop still running when the fuel
    is spent.  A [currentId] that is not a key of the graph makes
    [node.segment] throw. *)
Fixpoint buildRoutePath_loop (fuel : nat) (currentId : option string)
    (nodes : list RouteNode.t) (total : R) (destination : string)
    : option (outcome RoutePath.t) :=
  match fuel with
  | O => None
  | S fuel' =>
      match currentId with
      | Some id =>
          if truthy currentId then
            match lookup ROUTE_GRAPH id with
            | None => Some Throws
            | Some node =>
                let nodes := nodes ++ [node] in
                let total := total + RouteSegment.length (RouteNode.segment node) in
                match RouteNode.destination node with
                | Some d =>
                    if truthy (RouteNode.destination node) then
                      Some (Returns {| RoutePath.nodes := nodes;
                                       RoutePath.totalLength := total;
                                       RoutePath.destination := d |})
                    else
                      buildRoutePath_loop fuel'
                        (nullish (RouteNode.left node) (RouteNode.right node))
                        nodes total destination
                | None =>
                    buildRoutePath_loop fuel'
                      (nullish (RouteNode.left node) (RouteNode.right node))
                      nodes total destination
                end
            end
          else
            Some (Returns {| RoutePath.nodes := nodes;
                             RoutePath.totalLength := total;
                             RoutePath.destination := destination |})
      | None =>
          Some (Returns {| RoutePath.nodes := nodes;
                           RoutePath.totalLength := total;
                           RoutePath.destination := destination |})
      end
  end.

Definition buildRoutePath (fuel : nat) (startId : string) : option (outcome RoutePath.t) :=
  buildRoutePath_loop fuel (Some startId) [] 0 "".

(** The names every object inherits from [Object.prototype].  [ROUTE_GRAPH]
    is written as an object literal: under each of these names
    [ROUTE_GRAPH[name]] is a function or an object, and none of them has a
    [left] or a [right]. *)
Definition Object_prototype : list string :=
  ["constructor"; "hasOwnProperty"; "isPrototypeOf"; "propertyIsEnumerable";
   "toLocaleString"; "toString"; "valueOf"; "__proto__";
   "__defineGetter__"; "__defineSetter__"; "__lookupGetter__"; "__lookupSetter__"].

Definition inherited (key : string) : bool :=
  existsb (String.eqb key) Object_prototype.

(** [nextNodeFromChoice(currentId, choice)]; [true] is ["left"].  Under an
    inherited name [node] is there and has neither [left] nor [right];
    under any other name that is not a key [node] is [undefined], and
    reading [node.left] throws. *)
Definition nextNodeFromChoice (currentId : string) (choiceLeft : bool) : outcome string :=
  match lookup ROUTE_GRAPH currentId with
  | None => if inherited currentId then Returns currentId else Throws
  | Some node =>
      Returns (match (if choiceLeft then RouteNode.left node else RouteNode.right node) with
               | Some id => id
               | None => currentId
               end)
  end.

(** The local variables of [buildRouteSamples] and the four arrays it
    fills. *)
Record sampler : Type := {
  at_ : Point.t;
  heading : R;
  total : R;
  out : RouteSamples.t
}.

Definition start : sampler :=
  {| at_ := {| Point.x := 0; Point.y := 0; Point.z := 0 |};
     heading := 0;
     total := 0;
     out := {| RouteSamples.points := []; RouteSamples.widths := [];
               RouteSamples.terrainTypes := []; RouteSamples.distances := [] |} |}.

(** One turn of the inner [for] loop. *)
Definition sample (node : RouteNode.t) (s : sampler) : sampler :=
  let seg := RouteNode.segment node in
  let heading := heading s + RouteSegment.curvature seg * 20 in
  let x := Point.x (at_ s) + sin heading * 20 in
  let z := Point.z (at_ s) + cos heading * 20 in
  let y := Point.y (at_ s) + RouteSegment.slope seg * 20 in
  let total := total s + 20 in
  let p := {| Point.x := x; Point.y := y; Point.z := z |} in
  {| at_ := p;
     heading := heading;
     total := total;
     out := {| RouteSamples.points := RouteSamples.points (out s) ++ [p];
               RouteSamples.widths :=
                 RouteSamples.widths (out s) ++ [RouteSegment.width seg];
               RouteSamples.terrainTypes :=
                 RouteSamples.terrainTypes (out s) ++ [RouteSegment.terrain seg];
               RouteSamples.distances := RouteSamples.distances (out s) ++ [total] |} |}.

(** [for (let i = 0; i < steps; i += 1)], [n] turns being left. *)
Fixpoint sample_times (n : nat) (node : RouteNode.t) (s : sampler) : sampler :=
  match n with
  | O => s
  | S n' => sample_times n' node (sample node s)
  end.

(** The number of turns of the inner loop: none when [steps] is not
    positive. *)
Definition steps (node : RouteNode.t) : Z :=
  floor (RouteSegment.length (RouteNode.segment node) / 20).

(** The body of [nodes.forEach]. *)
Definition sample_node (s : sampler) (node : RouteNode.t) : sampler :=
  sample_times (Z.to_nat (steps node)) node s.

Definition run_sampler (nodes : list RouteNode.t) : sampler :=
  fold_left sample_node nodes start.

Definition buildRouteSamples (nodes : list RouteNode.t) : RouteSamples.t :=
  out (run_sampler nodes).

End RouteGraph.


(** * More of the JavaScript library *)

Module Lib.

(** [a >= b] on numbers. *)
Definition geb (a b : R) : bool := if Rge_dec a b then true else false.

(** [Math.sign(a)] *)
Definition sign (a : R) : R :=
  if Rlt_dec 0 a then 1 else if Rlt_dec a 0 then -1 else 0.

(** [Boolean(a)] of a number: zero is falsy. *)
Definition Boolean (a : R) : bool := if Req_dec_T a 0 then false else true.

(** [Math.ceil(a)] *)
Definition ceil (a : R) : Z := Zceil a.

(** [arr.findIndex(p)], the search having reached index [i]; -1 when no
    element satisfies [p]. *)
Fixpoint findIndex_from {A : Type} (p : A -> bool) (i : Z) (arr : list A) : Z :=
  match arr with
  | [] => (-1)%Z
  | a :: arr' => if p a then i else findIndex_from p (i + 1) arr'
  end.

Definition findIndex {A : Type} (p : A -> bool) (arr : list A) : Z :=
  findIndex_from p 0 arr.

(** A [Set]: its elements in insertion order, none twice. *)
Section Sets.

Context {A : Type} (eqb : A -> A -> bool).

Definition has (a : A) (set : list A) : bool := existsb (eqb a) set.

Definition add (a : A) (set : list A) : list A :=
  if has a set then set else set ++ [a].

Definition delete (a : A) (set : list A) : list A :=
  filter (fun b => negb (eqb a b)) set.

End Sets.

End Lib.

(** * src/input/InputManager.ts *)

Module InputAction.

Inductive t : Set :=
| throttle | brake | steer | handbrake | shiftUp | shiftDown | rewind | camera | pause.

Definition eqb (a b : t) : bool :=
  match a, b with
  | throttle, throttle | brake, brake | steer, steer | handbrake, handbrake
  | shiftUp, shiftUp | shiftDown, shiftDown | rewind, rewind | camera, camera
  | pause, pause => true
  | _, _ => false
  end.

End InputAction.

Module InputState.

Record t : Type := {
  throttle : R;
  brake : R;
  steer : R;
  handbrake : R;
  shiftUp : bool;
  shiftDown : bool;
  rewind : bool;
  camera : bool;
  pause : bool
}.

End InputState.

Module InputManager.

(** [mapping.keyboard]: the key codes bound to each action.  The gamepad
    half of the mapping is read by [readGamepad] only. *)
Definition KeyboardMapping : Type := InputAction.t -> list string.

Definition DEFAULT_MAPPING : KeyboardMapping :=
  fun action =>
    match action with
    | InputAction.throttle => ["KeyW"; "ArrowUp"]
    | InputAction.brake => ["KeyS"; "ArrowDown"]
    | InputAction.steer => ["ArrowLeft"; "KeyA"; "ArrowRight"; "KeyD"]
    | InputAction.handbrake => ["Space"]
    | InputAction.shiftDown => ["KeyQ"]
    | InputAction.shiftUp => ["KeyE"]
    | InputAction.rewind => ["KeyR"]
    | InputAction.camera => ["KeyC"]
    | InputAction.pause => ["Escape"]
    end.

Record InputManager : Type := {
  keys : list string;
  mapping : KeyboardMapping;
  pressed : list InputAction.t
}.

Definition set_keys (v : list string) (this : InputManager) : InputManager :=
  {| keys := v; mapping := mapping this; pressed := pressed this |}.

Definition set_mapping (v : KeyboardMapping) (this : InputManager) : InputManager :=
  {| keys := keys this; mapping := v; pressed := pressed this |}.

Definition set_pressed (v : list InputAction.t) (this : InputManager) : InputManager :=
  {| keys := keys this; mapping := mapping this; pressed := v |}.

(** [new InputManager()] *)
Definition new : InputManager :=
  {| keys := []; mapping := DEFAULT_MAPPING; pressed := [] |}.

(** The two listeners the constructor installs. *)
Definition keydown (code : string) (this : InputManager) : InputManager :=
  set_keys (Lib.add String.eqb code (keys this)) this.

Definition keyup (code : string) (this : InputManager) : InputManager :=
  set_keys (Lib.delete String.eqb code (keys this)) this.

Definition setMapping (mapping : KeyboardMapping) (this : InputManager) : InputManager :=
  set_mapping mapping this.

Definition resetMapping (this : InputManager) : InputManager :=
  set_mapping DEFAULT_MAPPING this.

(** [keys.some((key) => this.keys.has(key))] *)
Definition isKeyDown (this : InputManager) (codes : list string) : bool :=
  existsb (fun key => Lib.has String.eqb key (keys this)) codes.

(** [getState()].  [pad] is what [readGamepad()] returns, the state of the
    first gamepad the browser reports, if there is one. *)
Definition getState (this : InputManager) (pad : option InputState.t) : InputState.t :=
  let throttle := if isKeyDown this (mapping this InputAction.throttle) then 1 else 0 in
  let brake := if isKeyDown this (mapping this InputAction.brake) then 1 else 0 in
  let steer := 0 in
  let steer :=
    if Lib.has String.eqb "ArrowLeft" (keys this) || Lib.has String.eqb "KeyA" (keys this)
    then steer - 1 else steer in
  let steer :=
    if Lib.has String.eqb "ArrowRight" (keys this) || Lib.has String.eqb "KeyD" (keys this)
    then steer + 1 else steer in
  let handbrake := if isKeyDown this (mapping this InputAction.handbrake) then 1 else 0 in
  let shiftDown := isKeyDown this (mapping this InputAction.shiftDown) in
  let shiftUp := isKeyDown this (mapping this InputAction.shiftUp) in
  let rewind := isKeyDown this (mapping this InputAction.rewind) in
  let camera := isKeyDown this (mapping this InputAction.camera) in
  let pause := isKeyDown this (mapping this InputAction.pause) in
  match pad with
  | Some padState =>
      {| InputState.throttle := Rmax throttle (InputState.throttle padState);
         InputState.brake := Rmax brake (InputState.brake padState);
         InputState.steer :=
           if Rabs (InputState.steer padState) >? Rabs steer
           then InputState.steer padState else steer;
         InputState.handbrake := Rmax handbrake (InputState.handbrake padState);
         InputState.shiftUp := shiftUp || InputState.shiftUp padState;
         InputState.shiftDown := shiftDown || InputState.shiftDown padState;
         InputState.rewind := rewind || InputState.rewind padState;
         InputState.camera := camera || InputState.camera padState;
         InputState.pause := pause || InputState.pause padState |}
  | None =>
      {| InputState.throttle := throttle;
         InputState.brake := brake;
         InputState.steer := steer;
         InputState.handbrake := handbrake;
         InputState.shiftUp := shiftUp;
         InputState.shiftDown := shiftDown;
         InputState.rewind := rewind;
         InputState.camera := camera;
         InputState.pause := pause |}
  end.

(** [Boolean(state[action])] *)
Definition active (state : InputState.t) (action : InputAction.t) : bool :=
  match action with
  | InputAction.throttle => Lib.Boolean (InputState.throttle state)
  | InputAction.brake => Lib.Boolean (InputState.brake state)
  | InputAction.steer => Lib.Boolean (InputState.steer state)
  | InputAction.handbrake => Lib.Boolean (InputState.handbrake state)
  | InputAction.shiftUp => InputState.shiftUp state
  | InputAction.shiftDown => InputState.shiftDown state
  | InputAction.rewind => InputState.rewind state
  | InputAction.camera => InputState.camera state
  | InputAction.pause => InputState.pause state
  end.

(** [consume(action)]: what it returns and the manager it leaves. *)
Definition consume (action : InputAction.t) (pad : option InputState.t)
    (this : InputManager) : bool * InputManager :=
  let state := getState this pad in
  let active := active state action in
  if active && negb (Lib.has InputAction.eqb action (pressed this)) then
    (true, set_pressed (Lib.add InputAction.eqb action (pressed this)) this)
  else if negb active then
    (false, set_pressed (Lib.delete InputAction.eqb action (pressed this)) this)
  else (false, this).

End InputManager.

(** * src/game/Game.ts: the race *)

Module GameState.

Inductive t : Set :=
| start | select | garage | countdown | race | checkpoint | fork | finish | results | pause.

Definition eqb (a b : t) : bool :=
  match a, b with
  | start, start | select, select | garage, garage | countdown, countdown
  | race, race | checkpoint, checkpoint | fork, fork | finish, finish
  | results, results | pause, pause => true
  | _, _ => false
  end.

End GameState.

(** ["left" | "right"] *)
Module Side.

Inductive t : Set := left | right.

Definition is_left (s : t) : bool :=
  match s with
  | left => true
  | right => false
  end.

End Side.

(** [node] is [ROUTE_GRAPH[id]], which is [undefined] when [id] is not a key. *)
Module StageProgress.

Record t : Type := {
  node : option RouteNode.t;
  distance : R
}.

End StageProgress.

Module RewindSnapshot.

Record t : Type := {
  timestamp : R;
  positionX : R;
  positionZ : R;
  heading : R;
  velocityX : R;
  velocityZ : R;
  yawRate : R;
  gear : Z;
  engineRpm : R;
  stageDistance : R
}.

End RewindSnapshot.

Module Obstacle.

Record t : Type := {
  distance : R;
  lateral : R;
  hit : bool
}.

Definition set_hit (v : bool) (obs : t) : t :=
  {| distance := distance obs; lateral := lateral obs; hit := v |}.

End Obstacle.

(** What [getSampleAtDistance] returns when it does not return [null]: each
    field is [undefined] when the index is outside its array. *)
Module RoadSample.

Record t : Type := {
  point : option Point.t;
  width : option R;
  terrain : option Terrains.TerrainType
}.

End RoadSample.

(** src/render/Renderer.ts: what the game hands to [renderer.updateCar]. *)
Module CarVisualState.

Record t : Type := {
  position : Point.t;
  heading : R;
  speed : R;
  skidAmount : R;
  terrain : option Terrains.TerrainType
}.

End CarVisualState.

Module Race.

(** The fields of the [Game] object that the race reads and writes.  The
    renderer, the HUD, the overlay and the audio manager are objects of the
    presentation: the calls on them return nothing to the game and are left
    out.  The selected car is read by the constructor and the garage only and
    is a parameter of [new].  [stageTimerBonus] is initialised to 25 and never
    assigned; it is the constant below. *)
Record Game : Type := {
  input : InputManager.InputManager;
  vehicle : Vehicle.Vehicle;
  state : GameState.t;
  stageProgress : StageProgress.t;
  routeSamples : option RouteSamples.t;
  currentNodeId : string;
  timer : R;
  lastFrame : R;
  countdown : R;
  checkpointMessageTimer : R;
  forkChoice : option Side.t;
  forkDistance : R;
  destination : string;
  rewindBuffer : list RewindSnapshot.t;
  rewindCharge : R;
  isPaused : bool;
  cameraModeIndex : Z;
  obstacles : list Obstacle.t
}.

Definition set_input (v : InputManager.InputManager) (this : Game) : Game :=
  {| input := v; vehicle := vehicle this; state := state this;
     stageProgress := stageProgress this; routeSamples := routeSamples this;
     currentNodeId := currentNodeId this; timer := timer this; lastFrame := lastFrame this;
     countdown := countdown this; checkpointMessageTimer := checkpointMessageTimer this;
     forkChoice := forkChoice this; forkDistance := forkDistance this;
     destination := destination this; rewindBuffer := rewindBuffer this;
     rewindCharge := rewindCharge this; isPaused := isPaused this;
     cameraModeIndex := cameraModeIndex this; obstacles := obstacles this |}.

Definition set_vehicle (v : Vehicle.Vehicle) (this : Game) : Game :=
  {| input := input this; vehicle := v; state := state this;
     stageProgress := stageProgress this; routeSamples := routeSamples this;
     currentNodeId := currentNodeId this; timer := timer this; lastFrame := lastFrame this;
     countdown := countdown this; checkpointMessageTimer := checkpointMessageTimer this;
     forkChoice := forkChoice this; forkDistance := forkDistance this;
     destination := destination this; rewindBuffer := rewindBuffer this;
     rewindCharge := rewindCharge this; isPaused := isPaused this;
     cameraModeIndex := cameraModeIndex this; obstacles := obstacles this |}.

Definition set_state (v : GameState.t) (this : Game) : Game :=
  {| input := input this; vehicle := vehicle this; state := v;
     stageProgress := stageProgress this; routeSamples := routeSamples this;
     currentNodeId := currentNodeId this; timer := timer this; lastFrame := lastFrame this;
     countdown := countdown this; checkpointMessageTimer := checkpointMessageTimer this;
     forkChoice := forkChoice this; forkDistance := forkDistance this;
     destination := destination this; rewindBuffer := rewindBuffer this;
     rewindCharge := rewindCharge this; isPaused := isPaused this;
     cameraModeIndex := cameraModeIndex this; obstacles := obstacles this |}.

Definition set_stageProgress (v : StageProgress.t) (this : Game) : Game :=
  {| input := input this; vehicle := vehicle this; state := state this; stageProgress := v;
     routeSamples := routeSamples this; currentNodeId := currentNodeId this;
     timer := timer this; lastFrame := lastFrame this; countdown := countdown this;
     checkpointMessageTimer := checkpointMessageTimer this; forkChoice := forkChoice this;
     forkDistance := forkDistance this; destination := destination this;
     rewindBuffer := rewindBuffer this; rewindCharge := rewindCharge this;
     isPaused := isPaused this; cameraModeIndex := cameraModeIndex this;
     obstacles := obstacles this |}.

Definition set_routeSamples (v : option RouteSamples.t) (this : Game) : Game :=
  {| input := input this; vehicle := vehicle this; state := state this;
     stageProgress := stageProgress this; routeSamples := v;
     currentNodeId := currentNodeId this; timer := timer this; lastFrame := lastFrame this;
     countdown := countdown this; checkpointMessageTimer := checkpointMessageTimer this;
     forkChoice := forkChoice this; forkDistance := forkDistance this;
     destination := destination this; rewindBuffer := rewindBuffer this;
     rewindCharge := rewindCharge this; isPaused := isPaused this;
     cameraModeIndex := cameraModeIndex this; obstacles := obstacles this |}.

Definition set_currentNodeId (v : string) (this : Game) : Game :=
  {| input := input this; vehicle := vehicle this; state := state this;
     stageProgress := stageProgress this; routeSamples := routeSamples this;
     currentNodeId := v; timer := timer this; lastFrame := lastFrame this;
     countdown := countdown this; checkpointMessageTimer := checkpointMessageTimer this;
     forkChoice := forkChoice this; forkDistance := forkDistance this;
     destination := destination this; rewindBuffer := rewindBuffer this;
     rewindCharge := rewindCharge this; isPaused := isPaused this;
     cameraModeIndex := cameraModeIndex this; obstacles := obstacles this |}.

Definition set_timer (v : R) (this : Game) : Game :=
  {| input := input this; vehicle := vehicle this; state := state this;
     stageProgress := stageProgress this; routeSamples := routeSamples this;
     currentNodeId := currentNodeId this; timer := v; lastFrame := lastFrame this;
     countdown := countdown this; checkpointMessageTimer := checkpointMessageTimer this;
     forkChoice := forkChoice this; forkDistance := forkDistance this;
     destination := destination this; rewindBuffer := rewindBuffer this;
     rewindCharge := rewindCharge this; isPaused := isPaused this;
     cameraModeIndex := cameraModeIndex this; obstacles := obstacles this |}.

Definition set_lastFrame (v : R) (this : Game) : Game :=
  {| input := input this; vehicle := vehicle this; state := state this;
     stageProgress := stageProgress this; routeSamples := routeSamples this;
     currentNodeId := currentNodeId this; timer := timer this; lastFrame := v;
     countdown := countdown this; checkpointMessageTimer := checkpointMessageTimer this;
     forkChoice := forkChoice this; forkDistance := forkDistance this;
     destination := destination this; rewindBuffer := rewindBuffer this;
     rewindCharge := rewindCharge this; isPaused := isPaused this;
     cameraModeIndex := cameraModeIndex this; obstacles := obstacles this |}.

Definition set_countdown (v : R) (this : Game) : Game :=
  {| input := input this; vehicle := vehicle this; state := state this;
     stageProgress := stageProgress this; routeSamples := routeSamples this;
     currentNodeId := currentNodeId this; timer := timer this; lastFrame := lastFrame this;
     countdown := v; checkpointMessageTimer := checkpointMessageTimer this;
     forkChoice := forkChoice this; forkDistance := forkDistance this;
     destination := destination this; rewindBuffer := rewindBuffer this;
     rewindCharge := rewindCharge this; isPaused := isPaused this;
     cameraModeIndex := cameraModeIndex this; obstacles := obstacles this |}.

Definition set_checkpointMessageTimer (v : R) (this : Game) : Game :=
  {| input := input this; vehicle := vehicle this; state := state this;
     stageProgress := stageProgress this; routeSamples := routeSamples this;
     currentNodeId := currentNodeId this; timer := timer this; lastFrame := lastFrame this;
     countdown := countdown this; checkpointMessageTimer := v;
     forkChoice := forkChoice this; forkDistance := forkDistance this;
     destination := destination this; rewindBuffer := rewindBuffer this;
     rewindCharge := rewindCharge this; isPaused := isPaused this;
     cameraModeIndex := cameraModeIndex this; obstacles := obstacles this |}.

Definition set_forkChoice (v : option Side.t) (this : Game) : Game :=
  {| input := input this; vehicle := vehicle this; state := state this;
     stageProgress := stageProgress this; routeSamples := routeSamples this;
     currentNodeId := currentNodeId this; timer := timer this; lastFrame := lastFrame this;
     countdown := countdown this; checkpointMessageTimer := checkpointMessageTimer this;
     forkChoice := v; forkDistance := forkDistance this; destination := destination this;
     rewindBuffer := rewindBuffer this; rewindCharge := rewindCharge this;
     isPaused := isPaused this; cameraModeIndex := cameraModeIndex this;
     obstacles := obstacles this |}.

Definition set_forkDistance (v : R) (this : Game) : Game :=
  {| input := input this; vehicle := vehicle this; state := state this;
     stageProgress := stageProgress this; routeSamples := routeSamples this;
     currentNodeId := currentNodeId this; timer := timer this; lastFrame := lastFrame this;
     countdown := countdown this; checkpointMessageTimer := checkpointMessageTimer this;
     forkChoice := forkChoice this; forkDistance := v; destination := destination this;
     rewindBuffer := rewindBuffer this; rewindCharge := rewindCharge this;
     isPaused := isPaused this; cameraModeIndex := cameraModeIndex this;
     obstacles := obstacles this |}.

Definition set_destination (v : string) (this : Game) : Game :=
  {| input := input this; vehicle := vehicle this; state := state this;
     stageProgress := stageProgress this; routeSamples := routeSamples this;
     currentNodeId := currentNodeId this; timer := timer this; lastFrame := lastFrame this;
     countdown := countdown this; checkpointMessageTimer := checkpointMessageTimer this;
     forkChoice := forkChoice this; forkDistance := forkDistance this; destination := v;
     rewindBuffer := rewindBuffer this; rewindCharge := rewindCharge this;
     isPaused := isPaused this; cameraModeIndex := cameraModeIndex this;
     obstacles := obstacles this |}.

Definition set_rewindBuffer (v : list RewindSnapshot.t) (this : Game) : Game :=
  {| input := input this; vehicle := vehicle this; state := state this;
     stageProgress := stageProgress this; routeSamples := routeSamples this;
     currentNodeId := currentNodeId this; timer := timer this; lastFrame := lastFrame this;
     countdown := countdown this; checkpointMessageTimer := checkpointMessageTimer this;
     forkChoice := forkChoice this; forkDistance := forkDistance this;
     destination := destination this; rewindBuffer := v; rewindCharge := rewindCharge this;
     isPaused := isPaused this; cameraModeIndex := cameraModeIndex this;
     obstacles := obstacles this |}.

Definition set_rewindCharge (v : R) (this : Game) : Game :=
  {| input := input this; vehicle := vehicle this; state := state this;
     stageProgress := stageProgress this; routeSamples := routeSamples this;
     currentNodeId := currentNodeId this; timer := timer this; lastFrame := lastFrame this;
     countdown := countdown this; checkpointMessageTimer := checkpointMessageTimer this;
     forkChoice := forkChoice this; forkDistance := forkDistance this;
     destination := destination this; rewindBuffer := rewindBuffer this; rewindCharge := v;
     isPaused := isPaused this; cameraModeIndex := cameraModeIndex this;
     obstacles := obstacles this |}.

Definition set_isPaused (v : bool) (this : Game) : Game :=
  {| input := input this; vehicle := vehicle this; state := state this;
     stageProgress := stageProgress this; routeSamples := routeSamples this;
     currentNodeId := currentNodeId this; timer := timer this; lastFrame := lastFrame this;
     countdown := countdown this; checkpointMessageTimer := checkpointMessageTimer this;
     forkChoice := forkChoice this; forkDistance := forkDistance this;
     destination := destination this; rewindBuffer := rewindBuffer this;
     rewindCharge := rewindCharge this; isPaused := v;
     cameraModeIndex := cameraModeIndex this; obstacles := obstacles this |}.

Definition set_cameraModeIndex (v : Z) (this : Game) : Game :=
  {| input := input this; vehicle := vehicle this; state := state this;
     stageProgress := stageProgress this; routeSamples := routeSamples this;
     currentNodeId := currentNodeId this; timer := timer this; lastFrame := lastFrame this;
     countdown := countdown this; checkpointMessageTimer := checkpointMessageTimer this;
     forkChoice := forkChoice this; forkDistance := forkDistance this;
     destination := destination this; rewindBuffer := rewindBuffer this;
     rewindCharge := rewindCharge this; isPaused := isPaused this; cameraModeIndex := v;
     obstacles := obstacles this |}.

Definition set_obstacles (v : list Obstacle.t) (this : Game) : Game :=
  {| input := input this; vehicle := vehicle this; state := state this;
     stageProgress := stageProgress this; routeSamples := routeSamples this;
     currentNodeId := currentNodeId this; timer := timer this; lastFrame := lastFrame this;
     countdown := countdown this; checkpointMessageTimer := checkpointMessageTimer this;
     forkChoice := forkChoice this; forkDistance := forkDistance this;
     destination := destination this; rewindBuffer := rewindBuffer this;
     rewindCharge := rewindCharge this; isPaused := isPaused this;
     cameraModeIndex := cameraModeIndex this; obstacles := v |}.

Definition stageTimerBonus : R := 25.

(** The result of a call that runs the loop of [buildRoutePath]: [None] is a
    loop still going when the fuel is spent. *)
Definition result (A : Type) : Type := option (outcome A).

Definition andThen {A B : Type} (r : result A) (k : A -> result B) : result B :=
  match r with
  | None => None
  | Some (Returns a) => k a
  | Some Throws => Some Throws
  | Some NonFinite => Some NonFinite
  end.

Definition set_terrain (v : Terrains.TerrainType) (this : Vehicle.Vehicle) : Vehicle.Vehicle :=
  {| Vehicle.state := Vehicle.state this; Vehicle.tuning := Vehicle.tuning this;
     Vehicle.manualMode := Vehicle.manualMode this;
     Vehicle.driftAssist := Vehicle.driftAssist this;
     Vehicle.tractionAssist := Vehicle.tractionAssist this;
     Vehicle.maxSteerAngle := Vehicle.maxSteerAngle this;
     Vehicle.handbrakeGripLoss := Vehicle.handbrakeGripLoss this;
     Vehicle.terrain := v; Vehicle.car := Vehicle.car this;
     Vehicle.clutch := Vehicle.clutch this |}.

(** [this.vehicle.state.f = ...] *)
Definition assign (f : Vehicle.VehicleState -> Vehicle.VehicleState) (this : Game) : Game :=
  set_vehicle (Vehicle.assign f (vehicle this)) this.

Definition set_distance (v : R) (this : Game) : Game :=
  set_stageProgress
    {| StageProgress.node := StageProgress.node (stageProgress this);
       StageProgress.distance := v |} this.

(** [getSampleAtDistance(distance)] *)
Definition getSampleAtDistance (this : Game) (distance : R) : option RoadSample.t :=
  match routeSamples this with
  | None => None
  | Some samples =>
      let index := Lib.findIndex (fun d => Lib.geb d distance)
                     (RouteSamples.distances samples) in
      let idx :=
        if (index =? -1)%Z
        then (Z.of_nat (List.length (RouteSamples.distances samples)) - 1)%Z
        else index in
      Some {| RoadSample.point := JS.index (RouteSamples.points samples) idx;
              RoadSample.width := JS.index (RouteSamples.widths samples) idx;
              RoadSample.terrain := JS.index (RouteSamples.terrainTypes samples) idx |}
  end.

(** The [for] loop of [createObstacles] from the test of [i < last] on: [i]
    is the loop variable and [k] the number of calls of [Math.random] so
    far.  Each turn takes one unit of [fuel]. *)
Fixpoint createObstacles_loop (fuel : nat) (random : nat -> R) (last i : R) (k : nat)
    (obstacles : list Obstacle.t) : list Obstacle.t :=
  match fuel with
  | O => obstacles
  | S fuel' =>
      if i <? last then
        createObstacles_loop fuel' random last (i + 500) (S k)
          (obstacles ++ [{| Obstacle.distance := i;
                            Obstacle.lateral := (random k - 0.5) * 5;
                            Obstacle.hit := false |}])
      else obstacles
  end.

(** Fuel for every turn of [for (let i = 600; i < last; i += 500)]: the
    loop leaves by its test (lemma [createObstacles_loop_exit]). *)
Definition obstacle_turns (last : R) : nat :=
  Z.to_nat (Lib.ceil ((last - 600) / 500)).

(** [createObstacles()].  [random k] is what the call number [k] of
    [Math.random()] returns.  With no sample the bound of the loop is
    [undefined] and the test fails at once. *)
Definition createObstacles (random : nat -> R) (this : Game) : Game :=
  let this := set_obstacles [] this in
  match routeSamples this with
  | None => this
  | Some samples =>
      let distances := RouteSamples.distances samples in
      match JS.index distances (Z.of_nat (List.length distances) - 1) with
      | None => this
      | Some last =>
          set_obstacles
            (createObstacles_loop (obstacle_turns last) random last 600 O (obstacles this))
            this
      end
  end.

(** The position [updateObstacleVisuals] computes for one obstacle.  Reading
    [point.x] of a sample whose point is [undefined] throws. *)
Definition obstaclePosition (this : Game) (obs : Obstacle.t) : outcome Point.t :=
  match getSampleAtDistance this (Obstacle.distance obs) with
  | None => Returns {| Point.x := 0; Point.y := 0; Point.z := 0 |}
  | Some sample =>
      let nextSample :=
        match getSampleAtDistance this (Obstacle.distance obs + 20) with
        | Some next => next
        | None => sample
        end in
      match RoadSample.point nextSample, RoadSample.point sample with
      | Some nextPoint, Some point =>
          let heading := atan2 (Point.x nextPoint - Point.x point)
                               (Point.z nextPoint - Point.z point) in
          let rightX := cos heading in
          let rightZ := - sin heading in
          Returns {| Point.x := Point.x point + rightX * Obstacle.lateral obs;
                     Point.y := Point.y point + 0.2;
                     Point.z := Point.z point + rightZ * Obstacle.lateral obs |}
      | _, _ => Throws
      end
  end.

Fixpoint obstaclePositions (this : Game) (obstacles : list Obstacle.t)
    : outcome (list Point.t) :=
  match obstacles with
  | [] => Returns []
  | obs :: rest =>
      position <- obstaclePosition this obs ;;
      positions <- obstaclePositions this rest ;;
      Returns (position :: positions)
  end.

(** [updateObstacleVisuals()]: the positions handed to the renderer, if any
    are. *)
Definition updateObstacleVisuals (this : Game) : outcome (option (list Point.t)) :=
  match routeSamples this with
  | None => Returns None
  | Some _ =>
      positions <- obstaclePositions this (obstacles this) ;;
      Returns (Some positions)
  end.

(** [resetRoute()] *)
Definition resetRoute (fuel : nat) (random : nat -> R) (this : Game) : result Game :=
  andThen (RouteGraph.buildRoutePath fuel (currentNodeId this)) (fun path =>
    let this := set_destination (RoutePath.destination path) this in
    let this := set_routeSamples
                  (Some (RouteGraph.buildRouteSamples (RoutePath.nodes path))) this in
    let this := set_stageProgress
                  {| StageProgress.node :=
                       RouteGraph.lookup RouteGraph.ROUTE_GRAPH (currentNodeId this);
                     StageProgress.distance := 0 |} this in
    let this := createObstacles random this in
    Some (_ <- updateObstacleVisuals this ;; Returns this)).

(** [startRace()] *)
Definition startRace (fuel : nat) (random : nat -> R) (this : Game) : result Game :=
  let this := set_state GameState.countdown this in
  let this := set_countdown 3 this in
  let this := set_timer 55 this in
  let this := set_rewindCharge 1 this in
  let this := set_rewindBuffer [] this in
  let this := set_currentNodeId "s1" this in
  let this := set_vehicle (Vehicle.reset 0 0 (vehicle this)) this in
  resetRoute fuel random this.

(** [advanceStage(choice)] *)
Definition advanceStage (fuel : nat) (random : nat -> R) (choice : Side.t) (this : Game)
    : result Game :=
  match StageProgress.node (stageProgress this) with
  | None => Some Throws
  | Some node =>
      andThen (Some (RouteGraph.nextNodeFromChoice (RouteNode.id node) (Side.is_left choice)))
        (fun nextId =>
           match RouteGraph.lookup RouteGraph.ROUTE_GRAPH nextId with
           | None => Some Throws
           | Some nextNode =>
               if truthy (RouteNode.destination nextNode) then
                 let this := set_state GameState.finish this in
                 let this := set_checkpointMessageTimer 3 this in
                 Some (Returns this)
               else
                 let this := set_currentNodeId nextId this in
                 let this := set_stageProgress
                               {| StageProgress.node := Some nextNode;
                                  StageProgress.distance := 0 |} this in
                 let this := set_vehicle (Vehicle.reset 0 0 (vehicle this)) this in
                 andThen (resetRoute fuel random this) (fun this =>
                   let this := set_rewindCharge 1 this in
                   let this := set_state GameState.race this in
                   Some (Returns this))
           end)
  end.

(** The object [recordRewindSnapshot] pushes. *)
Definition snapshot (now : R) (this : Game) : RewindSnapshot.t :=
  let state := Vehicle.state (vehicle this) in
  {| RewindSnapshot.timestamp := now;
     RewindSnapshot.positionX := Vehicle.x (Vehicle.position state);
     RewindSnapshot.positionZ := Vehicle.z (Vehicle.position state);
     RewindSnapshot.heading := Vehicle.heading state;
     RewindSnapshot.velocityX := Vehicle.x (Vehicle.velocity state);
     RewindSnapshot.velocityZ := Vehicle.z (Vehicle.velocity state);
     RewindSnapshot.yawRate := Vehicle.yawRate state;
     RewindSnapshot.gear := Vehicle.gear state;
     RewindSnapshot.engineRpm := Vehicle.engineRpm state;
     RewindSnapshot.stageDistance := StageProgress.distance (stageProgress this) |}.

(** [recordRewindSnapshot()]; [now] is what [performance.now()] returns. *)
Definition recordRewindSnapshot (now : R) (this : Game) : Game :=
  let this := set_rewindBuffer (rewindBuffer this ++ [snapshot now this]) this in
  set_rewindBuffer
    (filter (fun snap => now - RewindSnapshot.timestamp snap <? 3000) (rewindBuffer this))
    this.

(** [tryRewind()] *)
Definition tryRewind (this : Game) : Game :=
  if (rewindCharge this <=? 0) || (List.length (rewindBuffer this) =? 0)%nat then this
  else
    match rewindBuffer this with
    | [] => this
    | snapshot :: _ =>
        let this := assign (fun s => Vehicle.set_position
                      (Vehicle.set_x (RewindSnapshot.positionX snapshot) (Vehicle.position s)) s)
                      this in
        let this := assign (fun s => Vehicle.set_position
                      (Vehicle.set_z (RewindSnapshot.positionZ snapshot) (Vehicle.position s)) s)
                      this in
        let this := assign (Vehicle.set_heading (RewindSnapshot.heading snapshot)) this in
        let this := assign (fun s => Vehicle.set_velocity
                      (Vehicle.set_x (RewindSnapshot.velocityX snapshot) (Vehicle.velocity s)) s)
                      this in
        let this := assign (fun s => Vehicle.set_velocity
                      (Vehicle.set_z (RewindSnapshot.velocityZ snapshot) (Vehicle.velocity s)) s)
                      this in
        let this := assign (Vehicle.set_yawRate (RewindSnapshot.yawRate snapshot)) this in
        let this := assign (Vehicle.set_gear (RewindSnapshot.gear snapshot)) this in
        let this := assign (Vehicle.set_engineRpm (RewindSnapshot.engineRpm snapshot)) this in
        let this := set_distance (RewindSnapshot.stageDistance snapshot) this in
        let this := set_rewindCharge (rewindCharge this - 1) this in
        set_rewindBuffer [] this
    end.

(** [updateCarWorldTransform()]: what is handed to [renderer.updateCar], if
    anything is. *)
Definition updateCarWorldTransform (this : Game) : outcome (option CarVisualState.t) :=
  match getSampleAtDistance this (StageProgress.distance (stageProgress this)) with
  | None => Returns None
  | Some sample =>
      let nextSample :=
        match getSampleAtDistance this (StageProgress.distance (stageProgress this) + 20) with
        | Some next => next
        | None => sample
        end in
      match RoadSample.point nextSample, RoadSample.point sample with
      | Some nextPoint, Some point =>
          let heading := atan2 (Point.x nextPoint - Point.x point)
                               (Point.z nextPoint - Point.z point) in
          let state := Vehicle.state (vehicle this) in
          let lateral := Vehicle.x (Vehicle.position state) in
          let rightX := cos heading in
          let rightZ := - sin heading in
          let worldX := Point.x point + rightX * lateral in
          let worldZ := Point.z point + rightZ * lateral in
          let worldY := Point.y point + 0.3 in
          Returns (Some
            {| CarVisualState.position :=
                 {| Point.x := worldX; Point.y := worldY; Point.z := worldZ |};
               CarVisualState.heading := heading + Vehicle.heading state;
               CarVisualState.speed := Vehicle.speed state;
               CarVisualState.skidAmount :=
                 TireModel.combinedSlip (Vehicle.tireState state);
               CarVisualState.terrain := RoadSample.terrain sample |})
      | _, _ => Throws
      end
  end.

(** The callback of [this.obstacles.forEach] in [updateProgress], on one
    obstacle: the game and the obstacle it leaves. *)
Definition hitObstacle (this : Game) (obs : Obstacle.t) : Game * Obstacle.t :=
  if Obstacle.hit obs then (this, obs)
  else if (Rabs (StageProgress.distance (stageProgress this) - Obstacle.distance obs) <? 8)
          && (Rabs (Vehicle.x (Vehicle.position (Vehicle.state (vehicle this)))
                    - Obstacle.lateral obs) <? 2)
  then
    let obs := Obstacle.set_hit true obs in
    let this := assign (fun s => Vehicle.set_velocity
                  (Vehicle.set_z (Vehicle.z (Vehicle.velocity s) * 0.4) (Vehicle.velocity s)) s)
                  this in
    let this := set_timer (Rmax 0 (timer this - 2)) this in
    (this, obs)
  else (this, obs).

Fixpoint forEach_obstacle (this : Game) (obstacles : list Obstacle.t)
    : Game * list Obstacle.t :=
  match obstacles with
  | [] => (this, [])
  | obs :: rest =>
      let '(this, obs) := hitObstacle this obs in
      let '(this, rest) := forEach_obstacle this rest in
      (this, obs :: rest)
  end.

(** The end of [updateProgress], from the test for the state ["checkpoint"]
    on. *)
Definition updateProgress_tail (dt : R) (fuel : nat) (random : nat -> R) (this : Game)
    : result Game :=
  let this :=
    if GameState.eqb (state this) GameState.checkpoint then
      let this := set_checkpointMessageTimer (checkpointMessageTimer this - dt) this in
      if checkpointMessageTimer this <=? 0 then
        let this := set_state GameState.fork this in
        let this := set_forkDistance 140 this in
        set_forkChoice None this
      else this
    else this in
  andThen
    (if GameState.eqb (state this) GameState.fork then
       let this := set_forkDistance
                     (forkDistance this
                      - Vehicle.speed (Vehicle.state (vehicle this)) * dt) this in
       let this :=
         if Vehicle.x (Vehicle.position (Vehicle.state (vehicle this))) <? -1.2 then
           set_forkChoice (Some Side.left) this
         else if Vehicle.x (Vehicle.position (Vehicle.state (vehicle this))) >? 1.2 then
           set_forkChoice (Some Side.right) this
         else this in
       match forkChoice this with
       | Some choice =>
           if forkDistance this <=? 0 then advanceStage fuel random choice this
           else Some (Returns this)
       | None => Some (Returns this)
       end
     else Some (Returns this))
    (fun this =>
       if GameState.eqb (state this) GameState.race
          || GameState.eqb (state this) GameState.fork
          || GameState.eqb (state this) GameState.checkpoint
       then Some (_ <- updateCarWorldTransform this ;; Returns this)
       else Some (Returns this)).

(** [updateProgress(dt)]; [now] is what [performance.now()] returns. *)
Definition updateProgress (dt now : R) (fuel : nat) (random : nat -> R) (this : Game)
    : result Game :=
  match routeSamples this with
  | None => Some (Returns this)
  | Some _ =>
      let this := set_timer (timer this - dt) this in
      if timer this <=? 0 then
        let this := set_timer 0 this in
        let this := set_state GameState.results this in
        Some (Returns this)
      else
        match StageProgress.node (stageProgress this) with
        | None => Some Throws
        | Some node =>
            let stageLength := RouteSegment.length (RouteNode.segment node) in
            let forwardSpeed := Vehicle.z (Vehicle.velocity (Vehicle.state (vehicle this))) in
            let this := set_distance
                          (Rmax 0 (StageProgress.distance (stageProgress this)
                                   + forwardSpeed * dt)) this in
            let roadSample :=
              getSampleAtDistance this (StageProgress.distance (stageProgress this)) in
            let roadWidth :=
              match roadSample with
              | Some sample =>
                  match RoadSample.width sample with
                  | Some width => width
                  | None => 8
                  end
              | None => 8
              end in
            let terrain :=
              match roadSample with
              | Some sample =>
                  match RoadSample.terrain sample with
                  | Some terrain => terrain
                  | None => Terrains.asphalt
                  end
              | None => Terrains.asphalt
              end in
            let this := set_vehicle (set_terrain terrain (vehicle this)) this in
            let this :=
              if Rabs (Vehicle.x (Vehicle.position (Vehicle.state (vehicle this))))
                 >? roadWidth
              then
                let this := assign (fun s => Vehicle.set_position
                              (Vehicle.set_x
                                 (Lib.sign (Vehicle.x (Vehicle.position s)) * roadWidth)
                                 (Vehicle.position s)) s) this in
                let this := assign (fun s => Vehicle.set_velocity
                              (Vehicle.set_x (Vehicle.x (Vehicle.velocity s) * 0.4)
                                 (Vehicle.velocity s)) s) this in
                let this := assign (fun s => Vehicle.set_velocity
                              (Vehicle.set_z (Vehicle.z (Vehicle.velocity s) * 0.6)
                                 (Vehicle.velocity s)) s) this in
                set_timer (Rmax 0 (timer this - 1.5)) this
              else this in
            let '(this, obstacles) := forEach_obstacle this (obstacles this) in
            let this := set_obstacles obstacles this in
            let this := recordRewindSnapshot now this in
            if Lib.geb (StageProgress.distance (stageProgress this)) stageLength
               && GameState.eqb (state this) GameState.race
            then
              if truthy (RouteNode.destination node) then
                let this := set_state GameState.finish this in
                let this := set_checkpointMessageTimer 3 this in
                Some (Returns this)
              else
                let this := set_state GameState.checkpoint this in
                let this := set_checkpointMessageTimer 2.5 this in
                let this := set_timer (timer this + stageTimerBonus) this in
                updateProgress_tail dt fuel random this
            else updateProgress_tail dt fuel random this
        end
  end.

(** [togglePause()] *)
Definition togglePause (this : Game) : Game :=
  let this := set_isPaused (negb (isPaused this)) this in
  if isPaused this then set_state GameState.pause this
  else if GameState.eqb (state this) GameState.pause then set_state GameState.race this
  else this.

(** [cycleCamera()]; [%] is the remainder of the truncated division. *)
Definition cycleCamera (this : Game) : Game :=
  set_cameraModeIndex (Z.rem (cameraModeIndex this + 1) 2) this.

(** [this.input.consume(action)] *)
Definition consume (action : InputAction.t) (pad : option InputState.t) (this : Game)
    : bool * Game :=
  let '(consumed, input) := InputManager.consume action pad (input this) in
  (consumed, set_input input this).

(** [updateHud()]: reading the stage of a node that is [undefined]
    throws. *)
Definition updateHud (this : Game) : outcome Game :=
  match StageProgress.node (stageProgress this) with
  | None => Throws
  | Some _ => Returns this
  end.

(** The vehicle input [update] builds from the input state. *)
Definition vehicleInput (inputState : InputState.t) : Vehicle.VehicleInput :=
  {| Vehicle.throttle := InputState.throttle inputState;
     Vehicle.brake := InputState.brake inputState;
     Vehicle.steer := InputState.steer inputState;
     Vehicle.handbrake := InputState.handbrake inputState |}.

(** The block of [update] for the states ["race"], ["checkpoint"] and
    ["fork"]. *)
Definition drive (dt now : R) (fuel : nat) (random : nat -> R) (pad : option InputState.t)
    (inputState : InputState.t) (this : Game) : result Game :=
  andThen (Some (Vehicle.update dt (vehicleInput inputState) (vehicle this))) (fun vehicle' =>
    let this := set_vehicle vehicle' this in
    let this :=
      if InputState.shiftUp inputState then
        let '(consumed, this) := consume InputAction.shiftUp pad this in
        if consumed then set_vehicle (Vehicle.shiftUp (vehicle this)) this else this
      else this in
    let this :=
      if InputState.shiftDown inputState then
        let '(consumed, this) := consume InputAction.shiftDown pad this in
        if consumed then set_vehicle (Vehicle.shiftDown (vehicle this)) this else this
      else this in
    let '(consumed, this) := consume InputAction.camera pad this in
    let this := if consumed then cycleCamera this else this in
    let '(consumed, this) := consume InputAction.rewind pad this in
    let this := if consumed then tryRewind this else this in
    updateProgress dt now fuel random this).

(** [update(dt)].  [pad] is what [readGamepad()] returns during the frame
    and [now] what [performance.now()] returns. *)
Definition update (dt now : R) (fuel : nat) (random : nat -> R) (pad : option InputState.t)
    (this : Game) : result Game :=
  if GameState.eqb (state this) GameState.start then Some (Returns this)
  else
    let inputState := InputManager.getState (input this) pad in
    let '(consumed, this) := consume InputAction.pause pad this in
    let this := if consumed then togglePause this else this in
    if isPaused this then Some (Returns this)
    else
      let this :=
        if GameState.eqb (state this) GameState.countdown then
          let this := set_countdown (countdown this - dt) this in
          if countdown this <=? 0 then set_state GameState.race this else this
        else this in
      andThen
        (if GameState.eqb (state this) GameState.race
            || GameState.eqb (state this) GameState.checkpoint
            || GameState.eqb (state this) GameState.fork
         then drive dt now fuel random pad inputState this
         else Some (Returns this))
        (fun this =>
           let this :=
             if GameState.eqb (state this) GameState.finish then
               let this :=
                 set_checkpointMessageTimer (checkpointMessageTimer this - dt) this in
               if checkpointMessageTimer this <=? 0 then set_state GameState.results this
               else this
             else this in
           Some (updateHud this)).

(** [loop(time)] up to the call of the renderer; [time] is the time stamp
    the browser passes to the callback of [requestAnimationFrame]. *)
Definition loop (time now : R) (fuel : nat) (random : nat -> R) (pad : option InputState.t)
    (this : Game) : result Game :=
  let dt := Rmin 0.05 ((time - lastFrame this) / 1000) in
  let this := set_lastFrame time this in
  update dt now fuel random pad this.

(** [new Game(renderer, input, hud, overlay)], with the field initialisers
    of the class.  [saved] is the tuning found in local storage, if there is
    one, and [now] what [performance.now()] returns. *)
Definition new (fuel : nat) (random : nat -> R) (saved : option Vehicle.VehicleTuning)
    (now : R) (input : InputManager.InputManager) : result Game :=
  let car := nth 0 Cars.CARS Cars.m3 in
  resetRoute fuel random
    {| input := input;
       vehicle := Vehicle.new car (Game.loadTuning saved car);
       state := GameState.start;
       stageProgress :=
         {| StageProgress.node := RouteGraph.lookup RouteGraph.ROUTE_GRAPH "s1";
            StageProgress.distance := 0 |};
       routeSamples := None;
       currentNodeId := "s1";
       timer := 55;
       lastFrame := now;
       countdown := 3;
       checkpointMessageTimer := 0;
       forkChoice := None;
       forkDistance := 0;
       destination := "A";
       rewindBuffer := [];
       rewindCharge := 1;
       isPaused := false;
       cameraModeIndex := 0;
       obstacles := [] |}.

End Race.

(** * Contracts *)

Module Contract.

Import Vehicle.

(** The car and tuning a vehicle is expected to be built from: the
    quantities [update] divides by are not zero, there is a gear and a
    torque curve to read, and the steering lock stays short of a right
    angle. *)
Definition well_formed (this : Vehicle) : Prop :=
  Cars.wheelRadiusM (car this) <> 0 /\
  Cars.wheelbaseM (car this) + 0.2 <> 0 /\
  Cars.massKg (car this) * (1 - weightReduction (tuning this) * 0.08) <> 0 /\
  gearRatios (tuning this) <> [] /\
  Cars.torqueCurve (car this) <> [] /\
  Rabs (maxSteerAngle this) < PI / 2.

(** The gear is an index into the gear ratios, counted from 1. *)
Definition gear_in_range (this : Vehicle) : Prop :=
  (1 <= gear (state this) <= Z.of_nat (List.length (gearRatios (tuning this))))%Z.

(** Breakpoints of a torque curve in strictly increasing order of RPM. *)
Definition increasing (curve : list (R * R)) : Prop :=
  Sorted (fun p q => fst p < fst q) curve.

(** Everything of a vehicle that is not its state or its clutch. *)
Definition same_setup (a b : Vehicle) : Prop :=
  car a = car b /\
  tuning a = tuning b /\
  terrain a = terrain b /\
  manualMode a = manualMode b /\
  driftAssist a = driftAssist b /\
  tractionAssist a = tractionAssist b /\
  maxSteerAngle a = maxSteerAngle b /\
  handbrakeGripLoss a = handbrakeGripLoss b.

Definition maxGear (this : Vehicle) : Z :=
  Z.of_nat (List.length (gearRatios (tuning this))).

(** The gear the automatic gearbox goes to at engine speed [rpm]: one up
    past 6500 when below the top gear; otherwise one down under 2200 when
    above gear 1; otherwise the same. *)
Definition automatic_shift (rpm : R) (gear maxGear : Z) : Z :=
  if (rpm >? 6500) && (gear <? maxGear)%Z then (gear + 1)%Z
  else if (rpm <? 2200) && (gear >? 1)%Z then (gear - 1)%Z
  else gear.

(** The conditions under which the automatic gearbox shifts. *)
Definition shifts_up (rpm : R) (gear maxGear : Z) : Prop :=
  rpm > 6500 /\ (gear < maxGear)%Z.

Definition shifts_down (rpm : R) (gear : Z) : Prop :=
  rpm < 2200 /\ (gear > 1)%Z.

(** The gear after the shifting step of [update], the engine speed having
    been written to the state. *)
Definition next_gear (this : Vehicle) : Z :=
  if manualMode this then gear (state this)
  else automatic_shift (engineRpm (state this)) (gear (state this)) (maxGear this).

(** The input with each component clamped to its documented range:
    throttle, brake and handbrake to [0, 1], steer to [-1, 1]. *)
Definition clamped (input : VehicleInput) : VehicleInput :=
  {| throttle := Rmax 0 (Rmin 1 (throttle input));
     brake := Rmax 0 (Rmin 1 (brake input));
     steer := Rmax (-1) (Rmin 1 (steer input));
     handbrake := Rmax 0 (Rmin 1 (handbrake input)) |}.

(** The input with the steer and the handbrake clamped to their ranges and
    the throttle and the brake as given. *)
Definition steer_and_handbrake_clamped (input : VehicleInput) : VehicleInput :=
  {| throttle := throttle input;
     brake := brake input;
     steer := Rmax (-1) (Rmin 1 (steer input));
     handbrake := Rmax 0 (Rmin 1 (handbrake input)) |}.


(** The number of samples a list of nodes is rasterized into. *)
Definition sample_count (nodes : list RouteNode.t) : nat :=
  fold_right (fun node n => (Z.to_nat (RouteGraph.steps node) + n)%nat) O nodes.



(** The sum of the segment lengths of a list of nodes. *)
Definition length_sum (nodes : list RouteNode.t) : R :=
  fold_right (fun node acc => RouteSegment.length (RouteNode.segment node) + acc) 0 nodes.

(** The distances written so far are 20, 40, ... up to [20 * k], the
    running total. *)
Definition counted (k : nat) (s : RouteGraph.sampler) : Prop :=
  RouteSamples.distances (RouteGraph.out s) = map (fun i => 20 * INR i) (seq 1 k) /\
  RouteGraph.total s = 20 * INR k.

(** Each node of the list but the last has a left child, the node that
    follows it. *)
Fixpoint descends_left (nodes : list RouteNode.t) : Prop :=
  match nodes with
  | [] => True
  | node :: rest =>
      match rest with
      | [] => True
      | next :: _ => RouteNode.left node = Some (RouteNode.id next)
      end /\ descends_left rest
  end.

End Contract.

(** * Scenarios *)

Module Scenario.

Import Vehicle.

(** The M3 of a new game, at rest on asphalt. *)
Definition m3 : Vehicle := Game.newVehicle Cars.m3.

(** One frame at 62.5 frames per second. *)
Definition frame : R := 0.016.

Definition coasting : VehicleInput :=
  {| throttle := 0; brake := 0; steer := 0; handbrake := 0 |}.

Definition braking : VehicleInput :=
  {| throttle := 0; brake := 1; steer := 0; handbrake := 0 |}.

(** A brake value of twice the documented maximum. *)
Definition overbraking : VehicleInput :=
  {| throttle := 0; brake := 2; steer := 0; handbrake := 0 |}.

(** A throttle value of twice the documented maximum. *)
Definition overthrottle : VehicleInput :=
  {| throttle := 2; brake := 0; steer := 0; handbrake := 0 |}.

(** A steer value and a handbrake value outside their ranges. *)
Definition oversteering : VehicleInput :=
  {| throttle := 1; brake := 0; steer := 3; handbrake := 5 |}.

(** A straight, level node of the given length. *)
Definition straight (id : string) (length : R) : RouteNode.t :=
  {| RouteNode.id := id;
     RouteNode.stage := 1;
     RouteNode.segment :=
       {| RouteSegment.id := id;
          RouteSegment.length := length;
          RouteSegment.curvature := 0;
          RouteSegment.slope := 0;
          RouteSegment.width := 10;
          RouteSegment.scenery := 0;
          RouteSegment.terrain := Terrains.asphalt |};
     RouteNode.left := None;
     RouteNode.right := None;
     RouteNode.destination := None |}.

(** Segments of 45, 10 and 100 meters. *)
Definition forwards : list RouteNode.t :=
  [straight "a" 45; straight "b" 10; straight "c" 100].

End Scenario.


(** * Invariants *)

(** What the browser supplies to one animation frame: the time stamp of the
    frame, the time [performance.now()] returns, the values [Math.random()]
    returns and the state of the gamepad. *)
Module Frame.

Record t : Type := {
  time : R;
  now : R;
  random : nat -> R;
  pad : option InputState.t
}.

End Frame.

Module Invariant.

Import Vehicle.

(** ** Tires *)

(** The grip of a compound with both tires at the pressure [psi]. *)
Definition grip_of (compound : TireModel.TireCompound) (psi : R)
    (terrain : Terrains.TerrainType) (isFront : bool) : R :=
  TireModel.tireGripForTerrain
    {| TireModel.compound := compound;
       TireModel.pressureFrontPsi := psi;
       TireModel.pressureRearPsi := psi |}
    terrain isFront.

(** ** The vehicle *)

(** The vehicle with other values for the engine speed, the wheel speed,
    the speed and the tire state. *)
Definition forget (e w sp : R) (ts : TireModel.TireState) (this : Vehicle) : Vehicle :=
  assign (fun s => set_tireState ts (set_speed sp (set_wheelSpeed w (set_engineRpm e s)))) this.

(** The vehicle neither moves nor turns. *)
Definition at_rest (this : Vehicle) : Prop :=
  x (velocity (state this)) = 0 /\ z (velocity (state this)) = 0 /\
  yawRate (state this) = 0.

(** Calls of [update], one for each time step and input of the list. *)
Definition frames (fs : list (R * VehicleInput)) : list call :=
  map (fun f => Update (fst f) (snd f)) fs.

(** ** The route graph *)

(** A node with two children, different from each other, that are nodes of
    the graph one stage further, and with no destination. *)
Definition is_fork (node : RouteNode.t) : Prop :=
  exists l r ln rn,
    RouteNode.left node = Some l /\ RouteNode.right node = Some r /\ l <> r /\
    RouteGraph.lookup RouteGraph.ROUTE_GRAPH l = Some ln /\
    RouteGraph.lookup RouteGraph.ROUTE_GRAPH r = Some rn /\
    RouteNode.stage ln = (RouteNode.stage node + 1)%Z /\
    RouteNode.stage rn = (RouteNode.stage node + 1)%Z /\
    RouteNode.destination node = None.

(** A node with no child and with one of the five destinations. *)
Definition is_leaf (node : RouteNode.t) : Prop :=
  RouteNode.left node = None /\ RouteNode.right node = None /\
  exists d, RouteNode.destination node = Some d /\ In d RouteGraph.DESTINATIONS.

(** The stages from [stage] to 5. *)
Definition stages_from (stage : Z) : list Z :=
  map (fun i => (stage + Z.of_nat i)%Z) (seq 0 (Z.to_nat (6 - stage))).

(** The number of turns the loop of [buildRoutePath] takes from a node. *)
Definition turns_from (node : RouteNode.t) : nat := Z.to_nat (6 - RouteNode.stage node).

(** The value [f] of each node, once for every sample the node gets. *)
Definition per_sample {A : Type} (f : RouteNode.t -> A) (nodes : list RouteNode.t) : list A :=
  flat_map (fun node => repeat (f node) (Z.to_nat (RouteGraph.steps node))) nodes.

(** ** Input *)

(** The analog values of an input state are within their ranges:
    throttle, brake and handbrake within [0, 1], steer within [-1, 1]. *)
Definition analog_in_range (s : InputState.t) : Prop :=
  0 <= InputState.throttle s <= 1 /\
  0 <= InputState.brake s <= 1 /\
  -1 <= InputState.steer s <= 1 /\
  0 <= InputState.handbrake s <= 1.

(** ** The race *)

(** The obstacle the turn number [j] of the loop of [createObstacles]
    places. *)
Definition obstacle_at (random : nat -> R) (j : nat) : Obstacle.t :=
  {| Obstacle.distance := 600 + 500 * INR j;
     Obstacle.lateral := (random j - 0.5) * 5;
     Obstacle.hit := false |}.

(** The state a rewind to [snapshot] leaves of the state [s]. *)
Definition restored (snapshot : RewindSnapshot.t) (s : VehicleState) : VehicleState :=
  {| position := {| x := RewindSnapshot.positionX snapshot;
                    z := RewindSnapshot.positionZ snapshot |};
     velocity := {| x := RewindSnapshot.velocityX snapshot;
                    z := RewindSnapshot.velocityZ snapshot |};
     heading := RewindSnapshot.heading snapshot;
     yawRate := RewindSnapshot.yawRate snapshot;
     engineRpm := RewindSnapshot.engineRpm snapshot;
     gear := RewindSnapshot.gear snapshot;
     wheelSpeed := wheelSpeed s;
     speed := speed s;
     tireState := tireState s |}.

(** A snapshot the vehicle of the game can be rewound to: its gear is a
    gear of the vehicle and its distance is not negative. *)
Definition snapshot_ok (this : Race.Game) (snap : RewindSnapshot.t) : Prop :=
  (1 <= RewindSnapshot.gear snap <= Contract.maxGear (Race.vehicle this))%Z /\
  0 <= RewindSnapshot.stageDistance snap.

(** The timer and the distance along the stage are not negative, the gear
    is a gear of the vehicle, and so is every snapshot of the rewind
    buffer. *)
Definition steady (this : Race.Game) : Prop :=
  0 <= Race.timer this /\
  0 <= StageProgress.distance (Race.stageProgress this) /\
  Contract.gear_in_range (Race.vehicle this) /\
  Forall (snapshot_ok this) (Race.rewindBuffer this).

(** The game is paused exactly when its state is ["pause"]. *)
Definition pause_flag (this : Race.Game) : Prop :=
  Race.isPaused this = true <-> Race.state this = GameState.pause.

Definition running (this : Race.Game) : Prop :=
  Race.isPaused this = false /\ Race.state this <> GameState.pause.

(** The game is on a route of the graph: the node of the stage is a node
    of the graph, and the samples are those of a list of nodes that has
    some. *)
Definition on_route (this : Race.Game) : Prop :=
  exists node nodes,
    StageProgress.node (Race.stageProgress this) = Some node /\
    RouteGraph.lookup RouteGraph.ROUTE_GRAPH (RouteNode.id node) = Some node /\
    Race.routeSamples this = Some (RouteGraph.buildRouteSamples nodes) /\
    (0 < Contract.sample_count nodes)%nat.

Definition playable (this : Race.Game) : Prop :=
  Contract.well_formed (Race.vehicle this) /\ on_route this.

(** The animation frames of a list, one after the other. *)
Fixpoint play (fuel : nat) (fs : list Frame.t) (this : Race.Game) : Race.result Race.Game :=
  match fs with
  | [] => Some (Returns this)
  | f :: rest =>
      Race.andThen
        (Race.loop (Frame.time f) (Frame.now f) fuel (Frame.random f) (Frame.pad f) this)
        (play fuel rest)
  end.

End Invariant.

(** * More scenarios *)

Module Stage.

Import Vehicle.

(** The M3 of a new game with the manual gearbox selected. *)
Definition manual : Vehicle :=
  {| state := state Scenario.m3;
     tuning := tuning Scenario.m3;
     manualMode := true;
     driftAssist := driftAssist Scenario.m3;
     tractionAssist := tractionAssist Scenario.m3;
     maxSteerAngle := maxSteerAngle Scenario.m3;
     handbrakeGripLoss := handbrakeGripLoss Scenario.m3;
     terrain := terrain Scenario.m3;
     car := car Scenario.m3;
     clutch := clutch Scenario.m3 |}.

(** Two frames of coasting, the second a tenth of a second long. *)
Definition coasting_frames : list (R * VehicleInput) :=
  [(Scenario.frame, Scenario.coasting); (0.1, Scenario.coasting)].

(** A gamepad with the throttle half pressed and the stick to the left. *)
Definition gamepad : InputState.t :=
  {| InputState.throttle := 0.5;
     InputState.brake := 0;
     InputState.steer := -0.25;
     InputState.handbrake := 0;
     InputState.shiftUp := false;
     InputState.shiftDown := false;
     InputState.rewind := false;
     InputState.camera := false;
     InputState.pause := false |}.

(** The same gamepad with the pause button down. *)
Definition pausing : InputState.t :=
  {| InputState.throttle := 0.5;
     InputState.brake := 0;
     InputState.steer := -0.25;
     InputState.handbrake := 0;
     InputState.shiftUp := false;
     InputState.shiftDown := false;
     InputState.rewind := false;
     InputState.camera := false;
     InputState.pause := true |}.

(** A snapshot taken in second gear, 100 meters into a stage. *)
Definition snap : RewindSnapshot.t :=
  {| RewindSnapshot.timestamp := 0;
     RewindSnapshot.positionX := 1;
     RewindSnapshot.positionZ := 100;
     RewindSnapshot.heading := 0;
     RewindSnapshot.velocityX := 0;
     RewindSnapshot.velocityZ := 30;
     RewindSnapshot.yawRate := 0;
     RewindSnapshot.gear := 2;
     RewindSnapshot.engineRpm := 4000;
     RewindSnapshot.stageDistance := 100 |}.

(** A race on the last stage but one, on the samples of three straight
    segments, with one snapshot to rewind to. *)
Definition racing : Race.Game :=
  {| Race.input := InputManager.new;
     Race.vehicle := Scenario.m3;
     Race.state := GameState.race;
     Race.stageProgress :=
       {| StageProgress.node := RouteGraph.lookup RouteGraph.ROUTE_GRAPH "s4lll";
          StageProgress.distance := 0 |};
     Race.routeSamples := Some (RouteGraph.buildRouteSamples Scenario.forwards);
     Race.currentNodeId := "s4lll";
     Race.timer := 55;
     Race.lastFrame := 0;
     Race.countdown := 0;
     Race.checkpointMessageTimer := 0;
     Race.forkChoice := None;
     Race.forkDistance := 0;
     Race.destination := "A";
     Race.rewindBuffer := [snap];
     Race.rewindCharge := 1;
     Race.isPaused := false;
     Race.cameraModeIndex := 0;
     Race.obstacles := [] |}.

(** Samples that end 1700 meters from the start. *)
Definition long_samples : RouteSamples.t :=
  {| RouteSamples.points := [];
     RouteSamples.widths := [];
     RouteSamples.terrainTypes := [];
     RouteSamples.distances := [1700] |}.

(** Two animation frames, 16 and 32 milliseconds after the start, with
    nothing pressed. *)
Definition two_frames : list Frame.t :=
  [ {| Frame.time := 16; Frame.now := 16; Frame.random := fun _ => 0.5; Frame.pad := None |};
    {| Frame.time := 32; Frame.now := 32; Frame.random := fun _ => 0.5; Frame.pad := None |} ].

End Stage.

(** * Facts about the JavaScript operations *)

Section JSFacts.

Lemma gtb_true (a b : R) : (a >? b) = true <-> a > b.
Proof. unfold gtb. destruct (Rgt_dec a b); split; intros; try easy. Qed.

Lemma gtb_false (a b : R) : (a >? b) = false <-> a <= b.
Proof. unfold gtb. destruct (Rgt_dec a b); split; intros; try easy; lra. Qed.

Lemma ltb_true (a b : R) : (a <? b) = true <-> a < b.
Proof. unfold ltb. destruct (Rlt_dec a b); split; intros; try easy. Qed.

Lemma ltb_false (a b : R) : (a <? b) = false <-> b <= a.
Proof. unfold ltb. destruct (Rlt_dec a b); split; intros; try easy; lra. Qed.

Lemma leb_true (a b : R) : (a <=? b) = true <-> a <= b.
Proof. unfold leb. destruct (Rle_dec a b); split; intros; try easy. Qed.

Lemma leb_false (a b : R) : (a <=? b) = false <-> b < a.
Proof. unfold leb. destruct (Rle_dec a b); split; intros; try easy; lra. Qed.

Lemma div_returns (a b : R) : b <> 0 -> a // b = Returns (a / b).
Proof. intros Hb. unfold div. destruct (Req_dec_T b 0); [contradiction | reflexivity]. Qed.

Lemma div_inv (a b q : R) : a // b = Returns q -> b <> 0 /\ q = a / b.
Proof.
  unfold div. destruct (Req_dec_T b 0); intros H; [discriminate | ].
  injection H as <-. split; [assumption | reflexivity].
Qed.

Lemma tan_returns (a : R) : cos a <> 0 -> JS.tan a = Returns (Rtrigo1.tan a).
Proof. intros Hc. unfold JS.tan. destruct (Req_dec_T (cos a) 0); [contradiction | reflexivity]. Qed.

Lemma bind_returns {A B : Type} (o : outcome A) (k : A -> outcome B) (b : B) :
  bind o k = Returns b -> exists a, o = Returns a /\ k a = Returns b.
Proof. destruct o as [a | | ]; cbn; intros H; try discriminate. exists a. auto. Qed.

(** Clamping twice is clamping once. *)
Lemma clamp_idem (lo hi v : R) :
  lo <= hi -> Rmax lo (Rmin hi (Rmax lo (Rmin hi v))) = Rmax lo (Rmin hi v).
Proof.
  intros Hle. unfold Rmax, Rmin.
  repeat (destruct (Rle_dec _ _)); lra.
Qed.

Lemma clamp_bounds (lo hi v : R) : lo <= hi -> lo <= Rmax lo (Rmin hi v) <= hi.
Proof.
  intros Hle. split; [apply Rmax_l | ].
  apply Rmax_lub; [assumption | apply Rmin_l].
Qed.

(** A comparison against a threshold of the range does not see the clamp. *)
Lemma gtb_clamp_unit (v c : R) :
  0 <= c < 1 -> (Rmax 0 (Rmin 1 v) >? c) = (v >? c).
Proof.
  intros Hc. unfold gtb, Rmax, Rmin.
  repeat (destruct (Rle_dec _ _)); repeat (destruct (Rgt_dec _ _)); try reflexivity; lra.
Qed.

End JSFacts.

(** * Facts about binary64 numbers *)

Section Binary64Facts.

Import SpecFloat PrimFloat FloatOps FloatAxioms.
#[local] Open Scope float_scope.

Lemma lex_lt (e1 : Z) (m1 : positive) (e2 : Z) (m2 : positive) :
  Binary64.lex e1 m1 e2 m2 = Lt <-> (e1 < e2)%Z \/ (e1 = e2 /\ (m1 < m2)%positive).
Proof.
  unfold Binary64.lex. change (Pos.compare_cont Eq m1 m2) with (m1 ?= m2)%positive.
  destruct (Z.compare_spec e1 e2); rewrite ?Pos.compare_lt_iff; split; intros; try lia; try easy.
Qed.

Lemma lex_gt (e1 : Z) (m1 : positive) (e2 : Z) (m2 : positive) :
  Binary64.lex e1 m1 e2 m2 = Gt <-> (e2 < e1)%Z \/ (e1 = e2 /\ (m2 < m1)%positive).
Proof.
  unfold Binary64.lex. change (Pos.compare_cont Eq m1 m2) with (m1 ?= m2)%positive.
  destruct (Z.compare_spec e1 e2); rewrite ?Pos.compare_gt_iff; split; intros; try lia; try easy.
Qed.

Lemma lex_eq (e1 : Z) (m1 : positive) (e2 : Z) (m2 : positive) :
  Binary64.lex e1 m1 e2 m2 = Eq <-> e1 = e2 /\ m1 = m2.
Proof.
  unfold Binary64.lex. change (Pos.compare_cont Eq m1 m2) with (m1 ?= m2)%positive.
  destruct (Z.compare_spec e1 e2); rewrite ?Pos.compare_eq_iff; split; intros; try lia; try easy.
Qed.

Lemma lex_swap (e1 : Z) (m1 : positive) (e2 : Z) (m2 : positive) :
  Binary64.lex e2 m2 e1 m1 = CompOpp (Binary64.lex e1 m1 e2 m2).
Proof.
  destruct (Binary64.lex e1 m1 e2 m2) eqn:E; cbn.
  - apply lex_eq in E. apply lex_eq. intuition congruence.
  - apply lex_lt in E. apply lex_gt. lia.
  - apply lex_gt in E. apply lex_lt. lia.
Qed.

Lemma SFcompare_finite (s1 : bool) (m1 : positive) (e1 : Z) (s2 : bool) (m2 : positive)
    (e2 : Z) :
  SFcompare (S754_finite s1 m1 e1) (S754_finite s2 m2 e2)
  = Some match s1, s2 with
         | true, false => Lt
         | false, true => Gt
         | false, false => Binary64.lex e1 m1 e2 m2
         | true, true => CompOpp (Binary64.lex e1 m1 e2 m2)
         end.
Proof.
  unfold Binary64.lex. destruct s1, s2; cbn; try reflexivity; destruct (e1 ?= e2)%Z; reflexivity.
Qed.

Lemma CompOpp_Lt (c : comparison) : CompOpp c = Lt <-> c = Gt.
Proof. destruct c; cbn; split; congruence. Qed.

Lemma CompOpp_Gt (c : comparison) : CompOpp c = Gt <-> c = Lt.
Proof. destruct c; cbn; split; congruence. Qed.

Lemma SFcompare_lt_gt (a b : spec_float) :
  SFcompare a b = Some Lt -> SFcompare b a = Some Gt.
Proof.
  destruct a as [sa | sa | | sa ma ea], b as [sb | sb | | sb mb eb];
    rewrite ?SFcompare_finite;
    try destruct sa; try destruct sb; cbn; try congruence;
    intros H; injection H as H; f_equal;
    rewrite ?CompOpp_Lt, ?CompOpp_Gt in *; rewrite ?lex_lt, ?lex_gt in *; lia.
Qed.

Lemma SFcompare_lt_trans (a b c : spec_float) :
  SFcompare a b = Some Lt -> SFcompare b c = Some Lt -> SFcompare a c = Some Lt.
Proof.
  destruct a as [sa | sa | | sa ma ea], b as [sb | sb | | sb mb eb],
    c as [sc | sc | | sc mc ec];
    rewrite ?SFcompare_finite;
    try destruct sa; try destruct sb; try destruct sc; cbn; try congruence;
    intros H1 H2; injection H1 as H1; injection H2 as H2; f_equal;
    rewrite ?CompOpp_Lt, ?CompOpp_Gt in *; rewrite ?lex_lt, ?lex_gt in *; lia.
Qed.

(** [a < b] excludes [b <= a], and [<] is transitive: the order of the
    binary64 numbers, where a [NaN] compares with nothing. *)
Lemma binary64_ltb_leb_false (a b : float) : (a <? b) = true -> (b <=? a) = false.
Proof.
  rewrite ltb_spec, leb_spec. unfold SFltb, SFleb.
  destruct (SFcompare (Prim2SF a) (Prim2SF b)) as [[ | | ] | ] eqn:E; try discriminate.
  intros _. rewrite (SFcompare_lt_gt _ _ E). reflexivity.
Qed.

Lemma binary64_ltb_trans (a b c : float) : (a <? b) = true -> (b <? c) = true -> (a <? c) = true.
Proof.
  rewrite !ltb_spec. unfold SFltb.
  destruct (SFcompare (Prim2SF a) (Prim2SF b)) as [[ | | ] | ] eqn:E1; try discriminate.
  destruct (SFcompare (Prim2SF b) (Prim2SF c)) as [[ | | ] | ] eqn:E2; try discriminate.
  intros _ _. rewrite (SFcompare_lt_trans _ _ _ E1 E2). reflexivity.
Qed.

(** A number is known by its sign, mantissa and exponent. *)
Lemma binary64_known (d : float) (f : spec_float) : Prim2SF d = f -> d = SF2Prim f.
Proof. intros <-. symmetry. apply SF2Prim_Prim2SF. Qed.

Lemma binary64_finite_not_nan (d : float) (s : bool) (m : positive) (e : Z) :
  Prim2SF d = S754_finite s m e -> is_nan d = false.
Proof.
  intros E. unfold is_nan. rewrite eqb_spec, E. unfold SFeqb.
  rewrite SFcompare_finite.
  assert (H : Binary64.lex e m e m = Eq) by (apply lex_eq; auto).
  rewrite H. destruct s; reflexivity.
Qed.

Lemma binary64_not_nan (d : float) : is_nan d = false <-> Prim2SF d <> S754_nan.
Proof.
  unfold is_nan. rewrite eqb_spec. unfold SFeqb.
  destruct (Prim2SF d) as [s | s | | s m e].
  - cbn. split; [discriminate | reflexivity].
  - destruct s; cbn; (split; [discriminate | reflexivity]).
  - cbn. split; [discriminate | intros H; contradiction H; reflexivity].
  - rewrite SFcompare_finite.
    assert (H : Binary64.lex e m e m = Eq) by (apply lex_eq; auto).
    rewrite H. destruct s; cbn; (split; [discriminate | reflexivity]).
Qed.

(** The product does not depend on the order of the factors. *)
Lemma binary64_mul_comm (a b : float) : a * b = b * a.
Proof.
  apply Prim2SF_inj. rewrite !mul_spec. unfold SF64mul, SFmul.
  destruct (Prim2SF a) as [sa | sa | | sa ma ea], (Prim2SF b) as [sb | sb | | sb mb eb];
    rewrite ?(xorb_comm sb sa), ?(Pos.mul_comm mb ma), ?(Z.add_comm eb ea); reflexivity.
Qed.

(** [Math.min(k, x)] is [k] when [k], a positive number, is at most [x]. *)
Lemma binary64_min_capped (k x : float) (mk : positive) (ek : Z) :
  Prim2SF k = S754_finite false mk ek ->
  (k <=? x) = true ->
  Binary64.min k x = k.
Proof.
  intros Hk Hle.
  assert (Hnk : is_nan k = false) by (apply binary64_not_nan; rewrite Hk; discriminate).
  rewrite leb_spec, Hk in Hle. unfold SFleb in Hle.
  unfold Binary64.min. rewrite Hnk. cbn [orb].
  destruct (Prim2SF x) as [s | s | | s m e] eqn:E.
  - cbn in Hle. discriminate.
  - destruct s; cbn in Hle; [discriminate | ].
    assert (Hnx : is_nan x = false) by (apply binary64_not_nan; rewrite E; discriminate).
    rewrite Hnx, ltb_spec, Hk, E. reflexivity.
  - cbn in Hle. discriminate.
  - assert (Hnx : is_nan x = false) by (apply binary64_not_nan; rewrite E; discriminate).
    rewrite Hnx. rewrite SFcompare_finite in Hle.
    destruct s; [discriminate | ].
    rewrite !ltb_spec, Hk, E. unfold SFltb. rewrite !SFcompare_finite.
    destruct (Binary64.lex ek mk e m) eqn:C; try discriminate.
    + apply lex_eq in C. destruct C as [-> ->].
      assert (x = k) as -> by (apply Prim2SF_inj; congruence).
      assert (H : Binary64.lex e m e m = Eq) by (apply lex_eq; auto).
      rewrite H. destruct (get_sign k); reflexivity.
    + reflexivity.
Qed.

(** The absolute value of the clamped difference is the absolute value of
    the difference, capped at 6. *)
Lemma binary64_clamp_abs (d : float) :
  abs (Binary64.min 6 (Binary64.max (-6) d)) = Binary64.min 6 (abs d).
Proof.
  destruct (Prim2SF d) as [s | s | | s m e] eqn:E.
  - rewrite (binary64_known d _ E). destruct s; vm_compute; reflexivity.
  - rewrite (binary64_known d _ E). destruct s; vm_compute; reflexivity.
  - rewrite (binary64_known d _ E). vm_compute; reflexivity.
  - pose proof (binary64_finite_not_nan d s m e E) as Hnan.
    assert (Ha : Prim2SF (abs d) = S754_finite false m e) by (rewrite abs_spec, E; reflexivity).
    pose proof (binary64_finite_not_nan (abs d) false m e Ha) as Hnan'.
    assert (H6 : Prim2SF 6 = S754_finite false 6755399441055744 (-50))
      by (vm_compute; reflexivity).
    assert (Hm6 : Prim2SF (-6) = S754_finite true 6755399441055744 (-50))
      by (vm_compute; reflexivity).
    destruct (Binary64.lex e m (-50) 6755399441055744) eqn:C.
    + (* the difference is 6 or -6 *)
      apply lex_eq in C. destruct C as [-> ->].
      rewrite (binary64_known d _ E). destruct s; vm_compute; reflexivity.
    + (* within the clamp *)
      assert (C' : Binary64.lex (-50) 6755399441055744 e m = Gt)
        by (rewrite lex_swap, C; reflexivity).
      assert (Hmax : Binary64.max (-6) d = d).
      { unfold Binary64.max. rewrite Hnan.
        change (is_nan (-6)) with false. cbn [orb].
        rewrite !ltb_spec, Hm6, E. unfold SFltb. rewrite !SFcompare_finite.
        destruct s; [rewrite C' | ]; reflexivity. }
      rewrite Hmax.
      assert (Hmin : forall x,
                 Prim2SF x = S754_finite s m e \/ Prim2SF x = S754_finite false m e ->
                 Binary64.min 6 x = x).
      { intros x Hx.
        assert (is_nan x = false) as Hx'
          by (destruct Hx as [Hx | Hx]; eapply binary64_finite_not_nan; exact Hx).
        unfold Binary64.min. rewrite Hx'.
        change (is_nan 6) with false. cbn [orb].
        rewrite !ltb_spec, H6. unfold SFltb.
        destruct Hx as [-> | ->]; rewrite !SFcompare_finite;
          destruct s; rewrite ?C', ?C; reflexivity. }
      rewrite (Hmin d) by (left; exact E).
      rewrite (Hmin (abs d)) by (right; exact Ha). reflexivity.
    + (* beyond the clamp *)
      assert (C' : Binary64.lex (-50) 6755399441055744 e m = Lt)
        by (rewrite lex_swap, C; reflexivity).
      assert (Hrhs : Binary64.min 6 (abs d) = 6).
      { apply (binary64_min_capped 6 (abs d) _ _ H6).
        rewrite leb_spec, H6, Ha. unfold SFleb. rewrite SFcompare_finite, C'. reflexivity. }
      rewrite Hrhs.
      destruct s.
      * assert (Hmax : Binary64.max (-6) d = -6).
        { unfold Binary64.max. rewrite Hnan.
          change (is_nan (-6)) with false. cbn [orb].
          rewrite !ltb_spec, Hm6, E. unfold SFltb. rewrite !SFcompare_finite, C', C.
          reflexivity. }
        rewrite Hmax. vm_compute. reflexivity.
      * assert (Hmax : Binary64.max (-6) d = d).
        { unfold Binary64.max. rewrite Hnan.
          change (is_nan (-6)) with false. cbn [orb].
          rewrite !ltb_spec, Hm6, E. unfold SFltb. rewrite !SFcompare_finite.
          reflexivity. }
        rewrite Hmax.
        assert (Hmin : Binary64.min 6 d = 6).
        { apply (binary64_min_capped 6 d _ _ H6).
          rewrite leb_spec, H6, E. unfold SFleb. rewrite SFcompare_finite, C'. reflexivity. }
        rewrite Hmin. vm_compute. reflexivity.
Qed.

End Binary64Facts.

(** * Tire grip model *)

(** ** The pressure grip factor *)

Section PressureFacts.

Import TireModel PrimFloat.
#[local] Set Warnings "-inexact-float".

(** Over the reals: the closed form of the factor, and its value where the
    clamp holds. *)
Lemma pressureGripFactor_closed_form (psi : R) :
  pressureGripFactor psi = 1 - 0.012 * Rmin 6 (Rabs (psi - 33)).
Proof.
  unfold pressureGripFactor, Rmin, Rmax, Rabs.
  repeat (destruct (Rle_dec _ _)); repeat (destruct (Rcase_abs _)); lra.
Qed.

Lemma pressureGripFactor_clamped (psi : R) :
  psi <= 27 \/ 39 <= psi -> pressureGripFactor psi = 0.928.
Proof.
  intros Hpsi. rewrite pressureGripFactor_closed_form.
  unfold Rmin, Rabs.
  destruct (Rcase_abs _); destruct (Rle_dec _ _); lra.
Qed.

(** On binary64 numbers: the closed form of the factor, every operation
    rounded, and its value where the difference the function computes is 6
    or more. *)
Lemma binary64_pressureGripFactor_closed_form (psi : float) :
  (Binary64.pressureGripFactor psi = 1 - 0.012 * Binary64.min 6 (abs (psi - 33)))%float.
Proof.
  unfold Binary64.pressureGripFactor. cbv zeta. rewrite binary64_clamp_abs.
  rewrite (binary64_mul_comm 0.012). reflexivity.
Qed.

Lemma binary64_pressureGripFactor_clamped (psi : float) :
  (6 <=? abs (psi - 33))%float = true ->
  Binary64.pressureGripFactor psi = Binary64.pressureGripFactor 39.
Proof.
  intros H. rewrite binary64_pressureGripFactor_closed_form.
  rewrite (binary64_min_capped 6 _ 6755399441055744 (-50)); [ | vm_compute; reflexivity | exact H].
  vm_compute. reflexivity.
Qed.

(** C7, as the code has it.  The pressure grip factor is exactly 1 at 33
    psi; at every pressure it is [1 - 0.012 * min(6, |psi - 33|)]; it is
    the same at 39 as at 27 psi, and the same at two pressures that
    deviate from 33 by the same amount; at every pressure outside [27, 39],
    and on binary64 numbers wherever the deviation the function computes
    is 6 or more, it is what it is at 39.  All of this holds over the reals
    and, with every operation rounded, on binary64 numbers, where the
    factor at 39 is the number just below the one nearest to 0.928. *)
Theorem pressureGripFactor_rounded :
  (pressureGripFactor 33 = 1 /\
   (forall psi, pressureGripFactor psi = 1 - 0.012 * Rmin 6 (Rabs (psi - 33))) /\
   pressureGripFactor 39 = pressureGripFactor 27 /\
   (forall psi psi', psi - 33 = 33 - psi' ->
      pressureGripFactor psi = pressureGripFactor psi') /\
   (forall psi, psi <= 27 \/ 39 <= psi -> pressureGripFactor psi = pressureGripFactor 39)) /\
  (Binary64.pressureGripFactor 33 = 1 /\
   (forall psi,
      Binary64.pressureGripFactor psi = 1 - 0.012 * Binary64.min 6 (abs (psi - 33))) /\
   Binary64.pressureGripFactor 39 = Binary64.pressureGripFactor 27 /\
   (forall psi psi', abs (psi - 33) = abs (psi' - 33) ->
      Binary64.pressureGripFactor psi = Binary64.pressureGripFactor psi') /\
   (forall psi, (6 <=? abs (psi - 33)) = true ->
      Binary64.pressureGripFactor psi = Binary64.pressureGripFactor 39) /\
   Binary64.pressureGripFactor 39 = next_down 0.928)%float.
Proof.
  split.
  - split; [ | split; [ | split; [ | split]]].
    + rewrite pressureGripFactor_closed_form.
      replace (33 - 33) with 0 by ring. rewrite Rabs_R0.
      rewrite Rmin_right by lra. ring.
    + exact pressureGripFactor_closed_form.
    + rewrite !pressureGripFactor_clamped by lra. reflexivity.
    + intros psi psi' Hd. rewrite !pressureGripFactor_closed_form.
      rewrite Hd. replace (psi' - 33) with (- (33 - psi')) by ring.
      rewrite Rabs_Ropp. reflexivity.
    + intros psi Hpsi. rewrite (pressureGripFactor_clamped psi Hpsi).
      rewrite pressureGripFactor_clamped by lra. reflexivity.
  - split; [vm_compute; reflexivity | ].
    split; [exact binary64_pressureGripFactor_closed_form | ].
    split; [vm_compute; reflexivity | ].
    split; [ | split; [exact binary64_pressureGripFactor_clamped | vm_compute; reflexivity]].
    intros psi psi' Hd. rewrite !binary64_pressureGripFactor_closed_form, Hd. reflexivity.
Qed.

Lemma pressureGripFactor_rounded_witness :
  ((45 <= 27 \/ 39 <= 45) /\ pressureGripFactor 45 = pressureGripFactor 39) /\
  ((6 <=? abs (45 - 33))%float = true /\
   Binary64.pressureGripFactor 45 = Binary64.pressureGripFactor 39).
Proof.
  assert (H : 45 <= 27 \/ 39 <= 45) by (right; lra).
  assert (H' : (6 <=? abs (45 - 33))%float = true) by (vm_compute; reflexivity).
  split; (split; [assumption | ]).
  - apply (proj2 (proj2 (proj2 (proj2 (proj1 pressureGripFactor_rounded)))) 45 H).
  - apply (proj1 (proj2 (proj2 (proj2 (proj2 (proj2 pressureGripFactor_rounded))))) 45%float H').
Defined.

(** C7, as stated, fails on the numbers the source runs on: the factor at
    39 psi is not the number nearest to 0.928 but a smaller one, as
    [1 - 6 * 0.012] is rounded. *)
Lemma pressureGripFactor_39_below_0_928 :
  Binary64.pressureGripFactor 39 <> 0.928%float /\
  (Binary64.pressureGripFactor 39 <? 0.928)%float = true.
Proof.
  split; [ | vm_compute; reflexivity].
  intros H. apply (f_equal (fun f => f <? 0.928)%float) in H.
  vm_compute in H. discriminate.
Qed.

End PressureFacts.

(** ** Bounds of the grip *)

Section TireModelFacts.

Import TireModel PrimFloat R_sqrt.
#[local] Set Warnings "-inexact-float".

Lemma frictionCircle_range (longitudinal lateral : R) :
  0.6 <= frictionCircle longitudinal lateral <= 1.
Proof.
  unfold frictionCircle. cbv zeta.
  pose proof (sqrt_pos (longitudinal * longitudinal + lateral * lateral)).
  unfold Rmin. destruct (Rle_dec _ _); lra.
Qed.

(** Over the reals. *)
Lemma pressureGripFactor_range (psi : R) : 0.928 <= pressureGripFactor psi <= 1.
Proof.
  rewrite pressureGripFactor_closed_form.
  pose proof (Rabs_pos (psi - 33)). unfold Rmin. destruct (Rle_dec _ _); lra.
Qed.

(** On binary64 numbers, once the combined slip the function computes has
    reached 1 the factor is the number nearest to 0.6. *)
Lemma binary64_frictionCircle_saturated (longitudinal lateral : float) :
  (1 <=? PrimFloat.sqrt (longitudinal * longitudinal + lateral * lateral))%float = true ->
  Binary64.frictionCircle longitudinal lateral = 0.6%float.
Proof.
  intros H. unfold Binary64.frictionCircle. cbv zeta.
  rewrite (binary64_min_capped 1 _ 4503599627370496 (-52)); [ | vm_compute; reflexivity | exact H].
  vm_compute. reflexivity.
Qed.

(** X1. The friction circle factor lies within [0.6, 1]; it is 1 when
    there is no slip at all and 0.6 as soon as the combined slip, the
    square root the function takes, reaches 1; it does not rise when the
    combined slip grows.  On binary64 numbers too the factor is 1 without
    slip and the number nearest to 0.6 once the combined slip has reached
    1; it is 1 at a slip of 1e-17 as well. *)
Theorem frictionCircle_bounds (longitudinal lateral longitudinal' lateral' : R) :
  0.6 <= frictionCircle longitudinal lateral <= 1 /\
  frictionCircle 0 0 = 1 /\
  (1 <= sqrt (longitudinal * longitudinal + lateral * lateral) ->
   frictionCircle longitudinal lateral = 0.6) /\
  (sqrt (longitudinal * longitudinal + lateral * lateral)
   <= sqrt (longitudinal' * longitudinal' + lateral' * lateral') ->
   frictionCircle longitudinal' lateral' <= frictionCircle longitudinal lateral) /\
  (Binary64.frictionCircle 0 0 = 1 /\
   (forall l t, (1 <=? PrimFloat.sqrt (l * l + t * t)) = true ->
      Binary64.frictionCircle l t = 0.6) /\
   Binary64.frictionCircle 1e-17 0 = 1)%float.
Proof.
  split; [apply frictionCircle_range | ].
  split; [ | split; [ | split]].
  - unfold frictionCircle. cbv zeta. replace (0 * 0 + 0 * 0) with 0 by ring.
    rewrite sqrt_0. unfold Rmin. destruct (Rle_dec _ _); lra.
  - intros H. unfold frictionCircle. cbv zeta. rewrite Rmin_left by assumption. lra.
  - intros H. unfold frictionCircle. cbv zeta. revert H. unfold Rmin.
    repeat (destruct (Rle_dec _ _)); intros; lra.
  - split; [vm_compute; reflexivity | ].
    split; [exact binary64_frictionCircle_saturated | vm_compute; reflexivity].
Qed.

Lemma frictionCircle_bounds_witness :
  (1 <= sqrt (3 * 3 + 4 * 4) /\ frictionCircle 3 4 = 0.6) /\
  ((1 <=? PrimFloat.sqrt (3 * 3 + 4 * 4))%float = true /\
   Binary64.frictionCircle 3 4 = 0.6%float).
Proof.
  assert (H : 1 <= sqrt (3 * 3 + 4 * 4)).
  { rewrite <- sqrt_1. apply sqrt_le_1_alt. lra. }
  assert (H' : (1 <=? PrimFloat.sqrt (3 * 3 + 4 * 4))%float = true) by (vm_compute; reflexivity).
  split; (split; [assumption | ]).
  - exact (proj1 (proj2 (proj2 (frictionCircle_bounds 3 4 0 0))) H).
  - exact (proj1 (proj2 (proj2 (proj2 (proj2 (proj2 (frictionCircle_bounds 0 0 0 0))))))
             3%float 4%float H').
Defined.

(** X2. The pressure grip factor is at most 1, which it is at 33 psi, and
    at least what it is at 39 psi, where the clamp ends; it does not rise
    when the pressure moves further from 33 psi. *)
Theorem pressureGripFactor_peak (psi psi' : R) :
  pressureGripFactor 39 <= pressureGripFactor psi <= 1 /\
  pressureGripFactor 33 = 1 /\
  (Rabs (psi - 33) <= Rabs (psi' - 33) ->
   pressureGripFactor psi' <= pressureGripFactor psi).
Proof.
  split; [ | split].
  - rewrite (pressureGripFactor_clamped 39) by lra. apply pressureGripFactor_range.
  - rewrite pressureGripFactor_closed_form.
    replace (33 - 33) with 0 by ring. rewrite Rabs_R0.
    rewrite Rmin_right by lra. ring.
  - intros H. rewrite !pressureGripFactor_closed_form. revert H. unfold Rmin.
    repeat (destruct (Rle_dec _ _)); intros; lra.
Qed.

Lemma pressureGripFactor_peak_witness :
  Rabs (35 - 33) <= Rabs (30 - 33) /\ pressureGripFactor 30 <= pressureGripFactor 35.
Proof.
  assert (H : Rabs (35 - 33) <= Rabs (30 - 33)).
  { unfold Rabs. repeat (destruct (Rcase_abs _)); lra. }
  split; [exact H | ].
  exact (proj2 (proj2 (pressureGripFactor_peak 35 30)) H).
Defined.

(** X3. The grip of a tire on a terrain is at most 1.15 and at least the
    grip of the street tire on sand at 39 psi.  At equal pressures the
    compounds rank street, sport, semi-slick on every terrain but wet
    asphalt, where the wet penalty puts the semi-slick last: semi-slick,
    street, sport. *)
Theorem tireGripForTerrain_compounds (psi : R) (terrain : Terrains.TerrainType)
    (isFront : bool) :
  (forall setup,
     Invariant.grip_of street 39 Terrains.sand isFront
     <= tireGripForTerrain setup terrain isFront <= 1.15) /\
  (terrain <> Terrains.wet ->
   Invariant.grip_of street psi terrain isFront < Invariant.grip_of sport psi terrain isFront
   /\ Invariant.grip_of sport psi terrain isFront
      < Invariant.grip_of semi psi terrain isFront) /\
  (terrain = Terrains.wet ->
   Invariant.grip_of semi psi terrain isFront < Invariant.grip_of street psi terrain isFront
   /\ Invariant.grip_of street psi terrain isFront
      < Invariant.grip_of sport psi terrain isFront).
Proof.
  split.
  - intros setup. unfold Invariant.grip_of, tireGripForTerrain.
    pose proof (pressureGripFactor_range (pressureFrontPsi setup)) as Hf.
    pose proof (pressureGripFactor_range (pressureRearPsi setup)) as Hr.
    assert (H39 : pressureGripFactor 39 = 0.928)
      by (apply pressureGripFactor_clamped; right; lra).
    destruct setup as [[ | | ] f r], terrain, isFront;
      cbn -[pressureGripFactor] in *; rewrite H39; nra.
  - pose proof (pressureGripFactor_range psi) as Hp.
    unfold Invariant.grip_of, tireGripForTerrain.
    split; intros Ht; destruct terrain; try contradiction; try discriminate;
      destruct isFront; cbn -[pressureGripFactor]; nra.
Qed.

Lemma tireGripForTerrain_compounds_witness :
  Terrains.wet = Terrains.wet /\
  Invariant.grip_of semi 33 Terrains.wet true < Invariant.grip_of street 33 Terrains.wet true.
Proof.
  split; [reflexivity | ].
  exact (proj1 (proj2 (proj2 (tireGripForTerrain_compounds 33 Terrains.wet true)) eq_refl)).
Defined.

End TireModelFacts.

(** * The torque curve *)

Section TorqueCurve.

Import Vehicle Contract PrimFloat.
#[local] Set Warnings "-inexact-float".

Lemma increasing_tail (p : R * R) (curve : list (R * R)) :
  increasing (p :: curve) -> increasing curve.
Proof. intros H. apply Sorted_inv in H. apply H. Qed.

(** In an increasing curve every later breakpoint is above the first. *)
Lemma increasing_head_lt (p : R * R) (curve : list (R * R)) :
  increasing (p :: curve) -> Forall (fun q => fst p < fst q) curve.
Proof.
  intros H. apply Sorted_StronglySorted in H.
  - apply StronglySorted_inv in H. apply H.
  - intros a b c Hab Hbc. lra.
Qed.

Lemma increasing_nth_le (p q : R * R) (curve : list (R * R)) (i : nat) :
  increasing (p :: curve) -> nth_error (p :: curve) i = Some q -> fst p <= fst q.
Proof.
  intros Hinc Hnth. destruct i as [ | i]; cbn in Hnth.
  - injection Hnth as <-. lra.
  - apply increasing_head_lt in Hinc. rewrite Forall_forall in Hinc.
    apply nth_error_In in Hnth. apply Hinc in Hnth. lra.
Qed.

(** The last element of a list that has one does not depend on the
    default. *)
Lemma last_default {A : Type} (a : A) (l : list A) (d d' : A) :
  last (a :: l) d = last (a :: l) d'.
Proof.
  revert a. induction l as [ | b l IH]; intros a; [reflexivity | ].
  change (last (b :: l) d = last (b :: l) d'). apply IH.
Qed.

(** Past every breakpoint the loop runs to the end of the curve. *)
Lemma loop_above (rpm : R) (rest : list (R * R)) :
  forall prev, Forall (fun p => fst p < rpm) rest ->
  torqueAtRpm_loop rpm prev rest = Returns (snd (last rest prev)).
Proof.
  induction rest as [ | cur rest IH]; intros prev Hall.
  - reflexivity.
  - apply Forall_cons_iff in Hall. destruct Hall as [Hcur Hrest].
    destruct prev as [r1 t1], cur as [r2 t2]. cbn [torqueAtRpm_loop].
    cbn in Hcur. apply leb_false in Hcur. rewrite Hcur.
    rewrite IH by assumption.
    destruct rest as [ | p rest]; [reflexivity | ].
    do 2 f_equal. change (last ((r2, t2) :: p :: rest) (r1, t1)) with (last (p :: rest) (r1, t1)).
    apply last_default.
Qed.

(** Between two consecutive breakpoints the loop stops at the second. *)
Lemma loop_segment (rpm : R) (rest : list (R * R)) :
  forall prev i r1 t1 r2 t2,
  increasing (prev :: rest) ->
  nth_error (prev :: rest) i = Some (r1, t1) ->
  nth_error (prev :: rest) (S i) = Some (r2, t2) ->
  r1 < rpm <= r2 ->
  torqueAtRpm_loop rpm prev rest = Returns (t1 + (t2 - t1) * ((rpm - r1) / (r2 - r1))).
Proof.
  induction rest as [ | cur rest IH]; intros prev i r1 t1 r2 t2 Hinc H1 H2 Hrpm.
  - destruct i; discriminate.
  - destruct i as [ | i].
    + cbn in H1, H2. injection H1 as ->. injection H2 as ->.
      cbn [torqueAtRpm_loop].
      rewrite (proj2 (leb_true rpm r2)) by lra.
      rewrite div_returns by lra. reflexivity.
    + change (nth_error (cur :: rest) i = Some (r1, t1)) in H1.
      change (nth_error (cur :: rest) (S i) = Some (r2, t2)) in H2.
      pose proof (increasing_tail _ _ Hinc) as Hinc'.
      pose proof (increasing_nth_le _ _ _ _ Hinc' H1) as Hle. cbn in Hle.
      destruct prev as [r0 t0], cur as [rc tc]. cbn [torqueAtRpm_loop].
      cbn in Hle. rewrite (proj2 (leb_false rpm rc)) by lra.
      apply (IH (rc, tc) i); assumption.
Qed.

(** Reading the curve never divides by zero: the loop only reaches a
    breakpoint after the engine speed has exceeded the one before. *)
Lemma loop_returns (rpm : R) (rest : list (R * R)) :
  forall prev, fst prev < rpm -> exists torque, torqueAtRpm_loop rpm prev rest = Returns torque.
Proof.
  induction rest as [ | cur rest IH]; intros prev Hprev.
  - eexists. reflexivity.
  - destruct prev as [r1 t1], cur as [r2 t2]. cbn in Hprev. cbn [torqueAtRpm_loop].
    destruct (rpm <=? r2) eqn:Hcmp.
    + apply leb_true in Hcmp. rewrite div_returns by lra. eexists. reflexivity.
    + apply leb_false in Hcmp. apply IH. exact Hcmp.
Qed.

Lemma torqueAtRpm_returns (this : Vehicle) (rpm : R) :
  Cars.torqueCurve (car this) <> [] -> exists torque, torqueAtRpm this rpm = Returns torque.
Proof.
  unfold torqueAtRpm. destruct (Cars.torqueCurve (car this)) as [ | first rest].
  - intros H. contradiction.
  - intros _. destruct (rpm <=? fst first) eqn:Hcmp.
    + eexists. reflexivity.
    + apply leb_false in Hcmp. apply loop_returns. exact Hcmp.
Qed.

(** Over the reals: flat at or below the first breakpoint and above the
    last, and between two consecutive breakpoints the interpolation of
    their torques. *)
Lemma torqueAtRpm_exact (this : Vehicle) (curve : list (R * R)) :
  Cars.torqueCurve (car this) = curve ->
  curve <> [] ->
  increasing curve ->
  (forall rpm, rpm <= fst (hd (0, 0) curve) ->
     torqueAtRpm this rpm = Returns (snd (hd (0, 0) curve))) /\
  (forall rpm, fst (last curve (0, 0)) < rpm ->
     torqueAtRpm this rpm = Returns (snd (last curve (0, 0)))) /\
  (forall rpm i r1 t1 r2 t2,
     nth_error curve i = Some (r1, t1) ->
     nth_error curve (S i) = Some (r2, t2) ->
     r1 < rpm <= r2 ->
     torqueAtRpm this rpm = Returns (t1 + (t2 - t1) * ((rpm - r1) / (r2 - r1)))).
Proof.
  intros Hcurve Hne Hinc.
  split; [ | split].
  - intros rpm Hrpm. unfold torqueAtRpm. rewrite Hcurve.
    destruct curve as [ | first rest]; [contradiction | ]. cbn in Hrpm |- *.
    rewrite (proj2 (leb_true rpm (fst first))) by lra. reflexivity.
  - intros rpm Hgt.
    unfold torqueAtRpm. rewrite Hcurve.
    destruct curve as [ | first rest]; [contradiction | ].
    assert (Hall : Forall (fun p => fst p < rpm) (first :: rest)).
    { rewrite Forall_forall. intros q Hq.
      destruct (In_nth_error _ _ Hq) as [i Hi].
      destruct (exists_last Hne) as (front & p & Hsplit).
      rewrite Hsplit in Hgt, Hinc, Hi. rewrite last_last in Hgt.
      assert (fst q <= fst p); [ | lra].
      destruct (Nat.lt_ge_cases i (List.length front)) as [Hlt | Hge].
      - rewrite nth_error_app1 in Hi by assumption.
        clear - Hinc Hi. revert i Hi. induction front as [ | a front IH]; intros i Hi.
        + destruct i; discriminate.
        + cbn in Hinc. destruct i as [ | i].
          * injection Hi as ->.
            pose proof (increasing_head_lt _ _ Hinc) as Hlt.
            rewrite Forall_forall in Hlt.
            assert (In p (front ++ [p])) by (apply in_or_app; right; left; reflexivity).
            apply Hlt in H. lra.
          * apply (IH (increasing_tail _ _ Hinc) i Hi).
      - rewrite nth_error_app2 in Hi by assumption.
        destruct (i - List.length front)%nat as [ | k]; cbn in Hi.
        + injection Hi as ->. lra.
        + destruct k; discriminate. }
    apply Forall_cons_iff in Hall. destruct Hall as [Hfirst Hrest].
    rewrite (proj2 (leb_false rpm (fst first))) by lra.
    rewrite loop_above by assumption.
    destruct rest as [ | p rest]; [reflexivity | ].
    do 2 f_equal. change (last (first :: p :: rest) (0, 0)) with (last (p :: rest) (0, 0)).
    apply last_default.
  - intros rpm i r1 t1 r2 t2 H1 H2 Hrpm.
    unfold torqueAtRpm. rewrite Hcurve.
    destruct curve as [ | first rest]; [contradiction | ].
    pose proof (increasing_nth_le _ _ _ _ Hinc H1) as Hle. cbn in Hle.
    rewrite (proj2 (leb_false rpm (fst first))) by lra.
    apply (loop_segment rpm rest first i); assumption.
Qed.

(** ** The torque curve on binary64 numbers *)

Lemma binary64_increasing_tail (p : float * float)
    (curve : list (float * float)) :
  Binary64.increasing (p :: curve) -> Binary64.increasing curve.
Proof. intros H. apply Sorted_inv in H. apply H. Qed.

Lemma binary64_increasing_head (p : float * float)
    (curve : list (float * float)) :
  Binary64.increasing (p :: curve) ->
  Forall (fun q => (fst p <? fst q)%float = true) curve.
Proof.
  intros H. apply Sorted_StronglySorted in H.
  - apply StronglySorted_inv in H. apply H.
  - intros a b c. apply binary64_ltb_trans.
Qed.

(** An engine speed above a breakpoint is above every breakpoint before
    it. *)
Lemma binary64_increasing_nth (p q : float * float)
    (curve : list (float * float)) (i : nat) (rpm : float) :
  Binary64.increasing (p :: curve) ->
  nth_error (p :: curve) i = Some q ->
  (fst q <? rpm)%float = true ->
  (fst p <? rpm)%float = true.
Proof.
  intros Hinc Hnth Hq. destruct i as [ | i]; cbn in Hnth.
  - injection Hnth as <-. exact Hq.
  - apply binary64_increasing_head in Hinc. rewrite Forall_forall in Hinc.
    apply nth_error_In in Hnth. apply Hinc in Hnth.
    exact (binary64_ltb_trans _ _ _ Hnth Hq).
Qed.

(** Past every breakpoint the loop runs to the end of the curve. *)
Lemma binary64_loop_above (rpm : float)
    (rest : list (float * float)) :
  forall prev, Forall (fun p => (fst p <? rpm)%float = true) rest ->
  Binary64.torqueAtRpm_loop rpm prev rest = snd (last rest prev).
Proof.
  induction rest as [ | cur rest IH]; intros prev Hall.
  - reflexivity.
  - apply Forall_cons_iff in Hall. destruct Hall as [Hcur Hrest].
    destruct prev as [r1 t1], cur as [r2 t2]. cbn [Binary64.torqueAtRpm_loop].
    cbn [fst] in Hcur. rewrite (binary64_ltb_leb_false _ _ Hcur).
    rewrite IH by assumption.
    destruct rest as [ | p rest]; [reflexivity | ].
    f_equal. change (last ((r2, t2) :: p :: rest) (r1, t1)) with (last (p :: rest) (r1, t1)).
    apply last_default.
Qed.

(** Between two consecutive breakpoints the loop stops at the second. *)
Lemma binary64_loop_segment (rpm : float)
    (rest : list (float * float)) :
  forall prev i r1 t1 r2 t2,
  Binary64.increasing (prev :: rest) ->
  nth_error (prev :: rest) i = Some (r1, t1) ->
  nth_error (prev :: rest) (S i) = Some (r2, t2) ->
  (r1 <? rpm)%float = true ->
  (rpm <=? r2)%float = true ->
  Binary64.torqueAtRpm_loop rpm prev rest
  = (t1 + (t2 - t1) * ((rpm - r1) / (r2 - r1)))%float.
Proof.
  induction rest as [ | cur rest IH]; intros prev i r1 t1 r2 t2 Hinc H1 H2 Hlo Hhi.
  - destruct i; discriminate.
  - destruct i as [ | i].
    + cbn in H1, H2. injection H1 as ->. injection H2 as ->.
      cbn [Binary64.torqueAtRpm_loop]. rewrite Hhi. reflexivity.
    + change (nth_error (cur :: rest) i = Some (r1, t1)) in H1.
      change (nth_error (cur :: rest) (S i) = Some (r2, t2)) in H2.
      pose proof (binary64_increasing_tail _ _ Hinc) as Hinc'.
      pose proof (binary64_increasing_nth _ _ _ _ rpm Hinc' H1 Hlo) as Hcur.
      destruct prev as [r0 t0], cur as [rc tc]. cbn [Binary64.torqueAtRpm_loop].
      cbn [fst] in Hcur. rewrite (binary64_ltb_leb_false _ _ Hcur).
      apply (IH (rc, tc) i); assumption.
Qed.

(** On binary64 numbers: flat at or below the first breakpoint and above
    the last, and between two consecutive breakpoints the interpolation of
    their torques, each operation rounded. *)
Lemma torqueAtRpm_binary64 (curve : list (float * float)) :
  curve <> [] ->
  Binary64.increasing curve ->
  (forall rpm,
     (rpm <=? fst (hd (0, 0) curve))%float = true ->
     Binary64.torqueAtRpm curve rpm
     = Returns (snd (hd (0, 0)%float curve))) /\
  (forall rpm,
     (fst (last curve (0, 0)) <? rpm)%float = true ->
     Binary64.torqueAtRpm curve rpm
     = Returns (snd (last curve (0, 0)%float))) /\
  (forall rpm i r1 t1 r2 t2,
     nth_error curve i = Some (r1, t1) ->
     nth_error curve (S i) = Some (r2, t2) ->
     (r1 <? rpm)%float = true ->
     (rpm <=? r2)%float = true ->
     Binary64.torqueAtRpm curve rpm
     = Returns ((t1 + (t2 - t1) * ((rpm - r1) / (r2 - r1)))%float)).
Proof.
  intros Hne Hinc. destruct curve as [ | first rest]; [contradiction | ].
  split; [ | split].
  - intros rpm Hrpm. cbn in Hrpm |- *. rewrite Hrpm. reflexivity.
  - intros rpm Hrpm.
    assert (Hall : Forall (fun p => (fst p <? rpm)%float = true) (first :: rest)).
    { rewrite Forall_forall. intros q Hq.
      destruct (exists_last Hne) as (front & p & Hsplit).
      rewrite Hsplit in Hrpm, Hinc, Hq. rewrite last_last in Hrpm.
      clear Hsplit Hne. induction front as [ | a front IH].
      - destruct Hq as [<- | []]. exact Hrpm.
      - destruct Hq as [<- | Hq].
        + pose proof (binary64_increasing_head _ _ Hinc) as Hlt.
          rewrite Forall_forall in Hlt.
          assert (Hin : In p (front ++ [p])) by (apply in_or_app; right; left; reflexivity).
          exact (binary64_ltb_trans _ _ _ (Hlt p Hin) Hrpm).
        + exact (IH (binary64_increasing_tail _ _ Hinc) Hq). }
    apply Forall_cons_iff in Hall. destruct Hall as [Hfirst Hrest].
    cbn [Binary64.torqueAtRpm]. rewrite (binary64_ltb_leb_false _ _ Hfirst).
    rewrite binary64_loop_above by assumption.
    destruct rest as [ | p rest]; [reflexivity | ].
    do 2 f_equal.
    change (last (first :: p :: rest) (0, 0)%float)
      with (last (p :: rest) (0, 0)%float).
    apply last_default.
  - intros rpm i r1 t1 r2 t2 H1 H2 Hlo Hhi.
    pose proof (binary64_increasing_nth _ _ _ _ rpm Hinc H1 Hlo) as Hfirst.
    cbn [Binary64.torqueAtRpm]. rewrite (binary64_ltb_leb_false _ _ Hfirst).
    f_equal. apply (binary64_loop_segment rpm rest first i); assumption.
Qed.

Lemma falling_increasing : Binary64.increasing Binary64.falling.
Proof. repeat constructor. Qed.

(** C4, as the code has it.  On a non-empty torque curve with strictly
    increasing breakpoints, [torqueAtRpm] returns the torque of the first
    point at or below the first breakpoint, the torque of the last point
    above the last breakpoint, and above a breakpoint and at or below the
    next one the interpolation [t1 + (t2 - t1) * ((rpm - r1) / (r2 - r1))]
    of their torques: over the reals, and on binary64 numbers with each
    operation rounded.  At the breakpoints of the curves of the two cars
    the result on binary64 numbers is the torque of the point. *)
Theorem torqueAtRpm_segments :
  (forall (this : Vehicle) (curve : list (R * R)),
     Cars.torqueCurve (car this) = curve ->
     curve <> [] ->
     increasing curve ->
     (forall rpm, rpm <= fst (hd (0, 0) curve) ->
        torqueAtRpm this rpm = Returns (snd (hd (0, 0) curve))) /\
     (forall rpm, fst (last curve (0, 0)) < rpm ->
        torqueAtRpm this rpm = Returns (snd (last curve (0, 0)))) /\
     (forall rpm i r1 t1 r2 t2,
        nth_error curve i = Some (r1, t1) ->
        nth_error curve (S i) = Some (r2, t2) ->
        r1 < rpm <= r2 ->
        torqueAtRpm this rpm = Returns (t1 + (t2 - t1) * ((rpm - r1) / (r2 - r1))))) /\
  (forall curve : list (float * float),
     curve <> [] ->
     Binary64.increasing curve ->
     (forall rpm,
        (rpm <=? fst (hd (0, 0) curve))%float = true ->
        Binary64.torqueAtRpm curve rpm
        = Returns (snd (hd (0, 0)%float curve))) /\
     (forall rpm,
        (fst (last curve (0, 0)) <? rpm)%float = true ->
        Binary64.torqueAtRpm curve rpm
        = Returns (snd (last curve (0, 0)%float))) /\
     (forall rpm i r1 t1 r2 t2,
        nth_error curve i = Some (r1, t1) ->
        nth_error curve (S i) = Some (r2, t2) ->
        (r1 <? rpm)%float = true ->
        (rpm <=? r2)%float = true ->
        Binary64.torqueAtRpm curve rpm
        = Returns ((t1 + (t2 - t1) * ((rpm - r1) / (r2 - r1)))%float))) /\
  Forall (fun p => Binary64.torqueAtRpm Binary64.m3_torqueCurve (fst p) = Returns (snd p))
    Binary64.m3_torqueCurve /\
  Forall (fun p => Binary64.torqueAtRpm Binary64.carnival_torqueCurve (fst p)
                   = Returns (snd p))
    Binary64.carnival_torqueCurve.
Proof.
  split; [exact torqueAtRpm_exact | ].
  split; [exact torqueAtRpm_binary64 | ].
  split; repeat constructor.
Qed.

Lemma m3_curve_increasing : increasing (Cars.torqueCurve Cars.m3).
Proof. unfold increasing. cbn. repeat constructor; cbn; lra. Qed.

Lemma m3_curve_increasing_binary64 : Binary64.increasing Binary64.m3_torqueCurve.
Proof. repeat constructor. Qed.

Lemma torqueAtRpm_segments_witness :
  (Cars.torqueCurve (car Scenario.m3) = Cars.torqueCurve Cars.m3 /\
   Cars.torqueCurve Cars.m3 <> [] /\
   increasing (Cars.torqueCurve Cars.m3) /\
   2000 < 2750 <= 3500 /\
   torqueAtRpm Scenario.m3 2750
     = Returns (330 + (410 - 330) * ((2750 - 2000) / (3500 - 2000)))) /\
  (Binary64.m3_torqueCurve <> [] /\
   Binary64.increasing Binary64.m3_torqueCurve /\
   (2000 <? 2750)%float = true /\
   (2750 <=? 3500)%float = true /\
   Binary64.torqueAtRpm Binary64.m3_torqueCurve 2750
     = Returns ((330 + (410 - 330) * ((2750 - 2000) / (3500 - 2000)))%float)).
Proof.
  assert (Hne : Cars.torqueCurve Cars.m3 <> []) by discriminate.
  assert (Hrpm : 2000 < 2750 <= 3500) by lra.
  assert (Hne' : Binary64.m3_torqueCurve <> []) by discriminate.
  assert (Hlo : (2000 <? 2750)%float = true) by reflexivity.
  assert (Hhi : (2750 <=? 3500)%float = true) by reflexivity.
  split.
  - split; [reflexivity | ]. split; [exact Hne | ].
    split; [exact m3_curve_increasing | ]. split; [exact Hrpm | ].
    exact (proj2 (proj2
             (proj1 torqueAtRpm_segments Scenario.m3 (Cars.torqueCurve Cars.m3)
                eq_refl Hne m3_curve_increasing))
             2750 1%nat 2000 330 3500 410 eq_refl eq_refl Hrpm).
  - split; [exact Hne' | ]. split; [exact m3_curve_increasing_binary64 | ].
    split; [exact Hlo | ]. split; [exact Hhi | ].
    exact (proj2 (proj2
             (proj1 (proj2 torqueAtRpm_segments) Binary64.m3_torqueCurve
                Hne' m3_curve_increasing_binary64))
             2750%float 1%nat 2000%float 330%float 3500%float 410%float
             eq_refl eq_refl Hlo Hhi).
Defined.

(** C4, as stated, fails on the numbers the source runs on.  The curve that
    falls from 507 at 5500 to 238.1 at 7000 is not empty and its
    breakpoints increase; at 7000, its last breakpoint, [torqueAtRpm]
    interpolates and returns [507 + (238.1 - 507) * 1] rounded, the
    binary64 number just above the torque 238.1 of the point. *)
Lemma torqueAtRpm_breakpoint_rounded :
  Binary64.falling <> [] /\
  Binary64.increasing Binary64.falling /\
  last Binary64.falling (0, 0)%float = (7000, 238.1)%float /\
  Binary64.torqueAtRpm Binary64.falling 7000 = Returns (next_up 238.1) /\
  Binary64.torqueAtRpm Binary64.falling 7000 <> Returns 238.1%float.
Proof.
  split; [discriminate | ]. split; [exact falling_increasing | ].
  split; [reflexivity | ]. split; [vm_compute; reflexivity | ].
  intros H. apply (f_equal (Binary64.yields 238.1)) in H.
  vm_compute in H. discriminate.
Qed.

(** ** Bounds of the torque *)

(** The loop interpolates between two torques of the curve: the engine
    speed lies between the two breakpoints when it stops. *)
Lemma loop_between (rpm lo hi : R) (rest : list (R * R)) :
  forall prev torque,
  fst prev < rpm ->
  lo <= snd prev <= hi ->
  Forall (fun p => lo <= snd p <= hi) rest ->
  torqueAtRpm_loop rpm prev rest = Returns torque ->
  lo <= torque <= hi.
Proof.
  induction rest as [ | cur rest IH]; intros prev torque Hprev Hp Hall Hrun.
  - cbn in Hrun. injection Hrun as <-. exact Hp.
  - apply Forall_cons_iff in Hall. destruct Hall as [Hcur Hrest].
    destruct prev as [r1 t1], cur as [r2 t2]. cbn [fst snd] in *.
    cbn [torqueAtRpm_loop] in Hrun.
    destruct (rpm <=? r2) eqn:Hcmp.
    + apply leb_true in Hcmp. rewrite div_returns in Hrun by lra.
      cbn [bind] in Hrun. injection Hrun as <-.
      assert (Hf : 0 <= (rpm - r1) / (r2 - r1) <= 1).
      { split.
        - apply Rmult_le_pos; [lra | ]. left. apply Rinv_0_lt_compat. lra.
        - apply Rmult_le_reg_r with (r2 - r1); [lra | ].
          unfold Rdiv. rewrite Rmult_assoc, Rinv_l by lra. lra. }
      set (f := (rpm - r1) / (r2 - r1)) in *. nra.
    + apply leb_false in Hcmp. apply (IH (r2, t2) torque); assumption.
Qed.

(** Over the reals, on a curve that is not empty [torqueAtRpm] returns at
    every engine speed, and what it returns lies between the least and the
    greatest torque of the curve. *)
Lemma torqueAtRpm_in_range (this : Vehicle) (rpm lo hi : R) :
  Cars.torqueCurve (car this) <> [] ->
  Forall (fun p => lo <= snd p <= hi) (Cars.torqueCurve (car this)) ->
  exists torque, torqueAtRpm this rpm = Returns torque /\ lo <= torque <= hi.
Proof.
  intros Hne Hall.
  destruct (torqueAtRpm_returns this rpm Hne) as [torque Hrun].
  exists torque. split; [exact Hrun | ].
  unfold torqueAtRpm in Hrun.
  destruct (Cars.torqueCurve (car this)) as [ | first rest]; [contradiction | ].
  apply Forall_cons_iff in Hall. destruct Hall as [Hfirst Hrest].
  destruct (rpm <=? fst first) eqn:Hcmp.
  - injection Hrun as <-. exact Hfirst.
  - apply leb_false in Hcmp.
    exact (loop_between rpm lo hi rest first torque Hcmp Hfirst Hrest Hrun).
Qed.

(** X4. For each of the two cars of the game [torqueAtRpm] returns at every
    engine speed, and what it returns lies between the least and the
    greatest torque of the car's curve: between 240 and 500 for the M3,
    between 250 and 380 for the Carnival. *)
Theorem torqueAtRpm_between (this : Vehicle) (rpm : R) :
  In (car this) Cars.CARS ->
  exists lo hi torque,
    In lo (map snd (Cars.torqueCurve (car this))) /\
    In hi (map snd (Cars.torqueCurve (car this))) /\
    Forall (fun p => lo <= snd p <= hi) (Cars.torqueCurve (car this)) /\
    torqueAtRpm this rpm = Returns torque /\
    lo <= torque <= hi.
Proof.
  intros Hcar.
  assert (Hb : exists lo hi,
             In lo (map snd (Cars.torqueCurve (car this))) /\
             In hi (map snd (Cars.torqueCurve (car this))) /\
             Forall (fun p => lo <= snd p <= hi) (Cars.torqueCurve (car this)) /\
             Cars.torqueCurve (car this) <> []).
  { destruct Hcar as [<- | [<- | []]].
    - exists 240, 500. cbn. repeat split; auto 6; try discriminate.
      repeat constructor; cbn; lra.
    - exists 250, 380. cbn. repeat split; auto 6; try discriminate.
      repeat constructor; cbn; lra. }
  destruct Hb as (lo & hi & Hlo & Hhi & Hall & Hne).
  destruct (torqueAtRpm_in_range this rpm lo hi Hne Hall) as (torque & Hrun & Hrange).
  exists lo, hi, torque. auto.
Qed.

Lemma torqueAtRpm_between_witness :
  In (car Scenario.m3) Cars.CARS /\
  exists torque, torqueAtRpm Scenario.m3 9000 = Returns torque /\ 240 <= torque <= 500.
Proof.
  assert (Hcar : In (car Scenario.m3) Cars.CARS) by (left; reflexivity).
  split; [exact Hcar | ].
  destruct (torqueAtRpm_between Scenario.m3 9000 Hcar)
    as (lo & hi & torque & Hlo & Hhi & _ & Hrun & Hrange).
  exists torque. split; [exact Hrun | ].
  cbn in Hlo, Hhi.
  assert (240 <= lo) by (repeat (destruct Hlo as [<- | Hlo]; [lra | ]); contradiction).
  assert (hi <= 500) by (repeat (destruct Hhi as [<- | Hhi]; [lra | ]); contradiction).
  lra.
Defined.

End TorqueCurve.

(** * The vehicle *)

Section VehicleFacts.

Import Terrains TireModel Vehicle Contract.

Lemma assign_same_gear (this : Vehicle) :
  assign (fun s => set_gear (gear s) s) this = this.
Proof. destruct this as [[] ? ? ? ? ? ? ? ? ?]. reflexivity. Qed.

(** The shifting step of [update] writes the gear and nothing else. *)
Lemma gear_step_assign (this : Vehicle) :
  (if negb (manualMode this) then updateAutomaticGear this else this)
  = assign (set_gear (next_gear this)) this.
Proof.
  unfold next_gear, updateAutomaticGear, automatic_shift, maxGear.
  destruct (manualMode this); cbn [negb].
  - symmetry. apply assign_same_gear.
  - destruct (_ && _); [reflexivity | ].
    destruct (_ && _); [reflexivity | ].
    symmetry. apply assign_same_gear.
Qed.

(** The clamped steer times a steering lock short of a right angle is not
    a pole of the tangent. *)
Lemma cos_steer_nonzero (s m : R) :
  Rabs m < PI / 2 -> cos (Rmax (-1) (Rmin 1 s) * m) <> 0.
Proof.
  intros Hm. destruct (clamp_bounds (-1) 1 s) as [Hlo Hhi]; [lra | ].
  set (c := Rmax (-1) (Rmin 1 s)) in *.
  assert (Habs : Rabs (c * m) < PI / 2).
  { rewrite Rabs_mult. assert (Rabs c <= 1) by (apply Rabs_le; lra).
    pose proof (Rabs_pos m). pose proof (Rabs_pos c). nra. }
  apply Rabs_def2 in Habs. destruct Habs as [H1 H2].
  pose proof (cos_gt_0 (c * m) H2 H1). lra.
Qed.

Ltac project :=
  cbn [car tuning clutch state manualMode maxSteerAngle terrain driftAssist
       tractionAssist handbrakeGripLoss assign set_state set_clutch].

Ltac project_state :=
  cbn [car tuning clutch state manualMode maxSteerAngle terrain driftAssist
       tractionAssist handbrakeGripLoss assign set_state set_clutch
       position velocity heading yawRate engineRpm gear wheelSpeed speed tireState
       set_position set_velocity set_heading set_yawRate set_engineRpm set_gear
       set_wheelSpeed set_speed set_tireState].

(** A run of [update] that returns went through each of its steps. *)
Ltac unbind H :=
  let a := fresh "v" in
  let E := fresh "E" in
  apply bind_returns in H; destruct H as (a & E & H); cbv beta in H.

Ltac update_inv H :=
  unfold update in H; cbv zeta in H;
  repeat (first [rewrite gear_step_assign in H | unbind H]);
  injection H as <-.

Lemma update_returns (dt : R) (input : VehicleInput) (this : Vehicle) :
  well_formed this -> exists this', update dt input this = Returns this'.
Proof.
  intros (Hwr & Hwb & Hmass & Hgears & Hcurve & Hsteer).
  unfold update.
  destruct (gearRatios (tuning this)) as [ | g0 gs] eqn:Hg; [contradiction | ].
  assert (Hratio : exists ratio,
             nullish (index (g0 :: gs) (gear (state this) - 1)) (index (g0 :: gs) 0)
             = Some ratio).
  { destruct (index (g0 :: gs) (gear (state this) - 1)) as [r | ]; cbn; eauto. }
  destruct Hratio as [ratio Hratio]. rewrite Hratio. cbn [to_number bind].
  rewrite div_returns by (pose proof PI_RGT_0; nra). cbn [bind].
  rewrite gear_step_assign.
  match goal with
  | |- context [torqueAtRpm ?v ?rpm] =>
      destruct (torqueAtRpm_returns v rpm) as [torque Htorque];
      [project; assumption | ]
  end.
  rewrite Htorque. cbn [bind]. project.
  rewrite div_returns by assumption. cbn [bind].
  rewrite div_returns by assumption. cbn [bind].
  rewrite tan_returns by (apply cos_steer_nonzero; assumption). cbn [bind].
  rewrite div_returns.
  2:{ pose proof (Rmax_l 4000
        (Cars.massKg (car this) * (1 - weightReduction (tuning this) * 0.08) * 3)).
      lra. }
  cbn [bind].
  rewrite div_returns by assumption. cbn [bind].
  rewrite div_returns by assumption. cbn [bind].
  eexists. reflexivity.
Qed.

Lemma update_same_setup (dt : R) (input : VehicleInput) (this this' : Vehicle) :
  update dt input this = Returns this' -> same_setup this this'.
Proof. intros H. update_inv H. repeat split; reflexivity. Qed.

Lemma update_engineRpm (dt : R) (input : VehicleInput) (this this' : Vehicle) :
  update dt input this = Returns this' -> 1000 <= engineRpm (state this') <= 7200.
Proof.
  intros H. update_inv H. project_state.
  apply clamp_bounds. unfold revLimiter. lra.
Qed.

(** The gear [update] leaves is the one the shifting step selects at the
    engine speed [update] leaves. *)
Lemma update_gear (dt : R) (input : VehicleInput) (this this' : Vehicle) :
  update dt input this = Returns this' ->
  gear (state this') =
    if manualMode this then gear (state this)
    else automatic_shift (engineRpm (state this')) (gear (state this)) (maxGear this).
Proof.
  intros H. update_inv H. project_state. unfold next_gear. project_state.
  reflexivity.
Qed.

(** ** The M3 of a new game *)

Lemma m3_well_formed : well_formed Scenario.m3.
Proof.
  unfold well_formed. cbn.
  repeat split; try lra; try discriminate.
  rewrite Rabs_pos_eq by lra. pose proof PI2_1. lra.
Qed.

Lemma m3_gear_in_range : gear_in_range Scenario.m3.
Proof. unfold gear_in_range. cbn. lia. Qed.

(** ** A frame, step by step *)

Ltac minmax := unfold Rmax, Rmin; repeat destruct (Rle_dec _ _); lra.

Ltac reduce :=
  cbn -[IZR Rplus Rmult Rminus Rdiv Rinv Ropp Rmax Rmin Rabs sin cos atan sqrt PI
        JS.div JS.tan gtb ltb leb atan2 hypot frictionCircle pressureGripFactor revLimiter].

Lemma atan2_zero (x : R) : 0 < x -> atan2 0 x = 0.
Proof.
  intros Hx. unfold atan2. destruct (Rlt_dec 0 x); [ | contradiction].
  replace (0 / x) with 0 by (field; lra). apply atan_0.
Qed.

Lemma hypot_zero (a b : R) : a = 0 -> b = 0 -> hypot a b = 0.
Proof. intros -> ->. unfold hypot. replace (0 * 0 + 0 * 0) with 0 by ring. apply sqrt_0. Qed.

(** One frame of coasting on the M3 at rest, each step of [update] evaluated:
    the engine speed falls to the floor of 1000, the car stays where it is
    and the grip factor is 1 * (1.05 + 1.05 * 0.988) * 0.5. *)
Example m3_coasting_at_rest :
  update Scenario.frame Scenario.coasting Scenario.m3 =
  Returns {| state := {| position := {| x := 0; z := 0 |};
                         velocity := {| x := 0; z := 0 |};
                         heading := 0;
                         yawRate := 0;
                         engineRpm := 1000;
                         gear := 1;
                         wheelSpeed := 0;
                         speed := 0;
                         tireState := {| slipAngle := 0; slipRatio := 0;
                                         combinedSlip := 0; gripFactor := 1.0437 |} |};
             tuning := Game.loadTuning None Cars.m3;
             manualMode := false;
             driftAssist := 0.7;
             tractionAssist := 0.6;
             maxSteerAngle := 0.55;
             handbrakeGripLoss := 0.55;
             terrain := asphalt;
             car := Cars.m3;
             clutch := 0 |}.
Proof.
  unfold update, Scenario.m3, Scenario.coasting, Scenario.frame, Game.newVehicle, Vehicle.new.
  reduce.
  rewrite sin_0, cos_0.
  rewrite div_returns by (pose proof PI_RGT_0; lra). reduce.
  replace ((0 * 0 + 0 * 1) / (2 * PI * 0.33) * 60) with 0
    by (field; pose proof PI_RGT_0; lra).
  replace (Rmax 0 0) with 0 by minmax.
  replace (Rmax 1000 (Rmin revLimiter (0 * (3.8 * 3.42) + 1000))) with 1000
    by (unfold revLimiter; minmax).
  unfold updateAutomaticGear. reduce.
  replace (1000 >? 6500) with false by (symmetry; apply gtb_false; lra).
  rewrite Bool.andb_false_r. reduce.
  unfold torqueAtRpm. reduce.
  replace (1000 <=? 1000) with true by (symmetry; apply leb_true; lra).
  reduce.
  rewrite div_returns by lra. reduce.
  rewrite div_returns by lra. reduce.
  replace (Rmax (-1) (Rmin 1 0)) with 0 by minmax.
  replace (0 * 0.55) with 0 by ring.
  rewrite tan_returns by (rewrite cos_0; lra). rewrite tan_0. reduce.
  replace (Rmax 4000 (1720 * (1 - 0 * 0.08) * 3)) with 5160 by minmax.
  rewrite div_returns by lra. reduce.
  rewrite div_returns by lra. reduce.
  rewrite div_returns by lra. reduce.
  replace (0 * sin (0 + PI / 2) + 0 * cos (0 + PI / 2)) with 0 by ring.
  replace (0 * 0 + 0 * 1) with 0 by ring.
  replace (240 * (1 + 0 * 0.12) * (3.8 * 3.42) * (1 - 0) / 0.33 * 0 - 1 * 0 * 12000)
    with 0 by (field; lra).
  replace (0 / 5160) with 0 by lra.
  rewrite Rabs_R0, atan2_zero by lra. rewrite Rabs_R0.
  replace (0 + 0) with 0 by ring.
  replace (Rmin 1 0) with 0 by minmax.
  replace (Rmax 0 (0 - 0.4)) with 0 by minmax.
  replace (Rmax 0 (0 - 0.016 * 2)) with 0 by minmax.
  replace (0 >? 0) with false by (symmetry; apply gtb_false; lra).
  replace (0 >? 0.55) with false by (symmetry; apply gtb_false; lra).
  replace (0 >? 0.2) with false by (symmetry; apply gtb_false; lra).
  unfold frictionCircle, tireGripForTerrain. reduce.
  replace (0 * 0 + 0 * 0) with 0 by ring. rewrite sqrt_0.
  replace (Rmin 1 0) with 0 by minmax.
  rewrite !pressureGripFactor_closed_form.
  replace (34 - 33) with 1 by ring. replace (33 - 33) with 0 by ring.
  rewrite Rabs_R0, Rabs_R1.
  replace (Rmin 6 1) with 1 by minmax. replace (Rmin 6 0) with 0 by minmax.
  cbv beta iota zeta delta
    [assign set_state set_clutch set_tireState set_speed set_position set_velocity
     set_heading set_yawRate set_engineRpm set_wheelSpeed set_gear set_x set_z
     state position velocity heading yawRate engineRpm gear wheelSpeed speed tireState
     x z tuning manualMode driftAssist tractionAssist maxSteerAngle handbrakeGripLoss
     terrain car clutch].
  replace (Rmax (- (1 + (1 - 0.7) * 1.2))
             (Rmin (1 + (1 - 0.7) * 1.2)
                (0 + (0 / (2.731 + 0.2) * 0 - 0) * (2.2 - 0.6) * 3 * 0.016)))
    with 0 by minmax.
  do 2 f_equal.
  f_equal; try (f_equal; lra); try lra.
  apply hypot_zero; lra.
Qed.

(** The slip ratio after one frame on the M3 at rest, whatever the input:
    the engine turns at 1000, where the curve gives a torque of 240, and the
    throttle and the brake enter as they are given. *)
Lemma m3_at_rest_slipRatio (input : VehicleInput) :
  exists this',
    update Scenario.frame input Scenario.m3 = Returns this' /\
    slipRatio (tireState (state this'))
      = (240 * (3.8 * 3.42) / 0.33 * throttle input - 12000 * brake input) / 5160.
Proof.
  unfold update, Scenario.m3, Scenario.frame, Game.newVehicle, Vehicle.new.
  reduce.
  rewrite sin_0, cos_0.
  rewrite div_returns by (pose proof PI_RGT_0; lra). reduce.
  replace ((0 * 0 + 0 * 1) / (2 * PI * 0.33) * 60) with 0
    by (field; pose proof PI_RGT_0; lra).
  replace (Rmax 0 0) with 0 by minmax.
  replace (Rmax 1000 (Rmin revLimiter (0 * (3.8 * 3.42) + 1000))) with 1000
    by (unfold revLimiter; minmax).
  unfold updateAutomaticGear. reduce.
  replace (1000 >? 6500) with false by (symmetry; apply gtb_false; lra).
  rewrite Bool.andb_false_r. reduce.
  unfold torqueAtRpm. reduce.
  replace (1000 <=? 1000) with true by (symmetry; apply leb_true; lra).
  reduce.
  rewrite div_returns by lra. reduce.
  rewrite div_returns by lra. reduce.
  rewrite tan_returns by (apply cos_steer_nonzero; rewrite Rabs_pos_eq by lra;
                          pose proof PI2_1; lra).
  reduce.
  replace (Rmax 4000 (1720 * (1 - 0 * 0.08) * 3)) with 5160 by minmax.
  rewrite div_returns by lra. reduce.
  rewrite div_returns by lra. reduce.
  rewrite div_returns by lra. reduce.
  eexists. split; [reflexivity | ].
  cbv beta iota zeta delta
    [assign set_state set_clutch set_tireState state tireState slipRatio].
  lra.
Qed.

(** ** Engine speed *)

(** C1. For every time step and every driver input, the engine speed an
    [update] that returns leaves lies within [1000, 7200]; on a well-formed
    vehicle [update] returns. *)
Theorem update_engineRpm_in_range (dt : R) (input : VehicleInput) (this : Vehicle) :
  (forall this',
     update dt input this = Returns this' ->
     1000 <= engineRpm (state this') <= 7200) /\
  (well_formed this ->
   exists this',
     update dt input this = Returns this' /\
     1000 <= engineRpm (state this') <= 7200).
Proof.
  split.
  - exact (update_engineRpm dt input this).
  - intros Hwf. destruct (update_returns dt input this Hwf) as [this' Hrun].
    exists this'. split; [exact Hrun | ].
    exact (update_engineRpm dt input this this' Hrun).
Qed.

Lemma update_engineRpm_in_range_witness :
  well_formed Scenario.m3 /\
  exists this',
    update Scenario.frame Scenario.oversteering Scenario.m3 = Returns this' /\
    1000 <= engineRpm (state this') <= 7200.
Proof.
  split; [exact m3_well_formed | ].
  destruct (proj2 (update_engineRpm_in_range Scenario.frame Scenario.oversteering
                     Scenario.m3) m3_well_formed) as (this' & Hrun & _).
  exists this'. split; [exact Hrun | ].
  exact (proj1 (update_engineRpm_in_range Scenario.frame Scenario.oversteering
                  Scenario.m3) this' Hrun).
Defined.

(** ** The gearbox *)

Lemma automatic_shift_cases (rpm : R) (g m : Z) :
  (automatic_shift rpm g m = (g + 1)%Z <-> shifts_up rpm g m) /\
  (automatic_shift rpm g m = (g - 1)%Z <-> ~ shifts_up rpm g m /\ shifts_down rpm g) /\
  (automatic_shift rpm g m = g <-> ~ shifts_up rpm g m /\ ~ shifts_down rpm g).
Proof.
  unfold automatic_shift, shifts_up, shifts_down.
  destruct (rpm >? 6500) eqn:Hup; [apply gtb_true in Hup | apply gtb_false in Hup];
    destruct (rpm <? 2200) eqn:Hdown; [apply ltb_true in Hdown | apply ltb_false in Hdown
                                      | apply ltb_true in Hdown | apply ltb_false in Hdown];
    destruct (Z.ltb_spec g m); destruct (Z.gtb_spec g 1); cbn [andb];
    repeat split; intros; try lia; try lra;
    repeat match goal with
           | H : _ /\ _ |- _ => destruct H
           | H : ~ (_ /\ _) |- _ => exfalso; apply H; split; (lra || lia)
           | |- ~ _ => intros []
           end; try lia; try lra.
Qed.

Lemma automatic_shift_in_range (rpm : R) (g m : Z) :
  (1 <= g <= m)%Z -> (1 <= automatic_shift rpm g m <= m)%Z.
Proof.
  intros Hg. unfold automatic_shift.
  destruct (rpm >? 6500), (rpm <? 2200), (Z.ltb_spec g m), (Z.gtb_spec g 1);
    cbn [andb]; lia.
Qed.

(** C8. In an [update] with [manualMode] false the gear moves by at most
    one step: up exactly when the engine speed is above 6500 and the gear
    below the top gear; down exactly when that is not so and the engine
    speed is below 2200 with the gear above 1. *)
Theorem update_shifts_one_gear (dt : R) (input : VehicleInput) (this this' : Vehicle) :
  manualMode this = false ->
  update dt input this = Returns this' ->
  (gear (state this') = (gear (state this) + 1)%Z <->
     shifts_up (engineRpm (state this')) (gear (state this)) (maxGear this)) /\
  (gear (state this') = (gear (state this) - 1)%Z <->
     ~ shifts_up (engineRpm (state this')) (gear (state this)) (maxGear this) /\
     shifts_down (engineRpm (state this')) (gear (state this))) /\
  (gear (state this') = gear (state this) <->
     ~ shifts_up (engineRpm (state this')) (gear (state this)) (maxGear this) /\
     ~ shifts_down (engineRpm (state this')) (gear (state this))) /\
  (gear (state this) - 1 <= gear (state this') <= gear (state this) + 1)%Z.
Proof.
  intros Hauto Hrun. rewrite (update_gear dt input this this' Hrun), Hauto.
  destruct (automatic_shift_cases (engineRpm (state this')) (gear (state this))
              (maxGear this)) as (Hup & Hdown & Hstay).
  split; [exact Hup | split; [exact Hdown | split; [exact Hstay | ]]].
  unfold automatic_shift. destruct (_ && _); [lia | ]. destruct (_ && _); lia.
Qed.

Lemma update_shifts_one_gear_witness :
  manualMode Scenario.m3 = false /\
  exists this',
    update Scenario.frame Scenario.coasting Scenario.m3 = Returns this' /\
    (gear (state Scenario.m3) - 1 <= gear (state this') <= gear (state Scenario.m3) + 1)%Z.
Proof.
  split; [reflexivity | ].
  destruct (update_returns Scenario.frame Scenario.coasting Scenario.m3 m3_well_formed)
    as [this' Hrun].
  exists this'. split; [exact Hrun | ].
  exact (proj2 (proj2 (proj2
           (update_shifts_one_gear Scenario.frame Scenario.coasting Scenario.m3 this'
              eq_refl Hrun)))).
Defined.

Lemma shiftUp_same_setup (this : Vehicle) : same_setup this (shiftUp this).
Proof.
  unfold shiftUp. destruct (manualMode this) eqn:Hm; cbn [negb].
  - destruct (_ <? _)%Z; repeat split; cbn; auto.
  - repeat split; auto.
Qed.

Lemma shiftDown_same_setup (this : Vehicle) : same_setup this (shiftDown this).
Proof.
  unfold shiftDown. destruct (manualMode this) eqn:Hm; cbn [negb].
  - destruct (_ >? _)%Z; repeat split; cbn; auto.
  - repeat split; auto.
Qed.

Lemma shiftUp_in_range (this : Vehicle) :
  gear_in_range this -> gear_in_range (shiftUp this).
Proof.
  unfold gear_in_range, shiftUp. intros Hg.
  destruct (manualMode this); cbn [negb]; [ | exact Hg].
  destruct (Z.ltb_spec (gear (state this))
              (Z.of_nat (List.length (gearRatios (tuning this))))); [ | exact Hg].
  cbn. lia.
Qed.

Lemma shiftDown_in_range (this : Vehicle) :
  gear_in_range this -> gear_in_range (shiftDown this).
Proof.
  unfold gear_in_range, shiftDown. intros Hg.
  destruct (manualMode this); cbn [negb]; [ | exact Hg].
  destruct (Z.gtb_spec (gear (state this)) 1); [ | exact Hg].
  cbn. lia.
Qed.

Lemma update_in_range (dt : R) (input : VehicleInput) (this this' : Vehicle) :
  gear_in_range this -> update dt input this = Returns this' -> gear_in_range this'.
Proof.
  intros Hg Hrun. unfold gear_in_range in *.
  destruct (update_same_setup dt input this this' Hrun) as (_ & Htuning & _).
  rewrite <- Htuning, (update_gear dt input this this' Hrun).
  destruct (manualMode this); [exact Hg | ].
  apply automatic_shift_in_range. exact Hg.
Qed.

Lemma perform_in_range (c : call) (this this' : Vehicle) :
  gear_in_range this -> perform c this = Returns this' -> gear_in_range this'.
Proof.
  intros Hg. destruct c as [dt input | | ]; cbn [perform]; intros Hrun.
  - exact (update_in_range dt input this this' Hg Hrun).
  - injection Hrun as <-. apply shiftUp_in_range. exact Hg.
  - injection Hrun as <-. apply shiftDown_in_range. exact Hg.
Qed.

Lemma run_in_range (calls : list call) :
  forall this this',
  gear_in_range this -> run calls this = Returns this' -> gear_in_range this'.
Proof.
  induction calls as [ | c calls IH]; intros this this' Hg Hrun; cbn [run] in Hrun.
  - injection Hrun as <-. exact Hg.
  - apply bind_returns in Hrun. destruct Hrun as (mid & Hc & Hrest).
    apply (IH mid this'); [ | exact Hrest].
    exact (perform_in_range c this mid Hg Hc).
Qed.

Lemma well_formed_same_setup (a b : Vehicle) :
  same_setup a b -> well_formed a -> well_formed b.
Proof.
  intros (Hcar & Htuning & _ & _ & _ & _ & Hsteer & _). unfold well_formed.
  rewrite <- Hcar, <- Htuning, <- Hsteer. tauto.
Qed.

Lemma perform_returns (c : call) (this : Vehicle) :
  well_formed this ->
  exists this', perform c this = Returns this' /\ well_formed this'.
Proof.
  intros Hwf. destruct c as [dt input | | ]; cbn [perform].
  - destruct (update_returns dt input this Hwf) as [this' Hrun].
    exists this'. split; [exact Hrun | ].
    exact (well_formed_same_setup _ _ (update_same_setup _ _ _ _ Hrun) Hwf).
  - eexists. split; [reflexivity | ].
    exact (well_formed_same_setup _ _ (shiftUp_same_setup this) Hwf).
  - eexists. split; [reflexivity | ].
    exact (well_formed_same_setup _ _ (shiftDown_same_setup this) Hwf).
Qed.

Lemma run_returns (calls : list call) :
  forall this, well_formed this -> exists this', run calls this = Returns this'.
Proof.
  induction calls as [ | c calls IH]; intros this Hwf; cbn [run].
  - eexists. reflexivity.
  - destruct (perform_returns c this Hwf) as (mid & Hc & Hmid).
    rewrite Hc. cbn [bind]. apply IH. exact Hmid.
Qed.

Lemma shiftUp_top_gear (this : Vehicle) :
  gear (state this) = maxGear this -> shiftUp this = this.
Proof.
  unfold shiftUp, maxGear. intros Htop. destruct (manualMode this); cbn [negb]; [ | reflexivity].
  rewrite Htop, Z.ltb_irrefl. reflexivity.
Qed.

Lemma shiftDown_first_gear (this : Vehicle) :
  gear (state this) = 1%Z -> shiftDown this = this.
Proof.
  unfold shiftDown. intros Hfirst. destruct (manualMode this); cbn [negb]; [ | reflexivity].
  rewrite Hfirst. reflexivity.
Qed.

Lemma shift_automatic (this : Vehicle) :
  manualMode this = false -> shiftUp this = this /\ shiftDown this = this.
Proof. unfold shiftUp, shiftDown. intros ->. split; reflexivity. Qed.

(** C2. With a non-empty list of gear ratios and the gear within
    [1, gearRatios.length], the gear is within that range after every
    sequence of [update], [shiftUp] and [shiftDown] calls (a sequence that
    returns, as every sequence on a well-formed vehicle does); [shiftUp]
    changes nothing at the top gear, [shiftDown] nothing at gear 1, and
    neither changes anything when [manualMode] is false. *)
Theorem gear_stays_in_range (this : Vehicle) :
  gearRatios (tuning this) <> [] ->
  gear_in_range this ->
  (forall calls this', run calls this = Returns this' -> gear_in_range this') /\
  (well_formed this -> forall calls, exists this', run calls this = Returns this') /\
  (gear (state this) = maxGear this -> shiftUp this = this) /\
  (gear (state this) = 1%Z -> shiftDown this = this) /\
  (manualMode this = false -> shiftUp this = this /\ shiftDown this = this).
Proof.
  intros _ Hg. split; [ | split; [ | split; [ | split]]].
  - intros calls this' Hrun. exact (run_in_range calls this this' Hg Hrun).
  - intros Hwf calls. exact (run_returns calls this Hwf).
  - exact (shiftUp_top_gear this).
  - exact (shiftDown_first_gear this).
  - exact (shift_automatic this).
Qed.

Lemma gear_stays_in_range_witness :
  gearRatios (tuning Scenario.m3) <> [] /\
  gear_in_range Scenario.m3 /\
  exists this',
    run [Update Scenario.frame Scenario.oversteering; ShiftUp;
         Update Scenario.frame Scenario.braking; ShiftDown] Scenario.m3 = Returns this' /\
    gear_in_range this'.
Proof.
  assert (Hne : gearRatios (tuning Scenario.m3) <> []) by discriminate.
  split; [exact Hne | ]. split; [exact m3_gear_in_range | ].
  destruct (gear_stays_in_range Scenario.m3 Hne m3_gear_in_range)
    as (Hrange & Hreturns & _).
  destruct (Hreturns m3_well_formed
              [Update Scenario.frame Scenario.oversteering; ShiftUp;
               Update Scenario.frame Scenario.braking; ShiftDown]) as [this' Hrun].
  exists this'. split; [exact Hrun | ].
  exact (Hrange _ this' Hrun).
Defined.


(** ** Driver input *)

(** C3, as the code has it. [update] clamps the steer to [-1, 1] and reads
    the handbrake only through comparisons with 0 and 0.2, which clamping
    to [0, 1] does not change: the outcome of [update] is the same with the
    steer and the handbrake clamped.  The throttle and the brake are used
    as given. *)
Theorem update_clamps_steer_and_handbrake (dt : R) (input : VehicleInput) (this : Vehicle) :
  update dt (steer_and_handbrake_clamped input) this = update dt input this.
Proof.
  unfold update, steer_and_handbrake_clamped.
  cbn [throttle brake steer handbrake].
  rewrite (clamp_idem (-1) 1 (steer input)) by lra.
  rewrite (gtb_clamp_unit (handbrake input) 0) by lra.
  rewrite (gtb_clamp_unit (handbrake input) 0.2) by lra.
  reflexivity.
Qed.

(** C3, as stated, fails: on the M3 of a new game a brake input of 2 and
    the same input clamped, a brake input of 1, leave different states. *)
Lemma update_does_not_clamp_brake :
  exists a b,
    update Scenario.frame Scenario.overbraking Scenario.m3 = Returns a /\
    update Scenario.frame (clamped Scenario.overbraking) Scenario.m3 = Returns b /\
    state a <> state b.
Proof.
  destruct (m3_at_rest_slipRatio Scenario.overbraking) as (a & Ha & Hsa).
  destruct (m3_at_rest_slipRatio (clamped Scenario.overbraking)) as (b & Hb & Hsb).
  exists a, b. split; [exact Ha | ]. split; [exact Hb | ].
  intros Heq. rewrite Heq, Hsb in Hsa. clear - Hsa. cbn in Hsa.
  replace (Rmax 0 (Rmin 1 0)) with 0 in Hsa by minmax.
  replace (Rmax 0 (Rmin 1 2)) with 1 in Hsa by minmax.
  lra.
Qed.

(** The throttle is not clamped either: a throttle input of 2 and the same
    input clamped, a throttle input of 1, leave different states. *)
Lemma update_does_not_clamp_throttle :
  exists a b,
    update Scenario.frame Scenario.overthrottle Scenario.m3 = Returns a /\
    update Scenario.frame (clamped Scenario.overthrottle) Scenario.m3 = Returns b /\
    state a <> state b.
Proof.
  destruct (m3_at_rest_slipRatio Scenario.overthrottle) as (a & Ha & Hsa).
  destruct (m3_at_rest_slipRatio (clamped Scenario.overthrottle)) as (b & Hb & Hsb).
  exists a, b. split; [exact Ha | ]. split; [exact Hb | ].
  intros Heq. rewrite Heq, Hsb in Hsa. clear - Hsa. cbn in Hsa.
  replace (Rmax 0 (Rmin 1 0)) with 0 in Hsa by minmax.
  replace (Rmax 0 (Rmin 1 2)) with 1 in Hsa by minmax.
  lra.
Qed.

(** ** Reset *)




(** ** Frame *)

(** C10. An [update] that returns leaves the car, the tuning, the terrain,
    [manualMode], [driftAssist], [tractionAssist], [maxSteerAngle] and
    [handbrakeGripLoss] as they were: it writes the state and the clutch
    only. *)
Theorem update_frame (dt : R) (input : VehicleInput) (this this' : Vehicle) :
  update dt input this = Returns this' ->
  car this' = car this /\
  tuning this' = tuning this /\
  terrain this' = terrain this /\
  manualMode this' = manualMode this /\
  driftAssist this' = driftAssist this /\
  tractionAssist this' = tractionAssist this /\
  maxSteerAngle this' = maxSteerAngle this /\
  handbrakeGripLoss this' = handbrakeGripLoss this.
Proof.
  intros Hrun.
  destruct (update_same_setup dt input this this' Hrun)
    as (H1 & H2 & H3 & H4 & H5 & H6 & H7 & H8).
  repeat split; symmetry; assumption.
Qed.

Lemma update_frame_witness :
  exists this',
    update Scenario.frame Scenario.oversteering Scenario.m3 = Returns this' /\
    car this' = car Scenario.m3 /\
    tuning this' = tuning Scenario.m3.
Proof.
  destruct (update_returns Scenario.frame Scenario.oversteering Scenario.m3 m3_well_formed)
    as [this' Hrun].
  exists this'. split; [exact Hrun | ].
  destruct (update_frame Scenario.frame Scenario.oversteering Scenario.m3 this' Hrun)
    as (Hcar & Htuning & _).
  split; assumption.
Defined.

(** ** What update reads and writes *)

Lemma update_forget (dt : R) (input : VehicleInput) (this : Vehicle)
    (e w sp : R) (ts : TireState) :
  update dt input (Invariant.forget e w sp ts this) = update dt input this.
Proof.
  destruct this as [[p v h y e0 g w0 sp0 ts0] tu mm da ta ms hb te c cl].
  unfold update, Invariant.forget. cbv zeta. project_state.
  destruct (to_number _) as [ratio | | ]; cbn [bind]; try reflexivity.
  destruct (_ // _) as [turns | | ]; cbn [bind]; try reflexivity.
  destruct mm; cbn [negb]; [reflexivity | ].
  unfold updateAutomaticGear. project_state.
  destruct (_ && _); [reflexivity | ].
  destruct (_ && _); reflexivity.
Qed.

(** X6. The outcome of [update] does not depend on the engine speed, the
    wheel speed, the speed and the tire state the vehicle had before: it
    writes all four without reading any of them. *)
Theorem update_ignores_derived_state (dt : R) (input : VehicleInput) (this : Vehicle)
    (e w sp : R) (ts : TireState) :
  update dt input (Invariant.forget e w sp ts this) = update dt input this.
Proof. exact (update_forget dt input this e w sp ts). Qed.

(** X7. [update] moves the car with the velocity it has just computed and
    turns it with the yaw rate it has just computed; the speed it leaves is
    the length of that velocity. *)
Theorem update_integrates (dt : R) (input : VehicleInput) (this this' : Vehicle) :
  update dt input this = Returns this' ->
  x (position (state this')) = x (position (state this)) + x (velocity (state this')) * dt /\
  z (position (state this')) = z (position (state this)) + z (velocity (state this')) * dt /\
  heading (state this') = heading (state this) + yawRate (state this') * dt /\
  speed (state this') = hypot (x (velocity (state this'))) (z (velocity (state this'))).
Proof.
  intros H. update_inv H. project_state.
  cbn [x z set_x set_z]. repeat split; reflexivity.
Qed.

Lemma update_integrates_witness :
  exists this',
    update Scenario.frame Scenario.oversteering Scenario.m3 = Returns this' /\
    heading (state this') = heading (state Scenario.m3) + yawRate (state this') * Scenario.frame.
Proof.
  destruct (update_returns Scenario.frame Scenario.oversteering Scenario.m3 m3_well_formed)
    as [this' Hrun].
  exists this'. split; [exact Hrun | ].
  exact (proj1 (proj2 (proj2
           (update_integrates Scenario.frame Scenario.oversteering Scenario.m3 this' Hrun)))).
Defined.

Lemma atan2_right (y x : R) : 0 < x -> - (PI / 2) < atan2 y x < PI / 2.
Proof.
  intros Hx. unfold atan2. destruct (Rlt_dec 0 x); [ | contradiction].
  pose proof (atan_bound (y / x)). lra.
Qed.

(** X8. After every [update] the wheel speed, the speed and the clutch are
    not negative, the slip angle lies strictly between the right angles,
    and the combined slip is the sum of the absolute slip angle and slip
    ratio, capped at 1. *)
Theorem update_state_ranges (dt : R) (input : VehicleInput) (this this' : Vehicle) :
  update dt input this = Returns this' ->
  0 <= wheelSpeed (state this') /\
  0 <= speed (state this') /\
  0 <= clutch this' /\
  - (PI / 2) < slipAngle (tireState (state this')) < PI / 2 /\
  0 <= combinedSlip (tireState (state this')) <= 1 /\
  combinedSlip (tireState (state this'))
    = Rmin 1 (Rabs (slipAngle (tireState (state this')))
              + Rabs (slipRatio (tireState (state this')))).
Proof.
  intros H. update_inv H. project_state.
  cbn [slipAngle slipRatio combinedSlip].
  split; [apply Rmax_l | ].
  split; [apply sqrt_pos | ].
  split; [apply Rmax_l | ].
  split.
  { apply atan2_right.
    match goal with |- 0 < Rabs ?a + 0.5 => pose proof (Rabs_pos a); lra end. }
  split; [ | reflexivity].
  match goal with
  | |- 0 <= Rmin 1 (Rabs ?a + Rabs ?b) <= 1 =>
      pose proof (Rabs_pos a); pose proof (Rabs_pos b)
  end.
  minmax.
Qed.

Lemma update_state_ranges_witness :
  exists this',
    update Scenario.frame Scenario.overbraking Scenario.m3 = Returns this' /\
    0 <= combinedSlip (tireState (state this')) <= 1.
Proof.
  destruct (update_returns Scenario.frame Scenario.overbraking Scenario.m3 m3_well_formed)
    as [this' Hrun].
  exists this'. split; [exact Hrun | ].
  exact (proj1 (proj2 (proj2 (proj2 (proj2
           (update_state_ranges Scenario.frame Scenario.overbraking Scenario.m3 this'
              Hrun)))))).
Defined.

(** X9. When the yaw clamp [1 + (1 - driftAssist) * 1.2] is not negative,
    the yaw rate [update] leaves is within the clamp. *)
Theorem update_yawRate_clamped (dt : R) (input : VehicleInput) (this this' : Vehicle) :
  0 <= 1 + (1 - driftAssist this) * 1.2 ->
  update dt input this = Returns this' ->
  Rabs (yawRate (state this')) <= 1 + (1 - driftAssist this) * 1.2.
Proof.
  intros Hc H. update_inv H. project_state.
  apply Rabs_le. revert Hc. minmax.
Qed.

Lemma update_yawRate_clamped_witness :
  0 <= 1 + (1 - driftAssist Scenario.m3) * 1.2 /\
  exists this',
    update Scenario.frame Scenario.oversteering Scenario.m3 = Returns this' /\
    Rabs (yawRate (state this')) <= 1 + (1 - driftAssist Scenario.m3) * 1.2.
Proof.
  assert (Hc : 0 <= 1 + (1 - driftAssist Scenario.m3) * 1.2) by (cbn; lra).
  split; [exact Hc | ].
  destruct (update_returns Scenario.frame Scenario.oversteering Scenario.m3 m3_well_formed)
    as [this' Hrun].
  exists this'. split; [exact Hrun | ].
  exact (update_yawRate_clamped Scenario.frame Scenario.oversteering Scenario.m3 this'
           Hc Hrun).
Defined.

(** ** At rest *)

(** X10. A vehicle at rest whose yaw clamp [1 + (1 - driftAssist) * 1.2]
    is not negative, and that gets neither throttle nor brake, stays at
    rest, whatever the steer, the handbrake and the time step: position
    and heading are kept, speed and wheel speed are 0 and the engine idles
    at 1000. *)
Theorem update_at_rest (dt : R) (input : VehicleInput) (this this' : Vehicle) :
  Invariant.at_rest this ->
  throttle input = 0 ->
  brake input = 0 ->
  0 <= 1 + (1 - driftAssist this) * 1.2 ->
  update dt input this = Returns this' ->
  Invariant.at_rest this' /\
  position (state this') = position (state this) /\
  heading (state this') = heading (state this) /\
  speed (state this') = 0 /\
  wheelSpeed (state this') = 0 /\
  engineRpm (state this') = 1000.
Proof.
  intros (Hvx & Hvz & Hyaw) Ht Hb Hclamp H.
  unfold update in H. cbv zeta in H.
  rewrite Hvx, Hvz, Ht, Hb in H.
  repeat (first [rewrite gear_step_assign in H | unbind H]).
  injection H as <-.
  repeat match goal with
         | H : _ // _ = Returns _ |- _ => apply div_inv in H; destruct H as [? H]
         end.
  cbn [car tuning clutch state manualMode maxSteerAngle terrain driftAssist
       tractionAssist handbrakeGripLoss assign set_state set_clutch
       position velocity heading yawRate engineRpm gear wheelSpeed speed tireState
       set_position set_velocity set_heading set_yawRate set_engineRpm set_gear
       set_wheelSpeed set_speed set_tireState x z set_x set_z] in *.
  rewrite Hvx, Hvz, Hyaw in *.
  repeat match goal with
         | E : ?v = _ / _ |- _ =>
             is_var v;
             assert (v = 0) by (rewrite E; unfold Rdiv; ring);
             clear E; subst v
         | E : ?v = _ / _ |- _ => is_var v; clear E
         end.
  match goal with
  | E : JS.tan _ = Returns ?t |- _ =>
      assert (Hyaw' : Rmax (- (1 + (1 - driftAssist this) * 1.2))
                        (Rmin (1 + (1 - driftAssist this) * 1.2)
                           (0 + (0 * t - 0)
                                * (2.2 - Cars.damping (suspension (tuning this))) * 3 * dt))
                      = 0)
  end.
  { match goal with
    | |- context [0 + ?e * ?d * 3 * dt] => replace (0 + e * d * 3 * dt) with 0 by ring
    end.
    revert Hclamp. minmax. }
  unfold Invariant.at_rest. project_state.
  destruct (position (state this)) as [px pz].
  cbn [x z set_x set_z]. rewrite ?Hvx, ?Hvz, ?Hyaw, ?Hyaw'.
  replace (Rmax 0 (0 * 60)) with 0 by minmax.
  repeat split;
    first [ ring
          | apply hypot_zero; ring
          | unfold revLimiter;
            match goal with
            | |- context [0 * ?r + 1000] => replace (0 * r + 1000) with 1000 by ring
            end; minmax
          | unfold set_z, set_x; cbn [x z]; f_equal; ring ].
Qed.

Lemma m3_at_rest : Invariant.at_rest Scenario.m3.
Proof. repeat split. Qed.

Lemma update_at_rest_witness :
  Invariant.at_rest Scenario.m3 /\
  throttle Scenario.coasting = 0 /\
  brake Scenario.coasting = 0 /\
  0 <= 1 + (1 - driftAssist Scenario.m3) * 1.2 /\
  exists this',
    update Scenario.frame Scenario.coasting Scenario.m3 = Returns this' /\
    Invariant.at_rest this'.
Proof.
  assert (Hc : 0 <= 1 + (1 - driftAssist Scenario.m3) * 1.2) by (cbn; lra).
  split; [exact m3_at_rest | ]. split; [reflexivity | ]. split; [reflexivity | ].
  split; [exact Hc | ].
  destruct (update_returns Scenario.frame Scenario.coasting Scenario.m3 m3_well_formed)
    as [this' Hrun].
  exists this'. split; [exact Hrun | ].
  exact (proj1 (update_at_rest Scenario.frame Scenario.coasting Scenario.m3 this'
                  m3_at_rest eq_refl eq_refl Hc Hrun)).
Defined.

(** ** The clutch *)

Lemma update_clutch (dt : R) (input : VehicleInput) (this this' : Vehicle) :
  update dt input this = Returns this' -> clutch this' = Rmax 0 (clutch this - dt * 2).
Proof. intros H. update_inv H. project_state. reflexivity. Qed.

(** The clutch never rises and never falls below 0. *)
Lemma frames_clutch_falls (fs : list (R * VehicleInput)) :
  forall this this',
  0 <= clutch this ->
  Forall (fun f => 0 <= fst f) fs ->
  run (Invariant.frames fs) this = Returns this' ->
  0 <= clutch this' <= clutch this.
Proof.
  induction fs as [ | [dt input] fs IH]; intros this this' Hc Hdt Hrun.
  - cbn in Hrun. injection Hrun as <-. lra.
  - apply Forall_cons_iff in Hdt. destruct Hdt as [Hdt Hrest]. cbn in Hdt.
    cbn [Invariant.frames map run perform fst snd] in Hrun.
    apply bind_returns in Hrun. destruct Hrun as (mid & Hmid & Hrun).
    pose proof (update_clutch _ _ _ _ Hmid) as Hcl.
    assert (Hmid' : 0 <= clutch mid <= clutch this).
    { rewrite Hcl. revert Hc Hdt. minmax. }
    destruct (IH mid this' (proj1 Hmid') Hrest Hrun) as [Hlo Hhi]. lra.
Qed.

(** A frame whose time step, doubled, is at least the clutch releases
    it, and the frames after it leave it released. *)
Lemma frames_clutch_released (fs : list (R * VehicleInput)) :
  forall this this',
  0 <= clutch this ->
  Forall (fun f => 0 <= fst f) fs ->
  Exists (fun f => clutch this <= fst f * 2) fs ->
  run (Invariant.frames fs) this = Returns this' ->
  clutch this' = 0.
Proof.
  induction fs as [ | [dt input] fs IH]; intros this this' Hc Hdt Hex Hrun.
  - apply Exists_nil in Hex. contradiction.
  - apply Forall_cons_iff in Hdt. destruct Hdt as [Hdt Hrest]. cbn in Hdt.
    cbn [Invariant.frames map run perform fst snd] in Hrun.
    apply bind_returns in Hrun. destruct Hrun as (mid & Hmid & Hrun).
    pose proof (update_clutch _ _ _ _ Hmid) as Hcl.
    assert (Hmid' : 0 <= clutch mid <= clutch this).
    { rewrite Hcl. revert Hc Hdt. minmax. }
    apply Exists_cons in Hex. destruct Hex as [Hnow | Hlater].
    + cbn [fst] in Hnow.
      assert (Hz : clutch mid = 0).
      { rewrite Hcl. apply Rmax_left. lra. }
      assert (Hz' : 0 <= clutch mid) by lra.
      destruct (frames_clutch_falls fs mid this' Hz' Hrest Hrun) as [Hlo Hhi]. lra.
    + apply (IH mid this' (proj1 Hmid') Hrest); [ | exact Hrun].
      apply Exists_exists in Hlater. destruct Hlater as (f & Hin & Hf).
      apply Exists_exists. exists f. split; [exact Hin | lra].
Qed.

(** X11. Over a sequence of [update] calls with time steps that are not
    negative the clutch never rises and never falls below 0, and it is 0
    at the end when one of the time steps, doubled, is at least the clutch
    at the start: a clutch of 0.2, as a shift leaves it, is released by a
    frame of a tenth of a second, and stays released. *)
Theorem clutch_released (fs : list (R * VehicleInput)) (this this' : Vehicle) :
  0 <= clutch this ->
  Forall (fun f => 0 <= fst f) fs ->
  run (Invariant.frames fs) this = Returns this' ->
  0 <= clutch this' <= clutch this /\
  (Exists (fun f => clutch this <= fst f * 2) fs -> clutch this' = 0).
Proof.
  intros Hc Hdt Hrun.
  split; [exact (frames_clutch_falls fs this this' Hc Hdt Hrun) | ].
  intros Hex. exact (frames_clutch_released fs this this' Hc Hdt Hex Hrun).
Qed.

Lemma manual_well_formed : well_formed Stage.manual.
Proof. exact m3_well_formed. Qed.

Lemma clutch_released_witness :
  0 <= clutch (shiftUp Stage.manual) /\
  Forall (fun f => 0 <= fst f) Stage.coasting_frames /\
  Exists (fun f => clutch (shiftUp Stage.manual) <= fst f * 2) Stage.coasting_frames /\
  exists this',
    run (Invariant.frames Stage.coasting_frames) (shiftUp Stage.manual) = Returns this' /\
    clutch this' = 0.
Proof.
  assert (Hc : 0 <= clutch (shiftUp Stage.manual)) by (cbn; lra).
  assert (Hdt : Forall (fun f => 0 <= fst f) Stage.coasting_frames).
  { repeat constructor; cbn; unfold Scenario.frame; lra. }
  assert (Hex : Exists (fun f => clutch (shiftUp Stage.manual) <= fst f * 2)
                  Stage.coasting_frames).
  { apply Exists_cons_tl. apply Exists_cons_hd. cbn. lra. }
  split; [exact Hc | ]. split; [exact Hdt | ]. split; [exact Hex | ].
  destruct (run_returns (Invariant.frames Stage.coasting_frames) (shiftUp Stage.manual))
    as [this' Hrun].
  { exact (well_formed_same_setup _ _ (shiftUp_same_setup Stage.manual) manual_well_formed). }
  exists this'. split; [exact Hrun | ].
  exact (proj2 (clutch_released Stage.coasting_frames (shiftUp Stage.manual) this'
                  Hc Hdt Hrun) Hex).
Defined.

(** ** The manual gearbox *)

(** X12. With [manualMode] true, [update] leaves the gear alone; [shiftUp]
    below the top gear and [shiftDown] above gear 1 move the gear by one
    and set the clutch to 0.2; a shift up followed by a shift down, or a
    shift down followed by a shift up, brings back the state it started
    from. *)
Theorem manual_gearbox (this : Vehicle) :
  manualMode this = true ->
  (forall dt input this',
     update dt input this = Returns this' -> gear (state this') = gear (state this)) /\
  ((gear (state this) < maxGear this)%Z ->
   gear (state (shiftUp this)) = (gear (state this) + 1)%Z /\ clutch (shiftUp this) = 0.2) /\
  ((1 < gear (state this))%Z ->
   gear (state (shiftDown this)) = (gear (state this) - 1)%Z /\
   clutch (shiftDown this) = 0.2) /\
  ((1 <= gear (state this) < maxGear this)%Z ->
   state (shiftDown (shiftUp this)) = state this) /\
  ((1 < gear (state this) <= maxGear this)%Z ->
   state (shiftUp (shiftDown this)) = state this).
Proof.
  intros Hm. split; [ | split; [ | split; [ | split]]].
  - intros dt input this' Hrun.
    rewrite (update_gear dt input this this' Hrun), Hm. reflexivity.
  - intros Hg. unfold shiftUp, maxGear in *. rewrite Hm. cbn [negb].
    rewrite (proj2 (Z.ltb_lt _ _) Hg). split; reflexivity.
  - intros Hg. unfold shiftDown. rewrite Hm. cbn [negb].
    rewrite (proj2 (Z.gtb_gt (gear (state this)) 1)) by lia. split; reflexivity.
  - intros [Hlo Hhi]. unfold shiftDown, shiftUp, maxGear in *. rewrite Hm. cbn [negb].
    rewrite (proj2 (Z.ltb_lt _ _) Hhi). project_state.
    rewrite Hm. cbn [negb].
    rewrite (proj2 (Z.gtb_gt (gear (state this) + 1) 1)) by lia. project_state.
    destruct this as [[p v h y e g w sp ts] ? ? ? ? ? ? ? ? ?]. project_state.
    unfold set_gear. project_state. f_equal. lia.
  - intros [Hlo Hhi]. unfold shiftDown, shiftUp, maxGear in *. rewrite Hm. cbn [negb].
    rewrite (proj2 (Z.gtb_gt (gear (state this)) 1)) by lia. project_state.
    rewrite Hm. cbn [negb].
    rewrite (proj2 (Z.ltb_lt (gear (state this) - 1) _)) by lia. project_state.
    destruct this as [[p v h y e g w sp ts] ? ? ? ? ? ? ? ? ?]. project_state.
    unfold set_gear. project_state. f_equal. lia.
Qed.

Lemma manual_gearbox_witness :
  manualMode Stage.manual = true /\
  (1 <= gear (state Stage.manual) < maxGear Stage.manual)%Z /\
  state (shiftDown (shiftUp Stage.manual)) = state Stage.manual.
Proof.
  assert (Hg : (1 <= gear (state Stage.manual) < maxGear Stage.manual)%Z) by (cbn; lia).
  split; [reflexivity | ]. split; [exact Hg | ].
  exact (proj1 (proj2 (proj2 (proj2 (manual_gearbox Stage.manual eq_refl)))) Hg).
Defined.

End VehicleFacts.

(** * The route graph *)

Section RouteFacts.

Import RouteGraph Contract.

(** C5. From the stage-1 root, with fuel for five turns of the loop or
    more, [buildRoutePath] returns a path of exactly 5 nodes, one per stage
    in order, each the left child of the one before; its total length is
    the sum of the lengths of the 5 segments and its destination is one of
    A to E. *)
Theorem buildRoutePath_from_s1 (fuel : nat) :
  exists path,
    buildRoutePath (5 + fuel) "s1" = Some (Returns path) /\
    List.length (RoutePath.nodes path) = 5%nat /\
    map RouteNode.stage (RoutePath.nodes path) = [1; 2; 3; 4; 5]%Z /\
    map RouteNode.id (RoutePath.nodes path) = ["s1"; "s2l"; "s3ll"; "s4lll"; "s5llll"] /\
    descends_left (RoutePath.nodes path) /\
    RoutePath.totalLength path = length_sum (RoutePath.nodes path) /\
    In (RoutePath.destination path) DESTINATIONS.
Proof.
  eexists. split; [reflexivity | ].
  split; [reflexivity | ]. split; [reflexivity | ]. split; [reflexivity | ].
  split; [cbn; repeat split; reflexivity | ].
  split.
  - cbn [RoutePath.totalLength RoutePath.nodes length_sum fold_right].
    cbn -[IZR Rplus Rminus Rmult]. lra.
  - left. reflexivity.
Qed.

(** ** Samples *)

Lemma start_counted : counted 0 start.
Proof. split; cbn; [reflexivity | lra]. Qed.

Lemma sample_counted (node : RouteNode.t) (k : nat) (s : sampler) :
  counted k s -> counted (S k) (sample node s).
Proof.
  intros [Hd Ht]. unfold counted, sample. cbn [out total RouteSamples.distances].
  rewrite Hd, Ht, seq_S, map_app, S_INR. cbn [map Nat.add].
  rewrite S_INR. split; [do 2 f_equal | ]; ring.
Qed.

Lemma sample_times_counted (node : RouteNode.t) (n : nat) :
  forall k s, counted k s -> counted (k + n) (sample_times n node s).
Proof.
  induction n as [ | n IH]; intros k s Hs; cbn [sample_times].
  - rewrite Nat.add_0_r. exact Hs.
  - rewrite Nat.add_succ_r. apply (IH (S k)). apply sample_counted. exact Hs.
Qed.

Lemma fold_counted (nodes : list RouteNode.t) :
  forall k s, counted k s -> counted (k + sample_count nodes) (fold_left sample_node nodes s).
Proof.
  induction nodes as [ | node nodes IH]; intros k s Hs; cbn [fold_left sample_count fold_right].
  - rewrite Nat.add_0_r. exact Hs.
  - rewrite Nat.add_assoc. apply IH. apply sample_times_counted. exact Hs.
Qed.

Lemma distances_closed_form (nodes : list RouteNode.t) :
  RouteSamples.distances (buildRouteSamples nodes)
  = map (fun i => 20 * INR i) (seq 1 (sample_count nodes)).
Proof. exact (proj1 (fold_counted nodes 0 start start_counted)). Qed.

Lemma nth_multiples (n i : nat) (d : R) :
  nth_error (map (fun i => 20 * INR i) (seq 1 n)) i = Some d -> d = 20 * INR (S i).
Proof.
  intros H. rewrite nth_error_map in H.
  destruct (nth_error (seq 1 n) i) as [j | ] eqn:Hj; [ | discriminate].
  injection H as <-.
  assert (Hlt : (i < List.length (seq 1 n))%nat) by (apply nth_error_Some; congruence).
  rewrite length_seq in Hlt.
  rewrite (nth_error_nth' _ 0%nat) in Hj by (rewrite length_seq; exact Hlt).
  rewrite seq_nth in Hj by exact Hlt. injection Hj as <-. reflexivity.
Qed.








(** ** The shape of the graph *)

Import Invariant.

Lemma lookup_In (g : graph) (key : string) (node : RouteNode.t) :
  lookup g key = Some node -> In (key, node) g.
Proof.
  induction g as [ | [k n] g IH]; cbn [lookup]; [discriminate | ].
  destruct (String.eqb_spec k key) as [-> | Hne]; intros H.
  - injection H as ->. left. reflexivity.
  - right. apply IH. exact H.
Qed.

(** A key of the graph with its node is one of the 31 entries. *)
Ltac each_node H :=
  apply lookup_In in H;
  cbv beta iota zeta delta [ROUTE_GRAPH forEach_stage5 stage5Nodes ROUTE_GRAPH_literal
        store fork String.eqb Ascii.eqb Bool.eqb In] in H;
  repeat (destruct H as [H | H]; [injection H as <- <- | ]); [ .. | contradiction].

Lemma graph_shape (key : string) (node : RouteNode.t) :
  lookup ROUTE_GRAPH key = Some node ->
  RouteNode.id node = key /\
  RouteSegment.id (RouteNode.segment node) = key /\
  (1 <= RouteNode.stage node <= 5)%Z /\
  ((RouteNode.stage node < 5)%Z -> is_fork node) /\
  (RouteNode.stage node = 5%Z -> is_leaf node).
Proof.
  intros H. each_node H.
  all: split; [reflexivity | ]; split; [reflexivity | ]; split; [cbn; lia | ].
  all: split; intros Hs; cbn in Hs; try lia; try discriminate.
  all: try (unfold is_fork; do 4 eexists; cbn [RouteNode.left RouteNode.right fork snd];
            split; [reflexivity | ]; split; [reflexivity | ]; split; [discriminate | ];
            split; [reflexivity | ]; split; [reflexivity | ]; repeat split; reflexivity).
  all: unfold is_leaf; split; [reflexivity | ]; split; [reflexivity | ];
       eexists; split; [reflexivity | ]; cbn; tauto.
Qed.

Lemma graph_lengths (key : string) (node : RouteNode.t) :
  lookup ROUTE_GRAPH key = Some node ->
  605 <= RouteSegment.length (RouteNode.segment node) <= 900 /\
  8 <= RouteSegment.width (RouteNode.segment node) <= 10.
Proof.
  intros H. each_node H.
  all: cbn -[IZR Rplus Rminus Rmult]; lra.
Qed.

(** X13. Every entry of [ROUTE_GRAPH] is stored under its own id, which is
    also the id of its segment, at a stage from 1 to 5.  Below stage 5 it
    is a fork: two different children that are entries of the graph one
    stage further, and no destination.  At stage 5 it is a leaf: no child,
    and one of the destinations A to E.  Its segment is 605 to 900 meters
    long and 8 to 10 meters wide. *)
Theorem ROUTE_GRAPH_shape (key : string) (node : RouteNode.t) :
  lookup ROUTE_GRAPH key = Some node ->
  RouteNode.id node = key /\
  RouteSegment.id (RouteNode.segment node) = key /\
  (1 <= RouteNode.stage node <= 5)%Z /\
  ((RouteNode.stage node < 5)%Z -> is_fork node) /\
  (RouteNode.stage node = 5%Z -> is_leaf node) /\
  605 <= RouteSegment.length (RouteNode.segment node) <= 900 /\
  8 <= RouteSegment.width (RouteNode.segment node) <= 10.
Proof.
  intros H.
  destruct (graph_shape key node H) as (H1 & H2 & H3 & H4 & H5).
  destruct (graph_lengths key node H) as (H6 & H7).
  split; [exact H1 | ]. split; [exact H2 | ]. split; [exact H3 | ].
  split; [exact H4 | ]. split; [exact H5 | ]. split; [exact H6 | exact H7].
Qed.

Lemma ROUTE_GRAPH_shape_witness :
  exists node,
    lookup ROUTE_GRAPH "s3rl" = Some node /\
    RouteNode.id node = "s3rl" /\
    (1 <= RouteNode.stage node <= 5)%Z.
Proof.
  eexists. split; [reflexivity | ].
  split.
  - exact (proj1 (ROUTE_GRAPH_shape "s3rl" _ eq_refl)).
  - exact (proj1 (proj2 (proj2 (ROUTE_GRAPH_shape "s3rl" _ eq_refl)))).
Defined.

(** ** Paths *)

Lemma path_from_key (key : string) (node : RouteNode.t) (fuel : nat) :
  lookup ROUTE_GRAPH key = Some node ->
  exists path,
    buildRoutePath (turns_from node + fuel) key = Some (Returns path) /\
    hd_error (RoutePath.nodes path) = Some node /\
    map RouteNode.stage (RoutePath.nodes path) = stages_from (RouteNode.stage node) /\
    descends_left (RoutePath.nodes path) /\
    Forall (fun n => lookup ROUTE_GRAPH (RouteNode.id n) = Some n) (RoutePath.nodes path) /\
    RoutePath.totalLength path = length_sum (RoutePath.nodes path) /\
    In (RoutePath.destination path) DESTINATIONS /\
    RouteNode.destination (last (RoutePath.nodes path) node)
      = Some (RoutePath.destination path).
Proof.
  intros H. each_node H.
  all: eexists; split; [reflexivity | ].
  all: split; [reflexivity | ]; split; [reflexivity | ].
  all: split; [cbn; repeat split; reflexivity | ].
  all: split; [repeat constructor | ].
  all: split; [cbn [RoutePath.totalLength RoutePath.nodes length_sum fold_right];
               cbn -[IZR Rplus Rminus Rmult]; lra | ].
  all: split; [cbn; tauto | reflexivity].
Qed.

(** X14. From every key of the graph, with fuel for [6 - stage] turns of
    the loop or more, [buildRoutePath] returns: the path starts at the node
    of the key, has one node per stage from there to stage 5, each the left
    child of the one before and each a node of the graph; its total length
    is the sum of the lengths of its segments and its destination is the
    one of its last node, one of A to E. *)
Theorem buildRoutePath_every_key (key : string) (node : RouteNode.t) (fuel : nat) :
  lookup ROUTE_GRAPH key = Some node ->
  exists path,
    buildRoutePath (turns_from node + fuel) key = Some (Returns path) /\
    hd_error (RoutePath.nodes path) = Some node /\
    map RouteNode.stage (RoutePath.nodes path) = stages_from (RouteNode.stage node) /\
    descends_left (RoutePath.nodes path) /\
    Forall (fun n => lookup ROUTE_GRAPH (RouteNode.id n) = Some n) (RoutePath.nodes path) /\
    RoutePath.totalLength path = length_sum (RoutePath.nodes path) /\
    In (RoutePath.destination path) DESTINATIONS /\
    RouteNode.destination (last (RoutePath.nodes path) node)
      = Some (RoutePath.destination path).
Proof. exact (path_from_key key node fuel). Qed.

Lemma buildRoutePath_every_key_witness :
  exists node path,
    lookup ROUTE_GRAPH "s2r" = Some node /\
    buildRoutePath (turns_from node + 0) "s2r" = Some (Returns path) /\
    map RouteNode.stage (RoutePath.nodes path) = stages_from (RouteNode.stage node).
Proof.
  eexists.
  destruct (buildRoutePath_every_key "s2r" _ 0 eq_refl) as (path & Hrun & _ & Hstages & _).
  exists path. split; [reflexivity | ]. split; [exact Hrun | exact Hstages].
Defined.

(** X15. Started at an id that is not a key of the graph, [buildRoutePath]
    throws, with one exception: from the empty string the loop does not run
    and the path is empty, of length 0, with the empty string as its
    destination. *)
Theorem buildRoutePath_unknown (startId : string) (fuel : nat) :
  lookup ROUTE_GRAPH startId = None ->
  buildRoutePath (S fuel) startId =
    Some (if String.eqb startId ""
          then Returns {| RoutePath.nodes := []; RoutePath.totalLength := 0;
                          RoutePath.destination := "" |}
          else Throws).
Proof.
  intros H. unfold buildRoutePath. cbn [buildRoutePath_loop truthy].
  destruct (String.eqb startId ""); cbn [negb]; [reflexivity | ].
  rewrite H. reflexivity.
Qed.

Lemma buildRoutePath_unknown_witness :
  lookup ROUTE_GRAPH "s6" = None /\ buildRoutePath 1 "s6" = Some Throws.
Proof.
  split; [reflexivity | ].
  exact (buildRoutePath_unknown "s6" 0 eq_refl).
Defined.

(** No key of the graph is a name inherited from [Object.prototype]. *)
Lemma inherited_not_key (key : string) :
  inherited key = true -> lookup ROUTE_GRAPH key = None.
Proof.
  unfold inherited. intros H. apply existsb_exists in H.
  destruct H as (name & Hin & Heq). apply String.eqb_eq in Heq. subst name.
  cbn in Hin.
  repeat (destruct Hin as [<- | Hin]; [reflexivity | ]).
  contradiction.
Qed.

(** X16. [nextNodeFromChoice] throws on an id that is neither a key of the
    graph nor a name the graph inherits from [Object.prototype]; on an
    inherited name, such as ["constructor"], it returns the name.  On a key
    below stage 5 it returns the child on the chosen side, a key of the
    graph one stage further; on a key of stage 5 it returns the key
    itself. *)
Theorem nextNodeFromChoice_child (currentId : string) (choiceLeft : bool) :
  (lookup ROUTE_GRAPH currentId = None ->
   inherited currentId = false ->
   nextNodeFromChoice currentId choiceLeft = Throws) /\
  (inherited currentId = true ->
   nextNodeFromChoice currentId choiceLeft = Returns currentId) /\
  (forall node,
     lookup ROUTE_GRAPH currentId = Some node ->
     exists next nextNode,
       nextNodeFromChoice currentId choiceLeft = Returns next /\
       lookup ROUTE_GRAPH next = Some nextNode /\
       ((RouteNode.stage node < 5)%Z ->
        RouteNode.stage nextNode = (RouteNode.stage node + 1)%Z /\
        Some next = (if choiceLeft then RouteNode.left node else RouteNode.right node)) /\
       (RouteNode.stage node = 5%Z -> next = currentId)).
Proof.
  split; [ | split].
  - intros H Hi. unfold nextNodeFromChoice. rewrite H, Hi. reflexivity.
  - intros Hi. unfold nextNodeFromChoice.
    rewrite (inherited_not_key currentId Hi), Hi. reflexivity.
  - intros node H. unfold nextNodeFromChoice. rewrite H.
    destruct (graph_shape currentId node H) as (_ & _ & Hstage & Hfork & Hleaf).
    destruct (Z.eq_dec (RouteNode.stage node) 5) as [H5 | H5].
    + destruct (Hleaf H5) as (Hl & Hr & _). rewrite Hl, Hr.
      exists currentId, node. destruct choiceLeft; repeat split; auto; lia.
    + destruct Hfork as (l & r & ln & rn & Hl & Hr & _ & Hln & Hrn & Hsl & Hsr & _); [lia | ].
      rewrite Hl, Hr. destruct choiceLeft.
      * exists l, ln. repeat split; auto; lia.
      * exists r, rn. repeat split; auto; lia.
Qed.

Lemma nextNodeFromChoice_child_witness :
  (lookup ROUTE_GRAPH "s9" = None /\ inherited "s9" = false /\
   nextNodeFromChoice "s9" true = Throws) /\
  (inherited "constructor" = true /\
   nextNodeFromChoice "constructor" true = Returns "constructor").
Proof.
  split.
  - split; [reflexivity | ]. split; [reflexivity | ].
    exact (proj1 (nextNodeFromChoice_child "s9" true) eq_refl eq_refl).
  - split; [reflexivity | ].
    exact (proj1 (proj2 (nextNodeFromChoice_child "constructor" true)) eq_refl).
Defined.

(** ** The arrays of the samples *)

Lemma sample_times_arrays (node : RouteNode.t) (n : nat) :
  forall s,
  RouteSamples.widths (out (sample_times n node s))
    = RouteSamples.widths (out s) ++ repeat (RouteSegment.width (RouteNode.segment node)) n /\
  RouteSamples.terrainTypes (out (sample_times n node s))
    = RouteSamples.terrainTypes (out s)
      ++ repeat (RouteSegment.terrain (RouteNode.segment node)) n /\
  List.length (RouteSamples.points (out (sample_times n node s)))
    = (List.length (RouteSamples.points (out s)) + n)%nat.
Proof.
  induction n as [ | n IH]; intros s; cbn [sample_times repeat].
  - rewrite !app_nil_r, Nat.add_0_r. auto.
  - destruct (IH (sample node s)) as (Hw & Ht & Hp). rewrite Hw, Ht, Hp.
    unfold sample. cbn [out RouteSamples.widths RouteSamples.terrainTypes RouteSamples.points].
    rewrite <- !app_assoc, length_app. cbn [app List.length]. repeat split; lia.
Qed.

Lemma fold_arrays (nodes : list RouteNode.t) :
  forall s,
  RouteSamples.widths (out (fold_left sample_node nodes s))
    = RouteSamples.widths (out s)
      ++ per_sample (fun node => RouteSegment.width (RouteNode.segment node)) nodes /\
  RouteSamples.terrainTypes (out (fold_left sample_node nodes s))
    = RouteSamples.terrainTypes (out s)
      ++ per_sample (fun node => RouteSegment.terrain (RouteNode.segment node)) nodes /\
  List.length (RouteSamples.points (out (fold_left sample_node nodes s)))
    = (List.length (RouteSamples.points (out s)) + sample_count nodes)%nat.
Proof.
  induction nodes as [ | node nodes IH]; intros s;
    cbn [fold_left per_sample flat_map sample_count fold_right].
  - rewrite !app_nil_r, Nat.add_0_r. auto.
  - destruct (IH (sample_node s node)) as (Hw & Ht & Hp). rewrite Hw, Ht, Hp.
    unfold sample_node.
    destruct (sample_times_arrays node (Z.to_nat (steps node)) s) as (Hw' & Ht' & Hp').
    rewrite Hw', Ht', Hp', <- !app_assoc. repeat split. fold (sample_count nodes). lia.
Qed.

Lemma per_sample_length {A : Type} (f : RouteNode.t -> A) (nodes : list RouteNode.t) :
  List.length (per_sample f nodes) = sample_count nodes.
Proof.
  induction nodes as [ | node nodes IH]; cbn [per_sample flat_map sample_count fold_right].
  - reflexivity.
  - rewrite length_app, repeat_length. fold (per_sample f nodes). rewrite IH. reflexivity.
Qed.

Lemma samples_arrays (nodes : list RouteNode.t) :
  RouteSamples.widths (buildRouteSamples nodes)
    = per_sample (fun node => RouteSegment.width (RouteNode.segment node)) nodes /\
  RouteSamples.terrainTypes (buildRouteSamples nodes)
    = per_sample (fun node => RouteSegment.terrain (RouteNode.segment node)) nodes /\
  List.length (RouteSamples.points (buildRouteSamples nodes)) = sample_count nodes /\
  List.length (RouteSamples.distances (buildRouteSamples nodes)) = sample_count nodes.
Proof.
  destruct (fold_arrays nodes start) as (Hw & Ht & Hp).
  unfold buildRouteSamples, run_sampler. rewrite Hw, Ht, Hp.
  change (fold_left sample_node nodes start) with (run_sampler nodes).
  change (out (run_sampler nodes)) with (buildRouteSamples nodes).
  rewrite distances_closed_form, length_map, length_seq. auto.
Qed.

Lemma samples_lengths (nodes : list RouteNode.t) :
  List.length (RouteSamples.points (buildRouteSamples nodes)) = sample_count nodes /\
  List.length (RouteSamples.widths (buildRouteSamples nodes)) = sample_count nodes /\
  List.length (RouteSamples.terrainTypes (buildRouteSamples nodes)) = sample_count nodes /\
  List.length (RouteSamples.distances (buildRouteSamples nodes)) = sample_count nodes.
Proof.
  destruct (samples_arrays nodes) as (Hw & Ht & Hp & Hd).
  rewrite Hw, Ht, !per_sample_length. repeat split; assumption.
Qed.

(** X17. The four arrays [buildRouteSamples] returns have the same length,
    the number of samples; the widths and the terrain types are the width
    and the terrain of each node in turn, once for every sample the node
    gets. *)
Theorem buildRouteSamples_arrays (nodes : list RouteNode.t) :
  RouteSamples.widths (buildRouteSamples nodes)
    = per_sample (fun node => RouteSegment.width (RouteNode.segment node)) nodes /\
  RouteSamples.terrainTypes (buildRouteSamples nodes)
    = per_sample (fun node => RouteSegment.terrain (RouteNode.segment node)) nodes /\
  List.length (RouteSamples.points (buildRouteSamples nodes)) = sample_count nodes /\
  List.length (RouteSamples.widths (buildRouteSamples nodes)) = sample_count nodes /\
  List.length (RouteSamples.terrainTypes (buildRouteSamples nodes)) = sample_count nodes /\
  List.length (RouteSamples.distances (buildRouteSamples nodes)) = sample_count nodes.
Proof.
  destruct (samples_arrays nodes) as (Hw & Ht & _).
  destruct (samples_lengths nodes) as (H1 & H2 & H3 & H4).
  repeat split; assumption.
Qed.

Lemma long_node_samples (node : RouteNode.t) :
  20 <= RouteSegment.length (RouteNode.segment node) -> (0 < Z.to_nat (steps node))%nat.
Proof.
  intros Hlen. assert (1 <= steps node)%Z; [ | lia].
  unfold steps, floor. apply Zfloor_lub. lra.
Qed.

Lemma path_has_samples (key : string) (node : RouteNode.t) (path : RoutePath.t) :
  lookup ROUTE_GRAPH key = Some node ->
  hd_error (RoutePath.nodes path) = Some node ->
  (0 < sample_count (RoutePath.nodes path))%nat.
Proof.
  intros Hkey Hhd. destruct (RoutePath.nodes path) as [ | n nodes]; [discriminate | ].
  injection Hhd as ->. cbn [sample_count fold_right].
  pose proof (graph_lengths key node Hkey) as [Hlen _].
  assert (0 < Z.to_nat (steps node))%nat by (apply long_node_samples; lra).
  lia.
Qed.

Lemma forwards_has_samples : (0 < sample_count Scenario.forwards)%nat.
Proof.
  unfold Scenario.forwards. cbn [sample_count fold_right].
  assert (0 < Z.to_nat (steps (Scenario.straight "a" 45)))%nat.
  { apply long_node_samples. cbn. lra. }
  lia.
Qed.

End RouteFacts.

(** * More facts about the JavaScript operations *)

Section LibFacts.

Lemma geb_true (a b : R) : Lib.geb a b = true <-> a >= b.
Proof. unfold Lib.geb. destruct (Rge_dec a b); split; intros; try easy. Qed.

Lemma geb_false (a b : R) : Lib.geb a b = false <-> a < b.
Proof. unfold Lib.geb. destruct (Rge_dec a b); split; intros; try easy; lra. Qed.

(** [findIndex] returns the index of the first element that satisfies the
    predicate, and -1 when there is none. *)
Lemma findIndex_from_spec {A : Type} (p : A -> bool) (arr : list A) :
  forall i,
  (Lib.findIndex_from p i arr = (-1)%Z /\ Forall (fun a => p a = false) arr)
  \/ exists k a,
       Lib.findIndex_from p i arr = (i + Z.of_nat k)%Z /\
       nth_error arr k = Some a /\ p a = true /\
       forall j b, (j < k)%nat -> nth_error arr j = Some b -> p b = false.
Proof.
  induction arr as [ | a arr IH]; intros i; cbn [Lib.findIndex_from].
  - left. split; [reflexivity | constructor].
  - destruct (p a) eqn:Hp.
    + right. exists 0%nat, a. repeat split; auto.
      * lia.
      * intros j b Hj. lia.
    + destruct (IH (i + 1)%Z) as [(Hr & Hall) | (k & b & Hr & Hk & Hb & Hlt)].
      * left. split; [exact Hr | constructor; assumption].
      * right. exists (S k), b. repeat split; auto.
        -- rewrite Hr. lia.
        -- intros j c Hj Hc. destruct j as [ | j]; cbn in Hc.
           ++ injection Hc as <-. exact Hp.
           ++ apply (Hlt j c); [lia | exact Hc].
Qed.

Lemma findIndex_spec {A : Type} (p : A -> bool) (arr : list A) :
  (Lib.findIndex p arr = (-1)%Z /\ Forall (fun a => p a = false) arr)
  \/ exists k a,
       Lib.findIndex p arr = Z.of_nat k /\
       nth_error arr k = Some a /\ p a = true /\
       forall j b, (j < k)%nat -> nth_error arr j = Some b -> p b = false.
Proof.
  unfold Lib.findIndex.
  destruct (findIndex_from_spec p arr 0) as [(Hr & Hall) | (k & a & Hr & H)].
  - left. auto.
  - right. exists k, a. rewrite Hr. auto.
Qed.

Lemma index_of_nat {A : Type} (arr : list A) (k : nat) :
  JS.index arr (Z.of_nat k) = nth_error arr k.
Proof.
  unfold JS.index. destruct (Z.ltb_spec (Z.of_nat k) 0); [lia | ].
  rewrite Nat2Z.id. reflexivity.
Qed.

Lemma nth_error_defined {A : Type} (arr : list A) (k : nat) :
  (k < List.length arr)%nat -> exists a, nth_error arr k = Some a.
Proof.
  intros Hk. destruct (nth_error arr k) as [a | ] eqn:H; [eauto | ].
  apply nth_error_None in H. lia.
Qed.

Lemma has_add (a : InputAction.t) (set : list InputAction.t) :
  Lib.has InputAction.eqb a (Lib.add InputAction.eqb a set) = true.
Proof.
  unfold Lib.add. destruct (Lib.has InputAction.eqb a set) eqn:H; [exact H | ].
  unfold Lib.has. rewrite existsb_app. cbn. destruct a; cbn; apply Bool.orb_true_r.
Qed.

Lemma has_delete (a : InputAction.t) (set : list InputAction.t) :
  Lib.has InputAction.eqb a (Lib.delete InputAction.eqb a set) = false.
Proof.
  unfold Lib.has, Lib.delete. induction set as [ | b set IH]; cbn [filter existsb].
  - reflexivity.
  - destruct (InputAction.eqb a b) eqn:Hab; cbn [negb]; [exact IH | ].
    cbn [existsb]. rewrite Hab, IH. reflexivity.
Qed.

End LibFacts.

(** * The input manager *)

Section InputFacts.

Import Invariant.

Lemma getState_analog (m : InputManager.InputManager) (pad : option InputState.t) :
  match pad with
  | Some padState => analog_in_range padState
  | None => True
  end ->
  analog_in_range (InputManager.getState m pad).
Proof.
  unfold analog_in_range, InputManager.getState. cbv zeta.
  destruct pad as [padState | ].
  - intros (Ht & Hb & Hs & Hh).
    cbn [InputState.throttle InputState.brake InputState.steer InputState.handbrake].
    repeat split.
    all: repeat match goal with
         | |- context [if ?c then _ else _] => destruct c
         end.
    all: try (unfold Rmax; destruct (Rle_dec _ _); lra).
    all: lra.
  - intros _.
    cbn [InputState.throttle InputState.brake InputState.steer InputState.handbrake].
    repeat split.
    all: repeat match goal with
         | |- context [if ?c then _ else _] => destruct c
         end.
    all: lra.
Qed.

(** X19. With no gamepad, or with one whose analog values are within their
    ranges, the analog values [getState] returns are within their ranges,
    and the vehicle input the game builds from them is what clamping would
    make of it.  From the keyboard alone throttle, brake and handbrake are
    0 or 1 and the steer is -1, 0 or 1; the steer is read from the arrow
    keys and from A and D whatever the mapping. *)
Theorem getState_in_range (m : InputManager.InputManager) (pad : option InputState.t) :
  (match pad with
   | Some padState => analog_in_range padState
   | None => True
   end ->
   analog_in_range (InputManager.getState m pad) /\
   Contract.clamped (Race.vehicleInput (InputManager.getState m pad))
     = Race.vehicleInput (InputManager.getState m pad)) /\
  (InputState.throttle (InputManager.getState m None) = 0
   \/ InputState.throttle (InputManager.getState m None) = 1) /\
  (InputState.brake (InputManager.getState m None) = 0
   \/ InputState.brake (InputManager.getState m None) = 1) /\
  (InputState.handbrake (InputManager.getState m None) = 0
   \/ InputState.handbrake (InputManager.getState m None) = 1) /\
  (InputState.steer (InputManager.getState m None) = -1
   \/ InputState.steer (InputManager.getState m None) = 0
   \/ InputState.steer (InputManager.getState m None) = 1) /\
  (forall mapping,
     InputState.steer (InputManager.getState (InputManager.setMapping mapping m) pad)
     = InputState.steer (InputManager.getState m pad)).
Proof.
  split.
  - intros Hpad. pose proof (getState_analog m pad Hpad) as Hr. split; [exact Hr | ].
    destruct Hr as (Ht & Hb & Hs & Hh).
    unfold Contract.clamped, Race.vehicleInput.
    cbn [Vehicle.throttle Vehicle.brake Vehicle.steer Vehicle.handbrake].
    f_equal; unfold Rmax, Rmin; repeat destruct (Rle_dec _ _); lra.
  - unfold InputManager.getState. cbv zeta.
    cbn [InputState.throttle InputState.brake InputState.steer InputState.handbrake].
    split; [ | split; [ | split; [ | split]]].
    1-4: repeat match goal with
         | |- context [if ?c then _ else _] => destruct c
         end; first [left; lra | right; left; lra | right; right; lra | right; lra].
    intros mapping. destruct pad; reflexivity.
Qed.

Lemma gamepad_in_range : analog_in_range Stage.gamepad.
Proof. unfold analog_in_range. cbn. lra. Qed.

Lemma getState_in_range_witness :
  analog_in_range Stage.gamepad /\
  analog_in_range (InputManager.getState InputManager.new (Some Stage.gamepad)).
Proof.
  split; [exact gamepad_in_range | ].
  exact (proj1 (proj1 (getState_in_range InputManager.new (Some Stage.gamepad))
                  gamepad_in_range)).
Defined.

Lemma consume_manager (action : InputAction.t) (pad : option InputState.t)
    (m : InputManager.InputManager) :
  InputManager.keys (snd (InputManager.consume action pad m)) = InputManager.keys m /\
  InputManager.mapping (snd (InputManager.consume action pad m)) = InputManager.mapping m.
Proof.
  unfold InputManager.consume. cbv zeta.
  destruct (_ && _); [split; reflexivity | ]. destruct (negb _); split; reflexivity.
Qed.

Lemma getState_keys (m m' : InputManager.InputManager) (pad : option InputState.t) :
  InputManager.keys m' = InputManager.keys m ->
  InputManager.mapping m' = InputManager.mapping m ->
  InputManager.getState m' pad = InputManager.getState m pad.
Proof.
  intros Hk Hm. unfold InputManager.getState, InputManager.isKeyDown. rewrite Hk, Hm.
  reflexivity.
Qed.

(** X20. [consume] reports an action on its rising edge only: it returns
    true exactly when the action is active and was not reported yet; asked
    again under the same input it returns false; once it has seen the
    action inactive, it returns true the next time the action is active.
    It leaves the keys and the mapping alone. *)
Theorem consume_rising_edge (action : InputAction.t) (pad : option InputState.t)
    (m : InputManager.InputManager) :
  (fst (InputManager.consume action pad m) = true <->
   InputManager.active (InputManager.getState m pad) action = true /\
   Lib.has InputAction.eqb action (InputManager.pressed m) = false) /\
  fst (InputManager.consume action pad (snd (InputManager.consume action pad m))) = false /\
  (InputManager.active (InputManager.getState m pad) action = false ->
   forall pad' m',
     InputManager.pressed m' = InputManager.pressed (snd (InputManager.consume action pad m)) ->
     InputManager.active (InputManager.getState m' pad') action = true ->
     fst (InputManager.consume action pad' m') = true) /\
  InputManager.keys (snd (InputManager.consume action pad m)) = InputManager.keys m /\
  InputManager.mapping (snd (InputManager.consume action pad m)) = InputManager.mapping m.
Proof.
  split; [ | split; [ | split; [ | exact (consume_manager action pad m)]]].
  - unfold InputManager.consume. cbv zeta.
    destruct (InputManager.active _ action), (Lib.has InputAction.eqb action _);
      cbn; split; intros; try tauto; try discriminate; destruct H; discriminate.
  - destruct (consume_manager action pad m) as [Hk Hm].
    pose proof (getState_keys m _ pad Hk Hm) as Hstate.
    unfold InputManager.consume at 1. cbv zeta. rewrite Hstate.
    unfold InputManager.consume. cbv zeta.
    destruct (InputManager.active _ action) eqn:Ha.
    + destruct (Lib.has InputAction.eqb action (InputManager.pressed m)) eqn:Hp;
        cbn [andb negb snd InputManager.pressed InputManager.set_pressed].
      * rewrite Hp. reflexivity.
      * rewrite has_add. reflexivity.
    + reflexivity.
  - intros Ha pad' m' Hp Ha'. unfold InputManager.consume in *. cbv zeta in *.
    rewrite Ha in Hp. cbn [andb negb snd InputManager.pressed InputManager.set_pressed] in Hp.
    rewrite Ha', Hp, has_delete. reflexivity.
Qed.

Lemma consume_rising_edge_witness :
  InputManager.active (InputManager.getState InputManager.new None) InputAction.pause = false /\
  InputManager.active
    (InputManager.getState
       (snd (InputManager.consume InputAction.pause None InputManager.new))
       (Some Stage.pausing)) InputAction.pause = true /\
  fst (InputManager.consume InputAction.pause (Some Stage.pausing)
         (snd (InputManager.consume InputAction.pause None InputManager.new))) = true.
Proof.
  split; [reflexivity | ]. split; [reflexivity | ].
  exact (proj1 (proj2 (proj2
           (consume_rising_edge InputAction.pause None InputManager.new)))
           eq_refl (Some Stage.pausing)
           (snd (InputManager.consume InputAction.pause None InputManager.new))
           eq_refl eq_refl).
Defined.

End InputFacts.

(** * The race *)

Section RaceFacts.

Import Terrains TireModel Vehicle Contract RouteGraph Invariant Race.

Ltac game :=
  cbn [Race.input Race.vehicle Race.state Race.stageProgress Race.routeSamples
       Race.currentNodeId Race.timer Race.lastFrame Race.countdown
       Race.checkpointMessageTimer Race.forkChoice Race.forkDistance Race.destination
       Race.rewindBuffer Race.rewindCharge Race.isPaused Race.cameraModeIndex
       Race.obstacles
       Race.set_input Race.set_vehicle Race.set_state Race.set_stageProgress
       Race.set_routeSamples Race.set_currentNodeId Race.set_timer Race.set_lastFrame
       Race.set_countdown Race.set_checkpointMessageTimer Race.set_forkChoice
       Race.set_forkDistance Race.set_destination Race.set_rewindBuffer
       Race.set_rewindCharge Race.set_isPaused Race.set_cameraModeIndex Race.set_obstacles
       Race.assign Race.set_distance Race.set_terrain
       StageProgress.distance StageProgress.node
       Vehicle.state Vehicle.tuning Vehicle.car Vehicle.maxSteerAngle Vehicle.assign
       Vehicle.set_state Vehicle.gear
       Vehicle.set_position Vehicle.set_velocity Vehicle.set_heading Vehicle.set_yawRate
       Vehicle.set_engineRpm Vehicle.set_gear] in *.

Lemma andThen_returns {A B : Type} (r : result A) (k : A -> result B) (b : B) :
  andThen r k = Some (Returns b) -> exists a, r = Some (Returns a) /\ k a = Some (Returns b).
Proof. destruct r as [[a | | ] | ]; cbn; intros H; try discriminate. exists a. auto. Qed.

(** ** Samples along the road *)

(** The index [getSampleAtDistance] reads the arrays at. *)
Lemma sample_index (distances : list R) (distance : R) :
  distances <> [] ->
  exists k,
    (k < List.length distances)%nat /\
    (if (Lib.findIndex (fun d => Lib.geb d distance) distances =? -1)%Z
     then (Z.of_nat (List.length distances) - 1)%Z
     else Lib.findIndex (fun d => Lib.geb d distance) distances) = Z.of_nat k /\
    (forall j d, (j < k)%nat -> nth_error distances j = Some d -> d < distance) /\
    ((exists d, nth_error distances k = Some d /\ d >= distance)
     \/ S k = List.length distances).
Proof.
  intros Hne.
  destruct (findIndex_spec (fun d => Lib.geb d distance) distances)
    as [(Hr & Hall) | (k & a & Hr & Hk & Ha & Hlt)].
  - rewrite Hr, Z.eqb_refl.
    assert (Hall' : Forall (fun d => d < distance) distances).
    { revert Hall. apply Forall_impl. intros d. apply geb_false. }
    destruct distances as [ | d0 ds]; [contradiction | ].
    exists (List.length ds). cbn [List.length]. repeat split.
    + lia.
    + lia.
    + intros j d _ Hd. rewrite Forall_forall in Hall'. apply Hall'.
      eapply nth_error_In. exact Hd.
    + right. reflexivity.
  - rewrite Hr. destruct (Z.eqb_spec (Z.of_nat k) (-1)); [lia | ].
    exists k. repeat split.
    + apply nth_error_Some. congruence.
    + intros j d Hj Hd. apply geb_false. exact (Hlt j d Hj Hd).
    + left. exists a. split; [exact Hk | apply geb_true; exact Ha].
Qed.

Lemma getSampleAtDistance_defined (this : Game) (nodes : list RouteNode.t) (distance : R) :
  routeSamples this = Some (buildRouteSamples nodes) ->
  (0 < sample_count nodes)%nat ->
  exists k p w t,
    (k < sample_count nodes)%nat /\
    getSampleAtDistance this distance
      = Some {| RoadSample.point := Some p; RoadSample.width := Some w;
                RoadSample.terrain := Some t |} /\
    nth_error (RouteSamples.points (buildRouteSamples nodes)) k = Some p /\
    nth_error (RouteSamples.widths (buildRouteSamples nodes)) k = Some w /\
    nth_error (RouteSamples.terrainTypes (buildRouteSamples nodes)) k = Some t /\
    (forall j, (j < k)%nat -> 20 * INR (S j) < distance) /\
    (distance <= 20 * INR (S k) \/ S k = sample_count nodes).
Proof.
  intros Hs Hpos. unfold getSampleAtDistance. rewrite Hs.
  destruct (samples_lengths nodes) as (Hp & Hw & Ht & Hd).
  assert (Hne : RouteSamples.distances (buildRouteSamples nodes) <> []).
  { intros Hnil. rewrite Hnil in Hd. cbn in Hd. lia. }
  destruct (sample_index _ distance Hne) as (k & Hk & Hidx & Hbefore & Hat).
  cbv zeta. rewrite Hidx, !index_of_nat. rewrite Hd in Hk.
  destruct (nth_error_defined (RouteSamples.points (buildRouteSamples nodes)) k)
    as [p Hpk]; [lia | ].
  destruct (nth_error_defined (RouteSamples.widths (buildRouteSamples nodes)) k)
    as [w Hwk]; [lia | ].
  destruct (nth_error_defined (RouteSamples.terrainTypes (buildRouteSamples nodes)) k)
    as [t Htk]; [lia | ].
  exists k, p, w, t. rewrite Hpk, Hwk, Htk.
  split; [exact Hk | ]. split; [reflexivity | ].
  split; [reflexivity | ]. split; [reflexivity | ]. split; [reflexivity | ].
  split.
  - intros j Hj.
    destruct (nth_error_defined (RouteSamples.distances (buildRouteSamples nodes)) j)
      as [d Hdj]; [lia | ].
    pose proof (Hbefore j d Hj Hdj) as Hlt.
    rewrite distances_closed_form in Hdj. apply nth_multiples in Hdj. lra.
  - destruct Hat as [(d & Hdk & Hge) | Hlast].
    + left. rewrite distances_closed_form in Hdk. apply nth_multiples in Hdk. lra.
    + right. lia.
Qed.

(** X21. On the samples of a list of nodes that has some,
    [getSampleAtDistance] returns a sample with a point, a width and a
    terrain, those of the first sample at or beyond the distance, or of the
    last sample when the distance is beyond them all.  On samples that are
    empty every field of what it returns is [undefined]. *)
Theorem getSampleAtDistance_built (this : Game) (nodes : list RouteNode.t) (distance : R) :
  routeSamples this = Some (buildRouteSamples nodes) ->
  ((0 < sample_count nodes)%nat ->
   exists k p w t,
     (k < sample_count nodes)%nat /\
     getSampleAtDistance this distance
       = Some {| RoadSample.point := Some p; RoadSample.width := Some w;
                 RoadSample.terrain := Some t |} /\
     nth_error (RouteSamples.points (buildRouteSamples nodes)) k = Some p /\
     nth_error (RouteSamples.widths (buildRouteSamples nodes)) k = Some w /\
     nth_error (RouteSamples.terrainTypes (buildRouteSamples nodes)) k = Some t /\
     (forall j, (j < k)%nat -> 20 * INR (S j) < distance) /\
     (distance <= 20 * INR (S k) \/ S k = sample_count nodes)) /\
  (sample_count nodes = 0%nat ->
   getSampleAtDistance this distance
     = Some {| RoadSample.point := None; RoadSample.width := None;
               RoadSample.terrain := None |}).
Proof.
  intros Hs. split.
  - exact (getSampleAtDistance_defined this nodes distance Hs).
  - intros Hzero. unfold getSampleAtDistance. rewrite Hs.
    destruct (samples_lengths nodes) as (Hp & Hw & Ht & Hd).
    rewrite Hzero in Hp, Hw, Ht, Hd.
    apply length_zero_iff_nil in Hp, Hw, Ht, Hd. rewrite Hp, Hw, Ht, Hd. reflexivity.
Qed.

Lemma getSampleAtDistance_built_witness :
  routeSamples Stage.racing = Some (buildRouteSamples Scenario.forwards) /\
  (0 < sample_count Scenario.forwards)%nat /\
  exists p w t,
    getSampleAtDistance Stage.racing 30
      = Some {| RoadSample.point := Some p; RoadSample.width := Some w;
                RoadSample.terrain := Some t |}.
Proof.
  split; [reflexivity | ]. split; [exact forwards_has_samples | ].
  destruct (proj1 (getSampleAtDistance_built Stage.racing Scenario.forwards 30 eq_refl)
              forwards_has_samples) as (k & p & w & t & _ & Hsample & _).
  exists p, w, t. exact Hsample.
Defined.

(** ** Obstacles *)

Lemma createObstacles_loop_places (random : nat -> R) (last : R) (fuel : nat) :
  forall k obstacles,
  (forall j, (j < fuel)%nat -> 600 + 500 * INR (k + j) < last) ->
  createObstacles_loop fuel random last (600 + 500 * INR k) k obstacles
  = obstacles ++ map (obstacle_at random) (seq k fuel).
Proof.
  induction fuel as [ | fuel IH]; intros k obstacles Hlt; cbn [createObstacles_loop seq map].
  - rewrite app_nil_r. reflexivity.
  - rewrite (proj2 (ltb_true _ _)).
    2:{ specialize (Hlt O). rewrite Nat.add_0_r in Hlt. apply Hlt. lia. }
    replace (600 + 500 * INR k + 500) with (600 + 500 * INR (S k)) by (rewrite S_INR; ring).
    rewrite IH.
    + rewrite <- app_assoc. reflexivity.
    + intros j Hj. replace (S k + j)%nat with (k + S j)%nat by lia. apply Hlt. lia.
Qed.

(** The loop of [createObstacles] leaves by its test: every turn the fuel
    allows finds [i < last], and the turn after would not. *)
Lemma createObstacles_loop_exit (last : R) :
  (forall j, (j < obstacle_turns last)%nat -> 600 + 500 * INR j < last) /\
  last <= 600 + 500 * INR (obstacle_turns last).
Proof.
  unfold obstacle_turns, Lib.ceil.
  destruct (Zceil_bound ((last - 600) / 500)) as [Hlo Hhi].
  set (c := Zceil ((last - 600) / 500)) in *.
  split.
  - intros j Hj.
    assert (Hjc : (Z.of_nat j <= c - 1)%Z) by lia.
    apply IZR_le in Hjc. rewrite minus_IZR, <- INR_IZR_INZ in Hjc. lra.
  - rewrite INR_IZR_INZ.
    assert (Hc : (c <= Z.of_nat (Z.to_nat c))%Z) by lia.
    apply IZR_le in Hc. lra.
Qed.

Lemma createObstacles_places (random : nat -> R) (this : Game) (samples : RouteSamples.t)
    (last : R) :
  routeSamples this = Some samples ->
  JS.index (RouteSamples.distances samples)
    (Z.of_nat (List.length (RouteSamples.distances samples)) - 1) = Some last ->
  createObstacles random this
  = set_obstacles (map (obstacle_at random) (seq 0 (obstacle_turns last))) this.
Proof.
  intros Hs Hlast. unfold createObstacles. cbv zeta.
  cbn [routeSamples set_obstacles obstacles]. rewrite Hs, Hlast.
  pose proof (createObstacles_loop_places random last (obstacle_turns last) 0 []) as Hloop.
  cbn [INR] in Hloop. replace (600 + 500 * 0) with 600 in Hloop by ring.
  rewrite Hloop.
  - reflexivity.
  - intros j Hj. cbn [Nat.add]. apply (proj1 (createObstacles_loop_exit last)). exact Hj.
Qed.

Lemma createObstacles_frame (random : nat -> R) (this : Game) :
  exists obstacles', createObstacles random this = Race.set_obstacles obstacles' this.
Proof.
  unfold createObstacles. cbv zeta. game.
  destruct (Race.routeSamples this) as [samples | ]; [ | eexists; reflexivity].
  destruct (JS.index _ _); eexists; reflexivity.
Qed.

(** X22. With [last] the final distance of the samples, [createObstacles]
    places one obstacle every 500 meters from 600 meters on, as long as the
    distance is less than [last], none of them hit; it stops only where the
    next one would be at [last] or beyond.  With [Math.random] in [0, 1)
    the obstacles lie within 2.5 meters of the middle of the road. *)
Theorem createObstacles_positions (random : nat -> R) (this : Game)
    (samples : RouteSamples.t) (last : R) :
  routeSamples this = Some samples ->
  JS.index (RouteSamples.distances samples)
    (Z.of_nat (List.length (RouteSamples.distances samples)) - 1) = Some last ->
  obstacles (createObstacles random this)
    = map (obstacle_at random) (seq 0 (obstacle_turns last)) /\
  Forall (fun obs => 600 <= Obstacle.distance obs < last /\ Obstacle.hit obs = false)
    (obstacles (createObstacles random this)) /\
  last <= 600 + 500 * INR (List.length (obstacles (createObstacles random this))) /\
  ((forall k, 0 <= random k < 1) ->
   Forall (fun obs => -2.5 <= Obstacle.lateral obs < 2.5)
     (obstacles (createObstacles random this))).
Proof.
  intros Hs Hlast. rewrite (createObstacles_places random this samples last Hs Hlast).
  cbn [obstacles set_obstacles].
  destruct (createObstacles_loop_exit last) as [Hin Hout].
  split; [reflexivity | ]. split; [ | split].
  - apply Forall_forall. intros obs Hobs. apply in_map_iff in Hobs.
    destruct Hobs as (j & <- & Hj). apply in_seq in Hj.
    cbn [obstacle_at Obstacle.distance Obstacle.hit].
    pose proof (pos_INR j). specialize (Hin j).
    split; [ | reflexivity]. split; [lra | apply Hin; lia].
  - rewrite length_map, length_seq. exact Hout.
  - intros Hrandom. apply Forall_forall. intros obs Hobs. apply in_map_iff in Hobs.
    destruct Hobs as (j & <- & _). cbn [obstacle_at Obstacle.lateral].
    specialize (Hrandom j). lra.
Qed.

Lemma createObstacles_positions_witness :
  routeSamples (set_routeSamples (Some Stage.long_samples) Stage.racing)
    = Some Stage.long_samples /\
  JS.index (RouteSamples.distances Stage.long_samples)
    (Z.of_nat (List.length (RouteSamples.distances Stage.long_samples)) - 1) = Some 1700 /\
  Forall (fun obs => 600 <= Obstacle.distance obs < 1700 /\ Obstacle.hit obs = false)
    (obstacles (createObstacles (fun _ => 0.5)
                  (set_routeSamples (Some Stage.long_samples) Stage.racing))).
Proof.
  split; [reflexivity | ]. split; [reflexivity | ].
  exact (proj1 (proj2
           (createObstacles_positions (fun _ => 0.5)
              (set_routeSamples (Some Stage.long_samples) Stage.racing)
              Stage.long_samples 1700 eq_refl eq_refl))).
Defined.

Lemma obstaclePositions_returns (this : Game) (nodes : list RouteNode.t)
    (obstacles : list Obstacle.t) :
  routeSamples this = Some (buildRouteSamples nodes) ->
  (0 < sample_count nodes)%nat ->
  exists positions, obstaclePositions this obstacles = Returns positions.
Proof.
  intros Hs Hpos. induction obstacles as [ | obs obstacles IH]; cbn [obstaclePositions].
  - eexists. reflexivity.
  - destruct IH as [positions IH]. rewrite IH. unfold obstaclePosition.
    destruct (getSampleAtDistance_defined this nodes (Obstacle.distance obs) Hs Hpos)
      as (k & p & w & t & _ & -> & _).
    destruct (getSampleAtDistance_defined this nodes (Obstacle.distance obs + 20) Hs Hpos)
      as (k' & p' & w' & t' & _ & -> & _).
    cbn [RoadSample.point bind]. eexists. reflexivity.
Qed.

(** ** Rewind *)

Lemma snapshot_restored (now : R) (this : Game) :
  restored (snapshot now this) (Vehicle.state (vehicle this)) = Vehicle.state (vehicle this).
Proof.
  unfold restored, snapshot.
  destruct (Vehicle.state (vehicle this)) as [[px pz] [vx vz] h y e g w sp ts].
  reflexivity.
Qed.

(** X23. [recordRewindSnapshot] keeps the snapshots less than 3000
    milliseconds old and appends the present one, taken from the state of
    the vehicle: restoring it at once would change nothing.  It changes
    nothing but the buffer. *)
Theorem recordRewindSnapshot_window (now : R) (this : Game) :
  rewindBuffer (recordRewindSnapshot now this)
    = filter (fun snap => now - RewindSnapshot.timestamp snap <? 3000) (rewindBuffer this)
      ++ [snapshot now this] /\
  Forall (fun snap => now - RewindSnapshot.timestamp snap < 3000)
    (rewindBuffer (recordRewindSnapshot now this)) /\
  restored (snapshot now this) (Vehicle.state (vehicle this)) = Vehicle.state (vehicle this) /\
  RewindSnapshot.stageDistance (snapshot now this)
    = StageProgress.distance (stageProgress this) /\
  recordRewindSnapshot now this
    = set_rewindBuffer (rewindBuffer (recordRewindSnapshot now this)) this.
Proof.
  assert (Hbuf : rewindBuffer (recordRewindSnapshot now this)
    = filter (fun snap => now - RewindSnapshot.timestamp snap <? 3000) (rewindBuffer this)
      ++ [snapshot now this]).
  { unfold recordRewindSnapshot. cbv zeta. cbn [rewindBuffer set_rewindBuffer].
    rewrite filter_app. cbn [filter].
    replace (now - RewindSnapshot.timestamp (snapshot now this)) with 0
      by (cbn [snapshot RewindSnapshot.timestamp]; ring).
    rewrite (proj2 (ltb_true 0 3000)) by lra. reflexivity. }
  split; [exact Hbuf | ]. split; [ | split; [ | split]].
  - rewrite Hbuf. apply Forall_app. split.
    + apply Forall_forall. intros snap Hin. apply filter_In in Hin.
      apply ltb_true. apply Hin.
    + constructor; [ | constructor]. cbn [snapshot RewindSnapshot.timestamp]. lra.
  - apply snapshot_restored.
  - reflexivity.
  - reflexivity.
Qed.

Lemma tryRewind_idle (this : Game) :
  rewindCharge this <= 0 \/ rewindBuffer this = [] -> tryRewind this = this.
Proof.
  intros [Hc | Hb]; unfold tryRewind.
  - rewrite (proj2 (leb_true _ _) Hc). reflexivity.
  - rewrite Hb. rewrite Bool.orb_true_r. reflexivity.
Qed.

Lemma tryRewind_restores (this : Game) (snapshot : RewindSnapshot.t)
    (rest : list RewindSnapshot.t) :
  0 < rewindCharge this ->
  rewindBuffer this = snapshot :: rest ->
  tryRewind this
  = set_rewindBuffer []
      (set_rewindCharge (rewindCharge this - 1)
         (set_distance (RewindSnapshot.stageDistance snapshot)
            (set_vehicle
               (Vehicle.set_state (restored snapshot (Vehicle.state (vehicle this)))
                  (vehicle this)) this))).
Proof.
  intros Hc Hb. unfold tryRewind. rewrite Hb.
  rewrite (proj2 (leb_false _ _) Hc). cbn [orb List.length Nat.eqb].
  reflexivity.
Qed.

(** X24. [tryRewind] does nothing without charge or without a snapshot.
    Otherwise it restores position, heading, velocity, yaw rate, gear and
    engine speed of the oldest snapshot and the distance along the stage,
    keeps the wheel speed, the speed, the tire state, the clutch and the
    setup of the vehicle, takes one unit of charge and empties the buffer.
    A second call right after the first does nothing. *)
Theorem tryRewind_once (this : Game) :
  (rewindCharge this <= 0 \/ rewindBuffer this = [] -> tryRewind this = this) /\
  (forall snapshot rest,
     0 < rewindCharge this ->
     rewindBuffer this = snapshot :: rest ->
     Vehicle.state (vehicle (tryRewind this))
       = restored snapshot (Vehicle.state (vehicle this)) /\
     StageProgress.distance (stageProgress (tryRewind this))
       = RewindSnapshot.stageDistance snapshot /\
     StageProgress.node (stageProgress (tryRewind this))
       = StageProgress.node (stageProgress this) /\
     rewindCharge (tryRewind this) = rewindCharge this - 1 /\
     rewindBuffer (tryRewind this) = [] /\
     same_setup (vehicle this) (vehicle (tryRewind this)) /\
     clutch (vehicle (tryRewind this)) = clutch (vehicle this) /\
     timer (tryRewind this) = timer this /\
     Race.state (tryRewind this) = Race.state this /\
     obstacles (tryRewind this) = obstacles this) /\
  tryRewind (tryRewind this) = tryRewind this.
Proof.
  split; [exact (tryRewind_idle this) | ]. split.
  - intros snapshot rest Hc Hb. rewrite (tryRewind_restores this snapshot rest Hc Hb).
    repeat split; reflexivity.
  - destruct (Rle_lt_dec (rewindCharge this) 0) as [Hc | Hc].
    + rewrite (tryRewind_idle this) by (left; exact Hc). apply tryRewind_idle. left. exact Hc.
    + destruct (rewindBuffer this) as [ | snapshot rest] eqn:Hb.
      * rewrite (tryRewind_idle this) by (right; exact Hb). apply tryRewind_idle.
        right. exact Hb.
      * apply tryRewind_idle. right.
        rewrite (tryRewind_restores this snapshot rest Hc Hb). reflexivity.
Qed.

Lemma racing_charged : 0 < rewindCharge Stage.racing.
Proof. cbn. lra. Qed.

Lemma tryRewind_once_witness :
  0 < rewindCharge Stage.racing /\
  rewindBuffer Stage.racing = [Stage.snap] /\
  Vehicle.gear (Vehicle.state (vehicle (tryRewind Stage.racing))) = 2%Z.
Proof.
  split; [exact racing_charged | ]. split; [reflexivity | ].
  rewrite (proj1 (proj1 (proj2 (tryRewind_once Stage.racing)) Stage.snap []
                    racing_charged eq_refl)).
  reflexivity.
Defined.

(** X25. The snapshot does not hold the wheel speed, the speed and the
    tire state, and [update] does not read them: after a rewind the next
    [update] has the outcome it has on the vehicle as it is now, with the
    clutch, the terrain and the setup it has now, none of which the
    snapshot holds or the rewind changes, and with any state whose
    position, heading, velocity, yaw rate, gear and engine speed are those
    of the snapshot, such as the state the snapshot was taken from. *)
Theorem update_after_rewind (dt : R) (input : VehicleInput) (this : Game)
    (snapshot : RewindSnapshot.t) (rest : list RewindSnapshot.t) (s : VehicleState) :
  0 < rewindCharge this ->
  rewindBuffer this = snapshot :: rest ->
  restored snapshot s = s ->
  Vehicle.update dt input (vehicle (tryRewind this))
    = Vehicle.update dt input (Vehicle.set_state s (vehicle this)).
Proof.
  intros Hc Hb Hs. rewrite (tryRewind_restores this snapshot rest Hc Hb).
  cbn [vehicle set_rewindBuffer set_rewindCharge set_distance set_stageProgress set_vehicle].
  rewrite <- (update_forget dt input (Vehicle.set_state s (vehicle this))
                (RewindSnapshot.engineRpm snapshot)
                (wheelSpeed (Vehicle.state (vehicle this)))
                (speed (Vehicle.state (vehicle this)))
                (tireState (Vehicle.state (vehicle this)))).
  f_equal. unfold forget, Vehicle.assign. cbn [Vehicle.state Vehicle.set_state].
  rewrite <- Hs. reflexivity.
Qed.

Lemma update_after_rewind_witness :
  0 < rewindCharge Stage.racing /\
  rewindBuffer Stage.racing = [Stage.snap] /\
  restored Stage.snap (restored Stage.snap (Vehicle.state Scenario.m3))
    = restored Stage.snap (Vehicle.state Scenario.m3) /\
  Vehicle.update Scenario.frame Scenario.braking (vehicle (tryRewind Stage.racing))
    = Vehicle.update Scenario.frame Scenario.braking
        (Vehicle.set_state (restored Stage.snap (Vehicle.state Scenario.m3))
           (vehicle Stage.racing)).
Proof.
  split; [exact racing_charged | ]. split; [reflexivity | ]. split; [reflexivity | ].
  exact (update_after_rewind Scenario.frame Scenario.braking Stage.racing Stage.snap []
           (restored Stage.snap (Vehicle.state Scenario.m3))
           racing_charged eq_refl eq_refl).
Defined.

(** ** From one stage to the next *)

Lemma resetRoute_returns (fuel : nat) (random : nat -> R) (this : Game) (node : RouteNode.t) :
  lookup ROUTE_GRAPH (currentNodeId this) = Some node ->
  exists path,
    buildRoutePath (turns_from node + fuel) (currentNodeId this) = Some (Returns path) /\
    hd_error (RoutePath.nodes path) = Some node /\
    resetRoute (turns_from node + fuel) random this
    = Some (Returns
        (createObstacles random
           (set_stageProgress
              {| StageProgress.node := Some node; StageProgress.distance := 0 |}
              (set_routeSamples (Some (buildRouteSamples (RoutePath.nodes path)))
                 (set_destination (RoutePath.destination path) this))))).
Proof.
  intros Hkey.
  destruct (path_from_key (currentNodeId this) node fuel Hkey) as (path & Hpath & Hhd & _).
  exists path. split; [exact Hpath | ]. split; [exact Hhd | ].
  unfold resetRoute. rewrite Hpath. cbn [andThen]. cbv zeta.
  cbn [currentNodeId set_routeSamples set_destination]. rewrite Hkey.
  match goal with
  | |- context [updateObstacleVisuals ?g] => set (this' := g)
  end.
  assert (Hs : routeSamples this' = Some (buildRouteSamples (RoutePath.nodes path))).
  { unfold this'.
    match goal with
    | |- context [createObstacles random ?g] =>
        destruct (createObstacles_frame random g) as [obstacles' ->]
    end.
    reflexivity. }
  unfold updateObstacleVisuals. rewrite Hs.
  destruct (obstaclePositions_returns this' (RoutePath.nodes path) (obstacles this') Hs
              (path_has_samples _ node path Hkey Hhd)) as [positions ->].
  reflexivity.
Qed.

Lemma resetRoute_frame (fuel : nat) (random : nat -> R) (this this' : Game) :
  resetRoute fuel random this = Some (Returns this') ->
  exists destination' samples' node' obstacles',
    this' = Race.set_obstacles obstacles'
              (Race.set_stageProgress
                 {| StageProgress.node := node'; StageProgress.distance := 0 |}
                 (Race.set_routeSamples (Some samples')
                    (Race.set_destination destination' this))).
Proof.
  unfold resetRoute. intros H. apply andThen_returns in H. destruct H as (path & _ & H).
  cbv zeta in H. injection H as H. apply bind_returns in H. destruct H as (_ & _ & H).
  injection H as <-.
  match goal with
  | |- context [createObstacles random ?g] =>
      destruct (createObstacles_frame random g) as [obstacles' ->]
  end.
  do 4 eexists. reflexivity.
Qed.

Lemma leaf_destination (node : RouteNode.t) :
  is_leaf node -> truthy (RouteNode.destination node) = true.
Proof.
  intros (_ & _ & d & -> & Hd). cbn in Hd |- *.
  destruct Hd as [<- | [<- | [<- | [<- | [<- | []]]]]]; reflexivity.
Qed.

Lemma advanceStage_finishes (fuel : nat) (random : nat -> R) (choice : Side.t) (this : Game)
    (node : RouteNode.t) :
  StageProgress.node (stageProgress this) = Some node ->
  lookup ROUTE_GRAPH (RouteNode.id node) = Some node ->
  (4 <= RouteNode.stage node)%Z ->
  advanceStage fuel random choice this
  = Some (Returns (set_checkpointMessageTimer 3 (set_state GameState.finish this))).
Proof.
  intros Hnode Hkey Hstage. unfold advanceStage. rewrite Hnode.
  destruct (graph_shape _ node Hkey) as (_ & _ & Hrange & Hfork & Hleaf).
  assert (Hnext : exists next nextNode,
             nextNodeFromChoice (RouteNode.id node) (Side.is_left choice) = Returns next /\
             lookup ROUTE_GRAPH next = Some nextNode /\ RouteNode.stage nextNode = 5%Z).
  { unfold nextNodeFromChoice. rewrite Hkey.
    destruct (Z.eq_dec (RouteNode.stage node) 5) as [H5 | H4].
    - destruct (Hleaf H5) as (-> & -> & _). exists (RouteNode.id node), node.
      destruct (Side.is_left choice); auto.
    - destruct Hfork as (l & r & ln & rn & -> & -> & _ & Hl & Hr & Hsl & Hsr & _); [lia | ].
      destruct (Side.is_left choice); [exists l, ln | exists r, rn];
        repeat split; auto; lia. }
  destruct Hnext as (next & nextNode & -> & Hlook & H5). cbn [andThen]. rewrite Hlook.
  destruct (graph_shape _ nextNode Hlook) as (_ & _ & _ & _ & Hleaf').
  rewrite (leaf_destination nextNode (Hleaf' H5)). reflexivity.
Qed.

Lemma advanceStage_continues (fuel : nat) (random : nat -> R) (choice : Side.t) (this : Game)
    (node : RouteNode.t) :
  StageProgress.node (stageProgress this) = Some node ->
  lookup ROUTE_GRAPH (RouteNode.id node) = Some node ->
  (RouteNode.stage node < 4)%Z ->
  exists next nextNode path,
    (if Side.is_left choice then RouteNode.left node else RouteNode.right node) = Some next /\
    lookup ROUTE_GRAPH next = Some nextNode /\
    RouteNode.stage nextNode = (RouteNode.stage node + 1)%Z /\
    buildRoutePath (turns_from node - 1 + fuel) next = Some (Returns path) /\
    hd_error (RoutePath.nodes path) = Some nextNode /\
    advanceStage (turns_from node - 1 + fuel) random choice this
    = Some (Returns
        (set_state GameState.race
           (set_rewindCharge 1
              (createObstacles random
                 (set_stageProgress
                    {| StageProgress.node := Some nextNode; StageProgress.distance := 0 |}
                    (set_routeSamples (Some (buildRouteSamples (RoutePath.nodes path)))
                       (set_destination (RoutePath.destination path)
                          (set_vehicle (Vehicle.reset 0 0 (vehicle this))
                             (set_stageProgress
                                {| StageProgress.node := Some nextNode;
                                   StageProgress.distance := 0 |}
                                (set_currentNodeId next this)))))))))).
Proof.
  intros Hnode Hkey Hstage.
  destruct (graph_shape _ node Hkey) as (_ & _ & Hrange & Hfork & _).
  destruct Hfork as (l & r & ln & rn & Hl & Hr & _ & Hll & Hlr & Hsl & Hsr & _); [lia | ].
  assert (Hnext : exists next nextNode,
             (if Side.is_left choice then RouteNode.left node else RouteNode.right node)
               = Some next /\
             lookup ROUTE_GRAPH next = Some nextNode /\
             RouteNode.stage nextNode = (RouteNode.stage node + 1)%Z).
  { destruct (Side.is_left choice); [exists l, ln | exists r, rn]; auto. }
  destruct Hnext as (next & nextNode & Hchoice & Hlook & Hs).
  exists next, nextNode.
  replace (turns_from node - 1)%nat with (turns_from nextNode)
    by (unfold turns_from; rewrite Hs; lia).
  set (this1 := set_vehicle (Vehicle.reset 0 0 (vehicle this))
                  (set_stageProgress
                     {| StageProgress.node := Some nextNode; StageProgress.distance := 0 |}
                     (set_currentNodeId next this))).
  destruct (resetRoute_returns fuel random this1 nextNode Hlook)
    as (path & Hpath & Hhd & Hreset).
  exists path. split; [exact Hchoice | ]. split; [exact Hlook | ]. split; [exact Hs | ].
  split; [exact Hpath | ]. split; [exact Hhd | ].
  unfold advanceStage. rewrite Hnode. unfold nextNodeFromChoice. rewrite Hkey, Hchoice.
  cbn [andThen]. rewrite Hlook.
  destruct (graph_shape _ nextNode Hlook) as (_ & _ & _ & Hfork' & _).
  destruct Hfork' as (_ & _ & _ & _ & _ & _ & _ & _ & _ & _ & _ & Hdest); [lia | ].
  rewrite Hdest. cbn [truthy]. cbv zeta.
  match goal with
  | |- context [resetRoute _ _ ?g] => change g with this1
  end.
  rewrite Hreset. reflexivity.
Qed.

(** X26. At the end of a fork, on a node of the graph: from stage 4 or 5
    [advanceStage] finishes the race and changes nothing but the state and
    the message timer, so that no segment of stage 5 is ever driven.  From
    a stage below 4, with fuel for the path, it moves to the child on the
    chosen side: that child is the node of the stage, at distance 0, the
    vehicle is reset, the route, its samples and its obstacles are those
    of the path from the child, the rewind charge is 1 and the state is
    ["race"]; the timer and the rewind buffer are kept. *)
Theorem advanceStage_ends_or_continues (fuel : nat) (random : nat -> R) (choice : Side.t)
    (this : Game) (node : RouteNode.t) :
  StageProgress.node (stageProgress this) = Some node ->
  lookup ROUTE_GRAPH (RouteNode.id node) = Some node ->
  ((4 <= RouteNode.stage node)%Z ->
   advanceStage fuel random choice this
   = Some (Returns (set_checkpointMessageTimer 3 (set_state GameState.finish this)))) /\
  ((RouteNode.stage node < 4)%Z ->
   exists next nextNode path this',
     (if Side.is_left choice then RouteNode.left node else RouteNode.right node)
       = Some next /\
     lookup ROUTE_GRAPH next = Some nextNode /\
     RouteNode.stage nextNode = (RouteNode.stage node + 1)%Z /\
     buildRoutePath (turns_from node - 1 + fuel) next = Some (Returns path) /\
     advanceStage (turns_from node - 1 + fuel) random choice this = Some (Returns this') /\
     Race.state this' = GameState.race /\
     currentNodeId this' = next /\
     stageProgress this'
       = {| StageProgress.node := Some nextNode; StageProgress.distance := 0 |} /\
     vehicle this' = Vehicle.reset 0 0 (vehicle this) /\
     routeSamples this' = Some (buildRouteSamples (RoutePath.nodes path)) /\
     destination this' = RoutePath.destination path /\
     rewindCharge this' = 1 /\
     timer this' = timer this /\
     rewindBuffer this' = rewindBuffer this).
Proof.
  intros Hnode Hkey. split.
  - exact (advanceStage_finishes fuel random choice this node Hnode Hkey).
  - intros Hstage.
    destruct (advanceStage_continues fuel random choice this node Hnode Hkey Hstage)
      as (next & nextNode & path & Hchoice & Hlook & Hs & Hpath & _ & Hrun).
    exists next, nextNode, path. eexists.
    split; [exact Hchoice | ]. split; [exact Hlook | ]. split; [exact Hs | ].
    split; [exact Hpath | ]. split; [exact Hrun | ].
    match goal with
    | |- context [createObstacles random ?g] =>
        destruct (createObstacles_frame random g) as [obstacles' ->]
    end.
    repeat split; reflexivity.
Qed.

Lemma advanceStage_ends_or_continues_witness :
  exists node,
    StageProgress.node (stageProgress Stage.racing) = Some node /\
    lookup ROUTE_GRAPH (RouteNode.id node) = Some node /\
    (4 <= RouteNode.stage node)%Z /\
    advanceStage 0 (fun _ => 0.5) Side.left Stage.racing
    = Some (Returns (set_checkpointMessageTimer 3 (set_state GameState.finish Stage.racing))).
Proof.
  eexists. split; [reflexivity | ]. split; [reflexivity | ].
  assert (Hstage : (4 <= 4)%Z) by lia.
  split; [exact Hstage | ].
  exact (proj1 (advanceStage_ends_or_continues 0 (fun _ => 0.5) Side.left Stage.racing _
                  eq_refl eq_refl) Hstage).
Defined.

(** ** What every frame keeps *)

(** What [steady] reads of a game. *)
Lemma steady_ext (this this' : Game) :
  Race.timer this' = Race.timer this ->
  StageProgress.distance (Race.stageProgress this')
    = StageProgress.distance (Race.stageProgress this) ->
  Vehicle.gear (Vehicle.state (Race.vehicle this'))
    = Vehicle.gear (Vehicle.state (Race.vehicle this)) ->
  Vehicle.tuning (Race.vehicle this') = Vehicle.tuning (Race.vehicle this) ->
  Race.rewindBuffer this' = Race.rewindBuffer this ->
  steady this -> steady this'.
Proof.
  intros Ht Hd Hg Htu Hb (H1 & H2 & H3 & H4).
  unfold steady, snapshot_ok, Contract.gear_in_range, Contract.maxGear in *.
  rewrite Ht, Hd, Hg, Htu, Hb. auto.
Qed.

Ltac steady_frame :=
  match goal with
  | Hs : steady _ |- steady _ => revert Hs; apply steady_ext; reflexivity
  end.

Lemma consume_input (action : InputAction.t) (pad : option InputState.t) (this : Game) :
  exists input', snd (Race.consume action pad this) = Race.set_input input' this.
Proof.
  unfold Race.consume. destruct (InputManager.consume action pad (Race.input this)) as [b i].
  exists i. reflexivity.
Qed.

Lemma tryRewind_steady (this : Game) : steady this -> steady (tryRewind this).
Proof.
  intros Hs. destruct (Rle_lt_dec (Race.rewindCharge this) 0) as [Hc | Hc].
  - rewrite tryRewind_idle; auto.
  - destruct (Race.rewindBuffer this) as [ | snap rest] eqn:Hb.
    + rewrite tryRewind_idle; auto.
    + rewrite (tryRewind_restores this snap rest Hc Hb).
      destruct Hs as (H1 & H2 & H3 & H4). rewrite Hb in H4.
      apply Forall_cons_iff in H4. destruct H4 as [[Hg Hd] _].
      unfold steady, snapshot_ok, Contract.gear_in_range, Contract.maxGear in *. game.
      cbn [restored Vehicle.gear]. repeat split; auto; try lia.
Qed.

Lemma recordRewindSnapshot_steady (now : R) (this : Game) :
  steady this -> steady (recordRewindSnapshot now this).
Proof.
  intros (H1 & H2 & H3 & H4).
  unfold steady, recordRewindSnapshot. cbv zeta. game.
  split; [exact H1 | ]. split; [exact H2 | ]. split; [exact H3 | ].
  apply Forall_forall. intros snap Hin. apply filter_In in Hin. destruct Hin as [Hin _].
  apply in_app_or in Hin. destruct Hin as [Hin | [<- | []]].
  - rewrite Forall_forall in H4. apply (H4 snap Hin).
  - unfold snapshot_ok, snapshot. cbn [RewindSnapshot.gear RewindSnapshot.stageDistance]. game.
    split; [exact H3 | exact H2].
Qed.

Lemma hitObstacle_steady (this : Game) (obs : Obstacle.t) :
  steady this -> steady (fst (hitObstacle this obs)).
Proof.
  intros Hs. unfold hitObstacle.
  destruct (Obstacle.hit obs); [exact Hs | ].
  destruct (_ && _); [ | exact Hs].
  cbn [fst]. destruct Hs as (H1 & H2 & H3 & H4).
  unfold steady, snapshot_ok, Contract.gear_in_range, Contract.maxGear in *. game.
  split; [apply Rmax_l | auto].
Qed.

(** What the callback of the obstacles leaves alone. *)
Lemma hitObstacle_frame (this : Game) (obs : Obstacle.t) :
  Race.state (fst (hitObstacle this obs)) = Race.state this /\
  Race.isPaused (fst (hitObstacle this obs)) = Race.isPaused this /\
  Race.stageProgress (fst (hitObstacle this obs)) = Race.stageProgress this /\
  Race.routeSamples (fst (hitObstacle this obs)) = Race.routeSamples this /\
  car (Race.vehicle (fst (hitObstacle this obs))) = car (Race.vehicle this) /\
  tuning (Race.vehicle (fst (hitObstacle this obs))) = tuning (Race.vehicle this) /\
  maxSteerAngle (Race.vehicle (fst (hitObstacle this obs)))
    = maxSteerAngle (Race.vehicle this).
Proof.
  unfold hitObstacle. destruct (Obstacle.hit obs); [repeat split | ].
  destruct (_ && _); repeat split.
Qed.

Lemma forEach_obstacle_steady (obstacles : list Obstacle.t) :
  forall this, steady this -> steady (fst (forEach_obstacle this obstacles)).
Proof.
  induction obstacles as [ | obs rest IH]; intros this Hs; cbn [forEach_obstacle].
  - exact Hs.
  - pose proof (hitObstacle_steady this obs Hs) as Hs'.
    destruct (hitObstacle this obs) as [this1 obs1]. cbn [fst] in Hs'.
    specialize (IH this1 Hs').
    destruct (forEach_obstacle this1 rest) as [this2 rest2]. exact IH.
Qed.

Lemma forEach_obstacle_frame (obstacles : list Obstacle.t) :
  forall this,
  Race.state (fst (forEach_obstacle this obstacles)) = Race.state this /\
  Race.isPaused (fst (forEach_obstacle this obstacles)) = Race.isPaused this /\
  Race.stageProgress (fst (forEach_obstacle this obstacles)) = Race.stageProgress this /\
  Race.routeSamples (fst (forEach_obstacle this obstacles)) = Race.routeSamples this /\
  car (Race.vehicle (fst (forEach_obstacle this obstacles))) = car (Race.vehicle this) /\
  tuning (Race.vehicle (fst (forEach_obstacle this obstacles))) = tuning (Race.vehicle this) /\
  maxSteerAngle (Race.vehicle (fst (forEach_obstacle this obstacles)))
    = maxSteerAngle (Race.vehicle this).
Proof.
  induction obstacles as [ | obs rest IH]; intros this; cbn [forEach_obstacle].
  - repeat split.
  - pose proof (hitObstacle_frame this obs) as (F1 & F2 & F3 & F4 & F5 & F6 & F7).
    destruct (hitObstacle this obs) as [this1 obs1]. cbn [fst] in *.
    specialize (IH this1). destruct (forEach_obstacle this1 rest) as [this2 rest2].
    cbn [fst] in *. destruct IH as (G1 & G2 & G3 & G4 & G5 & G6 & G7).
    rewrite G1, G2, G3, G4, G5, G6, G7. repeat split; assumption.
Qed.

Lemma steady_maxGear (this : Game) : steady this -> (1 <= maxGear (Race.vehicle this))%Z.
Proof. intros (_ & _ & Hg & _). unfold gear_in_range, maxGear in *. lia. Qed.

Lemma advanceStage_steady (fuel : nat) (random : nat -> R) (choice : Side.t)
    (this this' : Game) :
  advanceStage fuel random choice this = Some (Returns this') ->
  steady this -> running this -> steady this' /\ running this'.
Proof.
  unfold advanceStage. intros H Hs [Hp Hst].
  destruct (StageProgress.node (Race.stageProgress this)) as [node | ]; [ | discriminate].
  apply andThen_returns in H. destruct H as (nextId & _ & H).
  destruct (lookup ROUTE_GRAPH nextId) as [nextNode | ]; [ | discriminate].
  destruct (truthy (RouteNode.destination nextNode)).
  - injection H as <-. split.
    + steady_frame.
    + split; [exact Hp | discriminate].
  - cbv zeta in H. apply andThen_returns in H. destruct H as (this1 & Hreset & H).
    injection H as <-. apply resetRoute_frame in Hreset.
    destruct Hreset as (d & s & n & o & ->).
    pose proof (steady_maxGear this Hs) as Hmax.
    destruct Hs as (H1 & H2 & H3 & H4).
    unfold steady, running, snapshot_ok, gear_in_range, maxGear in *. game.
    cbn [Vehicle.reset Vehicle.assign Vehicle.set_state Vehicle.state Vehicle.tuning
         Vehicle.gear Vehicle.set_speed Vehicle.set_wheelSpeed Vehicle.set_gear].
    repeat split; auto; try lia; try lra. discriminate.
Qed.

Lemma updateProgress_tail_steady (dt : R) (fuel : nat) (random : nat -> R)
    (this this' : Game) :
  updateProgress_tail dt fuel random this = Some (Returns this') ->
  steady this -> running this -> steady this' /\ running this'.
Proof.
  unfold updateProgress_tail. intros H Hs Hr.
  set (this1 := if GameState.eqb (Race.state this) GameState.checkpoint then _ else this) in H.
  assert (H1 : steady this1 /\ running this1).
  { unfold this1. destruct (GameState.eqb _ _); [ | auto].
    cbv zeta. game. destruct (_ <=? _).
    - split; [steady_frame | ]. destruct Hr. split; [assumption | discriminate].
    - split; [steady_frame | ]. exact Hr. }
  clearbody this1. destruct H1 as [Hs1 Hr1].
  apply andThen_returns in H. destruct H as (this2 & Hfork & H).
  assert (H2 : steady this2 /\ running this2).
  { destruct (GameState.eqb (Race.state this1) GameState.fork).
    - cbv zeta in Hfork.
      set (this3 := Race.set_forkDistance _ this1) in Hfork.
      set (this4 := if _ <? _ then _ else _) in Hfork.
      assert (H4 : steady this4 /\ running this4).
      { unfold this4, this3. game.
        destruct (_ <? _); [split; [steady_frame | exact Hr1] | ].
        destruct (_ >? _); split; try steady_frame; exact Hr1. }
      clearbody this4. destruct H4 as [Hs4 Hr4].
      destruct (Race.forkChoice this4) as [choice | ].
      + destruct (_ <=? _).
        * exact (advanceStage_steady fuel random choice this4 this2 Hfork Hs4 Hr4).
        * injection Hfork as <-. auto.
      + injection Hfork as <-. auto.
    - injection Hfork as <-. auto. }
  destruct (_ || _).
  - injection H as H. apply bind_returns in H. destruct H as (_ & _ & H).
    injection H as <-. exact H2.
  - injection H as <-. exact H2.
Qed.

Lemma updateProgress_steady (dt now : R) (fuel : nat) (random : nat -> R)
    (this this' : Game) :
  updateProgress dt now fuel random this = Some (Returns this') ->
  steady this -> running this -> steady this' /\ running this'.
Proof.
  unfold updateProgress. intros H Hs Hr.
  destruct (Race.routeSamples this) as [samples | ]; [ | injection H as <-; auto].
  cbv zeta in H. game.
  destruct (Race.timer this - dt <=? 0) eqn:Htimer.
  { injection H as <-. destruct Hs as (H1 & H2 & H3 & H4). destruct Hr as [Hp Hst].
    unfold steady, running, snapshot_ok, gear_in_range, maxGear in *. game.
    repeat split; auto; try lia; try lra; discriminate. }
  apply leb_false in Htimer.
  destruct (StageProgress.node (Race.stageProgress this)) as [node | ] eqn:Hnode;
    [ | discriminate].
  match type of H with
  | context [forEach_obstacle ?g ?o] =>
      assert (H1 : steady g /\ running g);
      [ | pose proof (forEach_obstacle_steady o g (proj1 H1)) as Hs2;
          pose proof (forEach_obstacle_frame o g) as (F1 & F2 & _);
          destruct (forEach_obstacle g o) as [this2 obstacles2] eqn:Heach;
          cbn [fst] in Hs2, F1, F2 ]
  end.
  { destruct Hs as (H1 & H2 & H3 & H4). destruct Hr as [Hp Hst].
    destruct (_ >? _);
      unfold steady, running, snapshot_ok, gear_in_range, maxGear in *; game;
      repeat split; auto; try lia; try apply Rmax_l; lra. }
  destruct H1 as [Hs1 Hr1].
  assert (Hr2 : running this2).
  { destruct Hr1 as [Hp Hst]. unfold running. rewrite F1, F2. game. auto. }
  set (this3 := recordRewindSnapshot now (Race.set_obstacles obstacles2 this2)) in H.
  assert (Hs3 : steady this3).
  { apply recordRewindSnapshot_steady. revert Hs2. apply steady_ext; reflexivity. }
  assert (Hr3 : running this3) by exact Hr2.
  clearbody this3.
  destruct (_ && _).
  - destruct (truthy _).
    + injection H as <-. split; [steady_frame | ]. destruct Hr3. split; [auto | discriminate].
    + apply (updateProgress_tail_steady dt fuel random _ this' H).
      * destruct Hs3 as (H1 & H2 & H3 & H4).
        unfold steady, snapshot_ok, gear_in_range, maxGear, stageTimerBonus in *. game.
        repeat split; auto; try lia; lra.
      * destruct Hr3. split; [auto | discriminate].
  - exact (updateProgress_tail_steady dt fuel random this3 this' H Hs3 Hr3).
Qed.

Lemma consume_steady (action : InputAction.t) (pad : option InputState.t) (this : Game) :
  (steady this -> steady (snd (Race.consume action pad this))) /\
  (running this -> running (snd (Race.consume action pad this))) /\
  (pause_flag this -> pause_flag (snd (Race.consume action pad this))).
Proof.
  destruct (consume_input action pad this) as [input' ->].
  split; [ | split]; intros H; [revert H; apply steady_ext; reflexivity | exact H | exact H].
Qed.

Lemma set_vehicle_steady (v : Vehicle) (this : Game) :
  gear_in_range v ->
  tuning v = tuning (Race.vehicle this) ->
  steady this -> steady (Race.set_vehicle v this).
Proof.
  intros Hg Ht (H1 & H2 & H3 & H4).
  unfold steady, snapshot_ok, gear_in_range, maxGear in *. game.
  rewrite Ht in Hg |- *. auto.
Qed.

Lemma tryRewind_running (this : Game) : running this -> running (tryRewind this).
Proof.
  intros Hr. destruct (Rle_lt_dec (Race.rewindCharge this) 0) as [Hc | Hc].
  - rewrite tryRewind_idle; auto.
  - destruct (Race.rewindBuffer this) as [ | snap rest] eqn:Hb.
    + rewrite tryRewind_idle; auto.
    + rewrite (tryRewind_restores this snap rest Hc Hb). exact Hr.
Qed.

Lemma drive_steady (dt now : R) (fuel : nat) (random : nat -> R) (pad : option InputState.t)
    (inputState : InputState.t) (this this' : Game) :
  drive dt now fuel random pad inputState this = Some (Returns this') ->
  steady this -> running this -> steady this' /\ running this'.
Proof.
  unfold drive. intros H Hs Hr.
  apply andThen_returns in H. destruct H as (v & Hv & H). injection Hv as Hv.
  cbv zeta in H.
  set (this1 := Race.set_vehicle v this) in H.
  assert (H1 : steady this1 /\ running this1).
  { split; [ | exact Hr]. apply set_vehicle_steady; [ | | exact Hs].
    - apply (update_in_range _ _ _ _ (proj1 (proj2 (proj2 Hs))) Hv).
    - symmetry. apply (update_same_setup _ _ _ _ Hv). }
  clearbody this1.
  set (this2 := if InputState.shiftUp inputState then _ else this1) in H.
  assert (H2 : steady this2 /\ running this2).
  { unfold this2. destruct (InputState.shiftUp inputState); [ | exact H1].
    destruct (consume_steady InputAction.shiftUp pad this1) as (Cs & Cr & _).
    destruct (Race.consume InputAction.shiftUp pad this1) as [b g]. cbn [snd] in *.
    destruct b; [ | tauto]. split; [ | apply Cr, H1].
    apply set_vehicle_steady; [ | | apply Cs, H1].
    - apply shiftUp_in_range. apply (Cs (proj1 H1)).
    - symmetry. apply (shiftUp_same_setup (Race.vehicle g)). }
  clearbody this2. clear H1 this1.
  set (this3 := if InputState.shiftDown inputState then _ else this2) in H.
  assert (H3 : steady this3 /\ running this3).
  { unfold this3. destruct (InputState.shiftDown inputState); [ | exact H2].
    destruct (consume_steady InputAction.shiftDown pad this2) as (Cs & Cr & _).
    destruct (Race.consume InputAction.shiftDown pad this2) as [b g]. cbn [snd] in *.
    destruct b; [ | tauto]. split; [ | apply Cr, H2].
    apply set_vehicle_steady; [ | | apply Cs, H2].
    - apply shiftDown_in_range. apply (Cs (proj1 H2)).
    - symmetry. apply (shiftDown_same_setup (Race.vehicle g)). }
  clearbody this3. clear H2 this2.
  destruct (consume_steady InputAction.camera pad this3) as (Cs & Cr & _).
  destruct (Race.consume InputAction.camera pad this3) as [b4 this4]. cbn [snd] in *.
  set (this5 := if b4 then cycleCamera this4 else this4) in H.
  assert (H5 : steady this5 /\ running this5).
  { unfold this5. destruct b4; [ | tauto]. split; [ | apply Cr, H3].
    generalize (Cs (proj1 H3)). apply steady_ext; reflexivity. }
  clearbody this5. clear Cs Cr H3.
  destruct (consume_steady InputAction.rewind pad this5) as (Cs & Cr & _).
  destruct (Race.consume InputAction.rewind pad this5) as [b6 this6]. cbn [snd] in *.
  set (this7 := if b6 then tryRewind this6 else this6) in H.
  assert (H7 : steady this7 /\ running this7).
  { unfold this7. destruct b6; [ | tauto]. split.
    - apply tryRewind_steady. tauto.
    - apply tryRewind_running. tauto. }
  clearbody this7.
  exact (updateProgress_steady dt now fuel random this7 this' H (proj1 H7) (proj2 H7)).
Qed.

Lemma togglePause_flag (this : Game) : pause_flag this -> pause_flag (togglePause this).
Proof.
  unfold pause_flag, togglePause. cbv zeta. game. intros [H1 H2].
  destruct (Race.isPaused this); cbn [negb].
  - rewrite (H1 eq_refl). cbn [GameState.eqb]. game. split; discriminate.
  - game. split; reflexivity.
Qed.

Lemma togglePause_steady (this : Game) : steady this -> steady (togglePause this).
Proof.
  unfold togglePause. cbv zeta. game. intros Hs.
  destruct (negb _); [steady_frame | ]. destruct (GameState.eqb _ _); steady_frame.
Qed.

Lemma update_steady (dt now : R) (fuel : nat) (random : nat -> R) (pad : option InputState.t)
    (this this' : Game) :
  Race.update dt now fuel random pad this = Some (Returns this') ->
  steady this -> pause_flag this -> steady this' /\ pause_flag this'.
Proof.
  unfold Race.update. intros H Hs Hf.
  destruct (GameState.eqb (Race.state this) GameState.start);
    [injection H as <-; auto | ].
  cbv zeta in H.
  destruct (consume_steady InputAction.pause pad this) as (Cs & _ & Cf).
  destruct (Race.consume InputAction.pause pad this) as [b1 this1]. cbn [snd] in *.
  set (this2 := if b1 then togglePause this1 else this1) in H.
  assert (H2 : steady this2 /\ pause_flag this2).
  { unfold this2. destruct b1; [ | tauto]. split.
    - apply togglePause_steady. tauto.
    - apply togglePause_flag. tauto. }
  clearbody this2. destruct H2 as [Hs2 Hf2].
  destruct (Race.isPaused this2) eqn:Hp; [injection H as <-; auto | ].
  assert (Hr2 : running this2).
  { split; [exact Hp | ]. intros Hst. apply Hf2 in Hst. congruence. }
  set (this3 := if GameState.eqb (Race.state this2) GameState.countdown then _ else this2) in H.
  assert (H3 : steady this3 /\ running this3).
  { unfold this3. destruct (GameState.eqb _ _); [ | auto]. cbv zeta. game.
    destruct (_ <=? _); (split; [steady_frame | ]); destruct Hr2; split; auto.
    discriminate. }
  clearbody this3. destruct H3 as [Hs3 Hr3].
  apply andThen_returns in H. destruct H as (this4 & Hdrive & H).
  assert (H4 : steady this4 /\ running this4).
  { destruct (_ || _).
    - exact (drive_steady dt now fuel random pad _ this3 this4 Hdrive Hs3 Hr3).
    - injection Hdrive as <-. auto. }
  destruct H4 as [Hs4 Hr4]. injection H as H. unfold updateHud in H.
  destruct (StageProgress.node _) in H; [ | discriminate]. injection H as <-.
  assert (H5 : forall g, steady g -> running g -> steady g /\ pause_flag g).
  { intros g Hg [Hp' Hst']. split; [exact Hg | ]. unfold pause_flag. split; congruence. }
  destruct (GameState.eqb (Race.state this4) GameState.finish); [ | auto].
  cbv zeta. game. destruct Hr4 as [Hp4 Hst4].
  destruct (_ <=? _); apply H5; try steady_frame; split; auto. discriminate.
Qed.

(** ** Frames that return *)

Lemma playable_ext (this this' : Game) :
  StageProgress.node (Race.stageProgress this')
    = StageProgress.node (Race.stageProgress this) ->
  Race.routeSamples this' = Race.routeSamples this ->
  car (Race.vehicle this') = car (Race.vehicle this) ->
  tuning (Race.vehicle this') = tuning (Race.vehicle this) ->
  maxSteerAngle (Race.vehicle this') = maxSteerAngle (Race.vehicle this) ->
  playable this -> playable this'.
Proof.
  intros Hn Hs Hc Ht Hm [Hwf (node & nodes & H1 & H2 & H3 & H4)]. split.
  - unfold well_formed in *. rewrite Hc, Ht, Hm. exact Hwf.
  - exists node, nodes. rewrite Hn, Hs. auto.
Qed.

Ltac playable_frame :=
  match goal with
  | Hp : playable _ |- playable _ => revert Hp; apply playable_ext; reflexivity
  end.

Lemma updateCarWorldTransform_returns (this : Game) :
  on_route this -> exists visual, updateCarWorldTransform this = Returns visual.
Proof.
  intros (node & nodes & _ & _ & Hs & Hpos). unfold updateCarWorldTransform.
  destruct (getSampleAtDistance_defined this nodes
              (StageProgress.distance (Race.stageProgress this)) Hs Hpos)
    as (k & p & w & t & _ & -> & _).
  destruct (getSampleAtDistance_defined this nodes
              (StageProgress.distance (Race.stageProgress this) + 20) Hs Hpos)
    as (k' & p' & w' & t' & _ & -> & _).
  cbn [RoadSample.point]. eexists. reflexivity.
Qed.

Lemma turns_from_le (key : string) (node : RouteNode.t) :
  lookup ROUTE_GRAPH key = Some node -> (turns_from node <= 5)%nat.
Proof.
  intros H. destruct (graph_shape key node H) as (_ & _ & Hstage & _).
  unfold turns_from. lia.
Qed.

Lemma advanceStage_returns (fuel : nat) (random : nat -> R) (choice : Side.t) (this : Game) :
  playable this ->
  exists this', advanceStage (5 + fuel) random choice this = Some (Returns this') /\
                playable this'.
Proof.
  intros Hp. pose proof Hp as [Hwf (node & nodes & Hnode & Hkey & Hs & Hpos)].
  destruct (Z_lt_le_dec (RouteNode.stage node) 4) as [Hlt | Hge].
  - pose proof (turns_from_le _ node Hkey) as Hturns.
    destruct (advanceStage_continues (5 + fuel - (turns_from node - 1)) random choice this
                node Hnode Hkey Hlt)
      as (next & nextNode & path & Hchoice & Hlook & Hstage & Hpath & Hhd & Hrun).
    replace (turns_from node - 1 + (5 + fuel - (turns_from node - 1)))%nat
      with (5 + fuel)%nat in Hrun by lia.
    eexists. split; [exact Hrun | ].
    match goal with
    | |- context [createObstacles random ?g] =>
        destruct (createObstacles_frame random g) as [obstacles' ->]
    end.
    split.
    + game. apply (well_formed_same_setup (Race.vehicle this)); [ | exact Hwf].
      repeat split; reflexivity.
    + exists nextNode, (RoutePath.nodes path). game.
      destruct (graph_shape next nextNode Hlook) as (Hid & _).
      split; [reflexivity | ]. split; [rewrite Hid; exact Hlook | ].
      split; [reflexivity | ].
      exact (path_has_samples next nextNode path Hlook Hhd).
  - rewrite (advanceStage_finishes (5 + fuel) random choice this node Hnode Hkey Hge).
    eexists. split; [reflexivity | ]. playable_frame.
Qed.

Lemma transform_step (this : Game) :
  playable this ->
  exists this',
    (if GameState.eqb (Race.state this) GameState.race
        || GameState.eqb (Race.state this) GameState.fork
        || GameState.eqb (Race.state this) GameState.checkpoint
     then Some (_ <- updateCarWorldTransform this ;; Returns this)
     else Some (Returns this)) = Some (Returns this') /\
    playable this'.
Proof.
  intros Hp. exists this. split; [ | exact Hp].
  destruct (_ || _); [ | reflexivity].
  destruct (updateCarWorldTransform_returns this (proj2 Hp)) as [visual ->]. reflexivity.
Qed.

Lemma updateProgress_tail_returns (dt : R) (fuel : nat) (random : nat -> R) (this : Game) :
  playable this ->
  exists this', updateProgress_tail dt (5 + fuel) random this = Some (Returns this') /\
                playable this'.
Proof.
  intros Hp. unfold updateProgress_tail.
  set (this1 := if GameState.eqb (Race.state this) GameState.checkpoint then _ else this).
  assert (Hp1 : playable this1).
  { unfold this1. destruct (GameState.eqb _ _); [ | exact Hp]. cbv zeta.
    destruct (_ <=? _); playable_frame. }
  clearbody this1. clear Hp this.
  match goal with
  | |- exists _, andThen ?r _ = _ /\ _ =>
      assert (Hfork : exists this2, r = Some (Returns this2) /\ playable this2)
  end.
  { destruct (GameState.eqb (Race.state this1) GameState.fork); [ | eauto].
    cbv zeta.
    set (this3 := Race.set_forkDistance _ this1).
    set (this4 := if _ <? _ then _ else _).
    assert (Hp4 : playable this4).
    { unfold this4, this3. destruct (_ <? _); [playable_frame | ].
      destruct (_ >? _); playable_frame. }
    clearbody this4.
    destruct (Race.forkChoice this4) as [choice | ]; [ | eauto].
    destruct (_ <=? _); [ | eauto].
    exact (advanceStage_returns fuel random choice this4 Hp4). }
  destruct Hfork as (this2 & Hrun & Hp2). rewrite Hrun. cbn [andThen].
  exact (transform_step this2 Hp2).
Qed.

Lemma updateProgress_returns (dt now : R) (fuel : nat) (random : nat -> R) (this : Game) :
  playable this ->
  exists this', updateProgress dt now (5 + fuel) random this = Some (Returns this') /\
                playable this'.
Proof.
  intros Hp. unfold updateProgress.
  destruct (Race.routeSamples this) as [samples | ]; [ | eauto].
  cbv zeta. game.
  destruct (Race.timer this - dt <=? 0).
  { eexists. split; [reflexivity | playable_frame]. }
  pose proof Hp as [_ (node & nodes & Hnode & _)]. game. rewrite Hnode.
  match goal with
  | |- context [forEach_obstacle ?g ?o] =>
      assert (Hp1 : playable g);
      [ | pose proof (forEach_obstacle_frame o g) as (_ & _ & F3 & F4 & F5 & F6 & F7);
          destruct (forEach_obstacle g o) as [this2 obstacles2];
          cbn [fst] in F3, F4, F5, F6, F7 ]
  end.
  { destruct (_ >? _); playable_frame. }
  set (this3 := recordRewindSnapshot now (Race.set_obstacles obstacles2 this2)).
  assert (Hp3 : playable this3).
  { revert Hp1. apply playable_ext.
    - unfold this3, recordRewindSnapshot. cbv zeta. game. rewrite F3. reflexivity.
    - unfold this3, recordRewindSnapshot. cbv zeta. game. exact F4.
    - exact F5.
    - exact F6.
    - exact F7. }
  clearbody this3.
  destruct (_ && _).
  - destruct (truthy _).
    + eexists. split; [reflexivity | playable_frame].
    + apply updateProgress_tail_returns. playable_frame.
  - apply updateProgress_tail_returns. exact Hp3.
Qed.

Lemma consume_playable (action : InputAction.t) (pad : option InputState.t) (this : Game) :
  playable this -> playable (snd (Race.consume action pad this)).
Proof.
  destruct (consume_input action pad this) as [input' ->]. intros Hp. playable_frame.
Qed.

Lemma set_vehicle_playable (v : Vehicle) (this : Game) :
  same_setup (Race.vehicle this) v -> playable this -> playable (Race.set_vehicle v this).
Proof.
  intros (Hc & Ht & _ & _ & _ & _ & Hm & _). apply playable_ext; game; auto.
Qed.

Lemma tryRewind_playable (this : Game) : playable this -> playable (tryRewind this).
Proof.
  intros Hp. destruct (Rle_lt_dec (Race.rewindCharge this) 0) as [Hc | Hc].
  - rewrite tryRewind_idle; auto.
  - destruct (Race.rewindBuffer this) as [ | snap rest] eqn:Hb.
    + rewrite tryRewind_idle; auto.
    + rewrite (tryRewind_restores this snap rest Hc Hb). playable_frame.
Qed.

Lemma drive_returns (dt now : R) (fuel : nat) (random : nat -> R) (pad : option InputState.t)
    (inputState : InputState.t) (this : Game) :
  playable this ->
  exists this', drive dt now (5 + fuel) random pad inputState this = Some (Returns this') /\
                playable this'.
Proof.
  intros Hp. unfold drive.
  destruct (update_returns dt (vehicleInput inputState) (Race.vehicle this) (proj1 Hp))
    as [v Hv].
  rewrite Hv. cbn [andThen]. cbv zeta.
  set (this1 := Race.set_vehicle v this).
  assert (Hp1 : playable this1).
  { apply set_vehicle_playable; [ | exact Hp]. exact (update_same_setup _ _ _ _ Hv). }
  clearbody this1.
  set (this2 := if InputState.shiftUp inputState then _ else this1).
  assert (Hp2 : playable this2).
  { unfold this2. destruct (InputState.shiftUp inputState); [ | exact Hp1].
    pose proof (consume_playable InputAction.shiftUp pad this1 Hp1) as Hc.
    destruct (Race.consume InputAction.shiftUp pad this1) as [b g]. cbn [snd] in Hc.
    destruct b; [ | exact Hc]. apply set_vehicle_playable; [ | exact Hc].
    apply shiftUp_same_setup. }
  clearbody this2. clear Hp1 this1.
  set (this3 := if InputState.shiftDown inputState then _ else this2).
  assert (Hp3 : playable this3).
  { unfold this3. destruct (InputState.shiftDown inputState); [ | exact Hp2].
    pose proof (consume_playable InputAction.shiftDown pad this2 Hp2) as Hc.
    destruct (Race.consume InputAction.shiftDown pad this2) as [b g]. cbn [snd] in Hc.
    destruct b; [ | exact Hc]. apply set_vehicle_playable; [ | exact Hc].
    apply shiftDown_same_setup. }
  clearbody this3. clear Hp2 this2.
  pose proof (consume_playable InputAction.camera pad this3 Hp3) as Hp4.
  destruct (Race.consume InputAction.camera pad this3) as [b4 this4]. cbn [snd] in Hp4.
  set (this5 := if b4 then cycleCamera this4 else this4).
  assert (Hp5 : playable this5).
  { unfold this5. destruct b4; [ | exact Hp4]. playable_frame. }
  clearbody this5. clear Hp4.
  pose proof (consume_playable InputAction.rewind pad this5 Hp5) as Hp6.
  destruct (Race.consume InputAction.rewind pad this5) as [b6 this6]. cbn [snd] in Hp6.
  set (this7 := if b6 then tryRewind this6 else this6).
  assert (Hp7 : playable this7).
  { unfold this7. destruct b6; [ | exact Hp6]. apply tryRewind_playable. exact Hp6. }
  clearbody this7.
  exact (updateProgress_returns dt now fuel random this7 Hp7).
Qed.

Lemma update_returns_playable (dt now : R) (fuel : nat) (random : nat -> R)
    (pad : option InputState.t) (this : Game) :
  playable this ->
  exists this',
    Race.update dt now (5 + fuel) random pad this = Some (Returns this') /\ playable this'.
Proof.
  intros Hp. unfold Race.update.
  destruct (GameState.eqb (Race.state this) GameState.start); [eauto | ].
  cbv zeta.
  pose proof (consume_playable InputAction.pause pad this Hp) as Hp1.
  destruct (Race.consume InputAction.pause pad this) as [b1 this1]. cbn [snd] in Hp1.
  set (this2 := if b1 then togglePause this1 else this1).
  assert (Hp2 : playable this2).
  { unfold this2. destruct b1; [ | exact Hp1]. unfold togglePause. cbv zeta. game.
    destruct (negb _); [playable_frame | ]. destruct (GameState.eqb _ _); playable_frame. }
  clearbody this2. clear Hp1.
  destruct (Race.isPaused this2); [eauto | ].
  set (this3 := if GameState.eqb (Race.state this2) GameState.countdown then _ else this2).
  assert (Hp3 : playable this3).
  { unfold this3. destruct (GameState.eqb _ _); [ | exact Hp2]. cbv zeta.
    destruct (_ <=? _); playable_frame. }
  clearbody this3. clear Hp2.
  match goal with
  | |- exists _, andThen ?r _ = _ /\ _ =>
      assert (Hdrive : exists this4, r = Some (Returns this4) /\ playable this4)
  end.
  { destruct (_ || _); [ | eauto]. apply drive_returns. exact Hp3. }
  destruct Hdrive as (this4 & -> & Hp4). cbn [andThen]. cbv zeta.
  set (this5 := if GameState.eqb (Race.state this4) GameState.finish then _ else this4).
  assert (Hp5 : playable this5).
  { unfold this5. destruct (GameState.eqb _ _); [ | exact Hp4]. cbv zeta.
    destruct (_ <=? _); playable_frame. }
  clearbody this5. exists this5. split; [ | exact Hp5].
  unfold updateHud. destruct Hp5 as [_ (node & nodes & -> & _)]. reflexivity.
Qed.

Lemma racing_steady : steady Stage.racing.
Proof.
  unfold steady, snapshot_ok, gear_in_range, maxGear. cbn.
  repeat split; try lra; try lia.
  constructor; [ | constructor]. cbn. split; [lia | lra].
Qed.

Lemma racing_pause_flag : pause_flag Stage.racing.
Proof. unfold pause_flag. cbn. split; discriminate. Qed.

Lemma racing_playable : playable Stage.racing.
Proof.
  split; [exact m3_well_formed | ].
  eexists. exists Scenario.forwards.
  split; [reflexivity | ]. split; [reflexivity | ]. split; [reflexivity | ].
  exact forwards_has_samples.
Qed.

(** X27. Every frame of [update] that returns keeps the game steady: the
    timer and the distance along the stage stay at 0 or above, the gear
    stays a gear of the vehicle, through shifts, rewinds and the resets at
    a fork, and so does the gear of every snapshot kept; the game is paused
    exactly when its state is ["pause"]. *)
Theorem update_keeps_steady (dt now : R) (fuel : nat) (random : nat -> R)
    (pad : option InputState.t) (this this' : Game) :
  steady this ->
  pause_flag this ->
  Race.update dt now fuel random pad this = Some (Returns this') ->
  steady this' /\ pause_flag this'.
Proof.
  intros Hs Hf Hrun. exact (update_steady dt now fuel random pad this this' Hrun Hs Hf).
Qed.

Lemma update_keeps_steady_witness :
  steady Stage.racing /\
  pause_flag Stage.racing /\
  exists this',
    Race.update Scenario.frame 16 5 (fun _ => 0.5) (Some Stage.gamepad) Stage.racing
      = Some (Returns this') /\
    steady this'.
Proof.
  split; [exact racing_steady | ]. split; [exact racing_pause_flag | ].
  destruct (update_returns_playable Scenario.frame 16 0 (fun _ => 0.5) (Some Stage.gamepad)
              Stage.racing racing_playable) as (this' & Hrun & _).
  exists this'. split; [exact Hrun | ].
  exact (proj1 (update_keeps_steady Scenario.frame 16 5 (fun _ => 0.5) (Some Stage.gamepad)
                  Stage.racing this' racing_steady racing_pause_flag Hrun)).
Defined.

Lemma loop_sound (time now : R) (fuel : nat) (random : nat -> R) (pad : option InputState.t)
    (this : Game) :
  playable this -> steady this -> pause_flag this ->
  exists this',
    loop time now (5 + fuel) random pad this = Some (Returns this') /\
    playable this' /\ steady this' /\ pause_flag this'.
Proof.
  intros Hp Hs Hf. unfold loop. cbv zeta.
  set (this1 := set_lastFrame time this).
  assert (Hp1 : playable this1) by (unfold this1; playable_frame).
  assert (Hs1 : steady this1) by (unfold this1; steady_frame).
  assert (Hf1 : pause_flag this1) by exact Hf.
  clearbody this1.
  destruct (update_returns_playable (Rmin 0.05 ((time - lastFrame this) / 1000)) now fuel
              random pad this1 Hp1) as (this' & Hrun & Hp').
  exists this'. split; [exact Hrun | ]. split; [exact Hp' | ].
  exact (update_steady _ now (5 + fuel) random pad this1 this' Hrun Hs1 Hf1).
Qed.

(** X28. On a game that is on a route of the graph with a well-formed
    vehicle, with fuel for five turns of the path loop or more, every
    sequence of animation frames runs to its end, whatever the time
    stamps, the gamepad and the random numbers: no frame throws, the
    node, the samples and the gear ratio it reads being there, none
    divides by zero, and the path loop ends; the game it leaves is again
    on a route of the graph, steady, and paused exactly when its state is
    ["pause"].  The frames run on real numbers here: of a run of the
    source whose numbers overflow this says nothing. *)
Theorem play_returns (fuel : nat) (fs : list Frame.t) (this : Game) :
  playable this ->
  steady this ->
  pause_flag this ->
  exists this',
    play (5 + fuel) fs this = Some (Returns this') /\
    playable this' /\ steady this' /\ pause_flag this'.
Proof.
  revert this. induction fs as [ | f fs IH]; intros this Hp Hs Hf; cbn [play].
  - exists this. auto.
  - destruct (loop_sound (Frame.time f) (Frame.now f) fuel (Frame.random f) (Frame.pad f)
                this Hp Hs Hf) as (mid & Hrun & Hp' & Hs' & Hf').
    rewrite Hrun. cbn [andThen]. exact (IH mid Hp' Hs' Hf').
Qed.

Lemma play_returns_witness :
  playable Stage.racing /\
  steady Stage.racing /\
  pause_flag Stage.racing /\
  exists this',
    play 5 Stage.two_frames Stage.racing = Some (Returns this') /\ steady this'.
Proof.
  split; [exact racing_playable | ]. split; [exact racing_steady | ].
  split; [exact racing_pause_flag | ].
  destruct (play_returns 0 Stage.two_frames Stage.racing racing_playable racing_steady
              racing_pause_flag) as (this' & Hrun & _ & Hs & _).
  exists this'. split; [exact Hrun | exact Hs].
Defined.

(** ** Starting *)

Lemma start_from_s1 (fuel : nat) (random : nat -> R) (this : Game) :
  currentNodeId this = "s1" ->
  exists node path obstacles',
    lookup ROUTE_GRAPH "s1" = Some node /\
    hd_error (RoutePath.nodes path) = Some node /\
    RoutePath.destination path = "A" /\
    resetRoute (5 + fuel) random this
    = Some (Returns
        (set_obstacles obstacles'
           (set_stageProgress
              {| StageProgress.node := Some node; StageProgress.distance := 0 |}
              (set_routeSamples (Some (buildRouteSamples (RoutePath.nodes path)))
                 (set_destination (RoutePath.destination path) this))))).
Proof.
  intros Hid.
  assert (Hkey : exists node, lookup ROUTE_GRAPH (currentNodeId this) = Some node /\
                              turns_from node = 5%nat).
  { rewrite Hid. eexists. split; reflexivity. }
  destruct Hkey as (node & Hkey & Hturns).
  destruct (resetRoute_returns fuel random this node Hkey) as (path & Hpath & Hhd & Hreset).
  rewrite Hturns in Hpath, Hreset.
  assert (Hdest : RoutePath.destination path = "A").
  { rewrite Hid in Hpath.
    assert (Ha : exists p, buildRoutePath (5 + fuel) "s1" = Some (Returns p) /\
                           RoutePath.destination p = "A")
      by (eexists; split; reflexivity).
    destruct Ha as (p & Hp & Hd). rewrite Hp in Hpath. injection Hpath as <-. exact Hd. }
  match type of Hreset with
  | context [createObstacles random ?g] =>
      destruct (createObstacles_frame random g) as [obstacles' Hobs]
  end.
  rewrite Hobs in Hreset. rewrite Hid in Hkey.
  exists node, path, obstacles'. auto.
Qed.

(** X29. With fuel for five turns of the path loop or more, and nothing
    saved, the constructor returns a game in the state ["start"], bound for
    destination A on the samples of the path from s1, with 55 seconds on the
    timer; [startRace] returns, on a vehicle that is well formed and has a
    gear, a game in the state ["countdown"] with a countdown of 3, 55
    seconds, one unit of rewind charge, no snapshot, and the vehicle reset
    at the start of s1.  Both games are steady and on a route of the
    graph. *)
Theorem new_game_steady (fuel : nat) (random : nat -> R) (now : R)
    (input : InputManager.InputManager) :
  (exists this,
     Race.new (5 + fuel) random None now input = Some (Returns this) /\
     Race.state this = GameState.start /\
     destination this = "A" /\
     timer this = 55 /\
     vehicle this = Scenario.m3 /\
     steady this /\ pause_flag this /\ playable this) /\
  (forall this,
     well_formed (vehicle this) ->
     (1 <= maxGear (vehicle this))%Z ->
     exists this',
       startRace (5 + fuel) random this = Some (Returns this') /\
       Race.state this' = GameState.countdown /\
       countdown this' = 3 /\
       timer this' = 55 /\
       rewindCharge this' = 1 /\
       rewindBuffer this' = [] /\
       currentNodeId this' = "s1" /\
       vehicle this' = Vehicle.reset 0 0 (vehicle this) /\
       steady this' /\ playable this' /\
       (isPaused this = false -> pause_flag this')).
Proof.
  split.
  - unfold Race.new. cbv zeta.
    match goal with
    | |- context [resetRoute _ _ ?g] =>
        destruct (start_from_s1 fuel random g eq_refl)
          as (node & path & obstacles' & Hkey & Hhd & Hdest & Hreset)
    end.
    eexists. split; [exact Hreset | ]. game.
    split; [reflexivity | ]. split; [exact Hdest | ]. split; [reflexivity | ].
    split; [reflexivity | ]. split; [ | split; [ | split]].
    + unfold steady, snapshot_ok, gear_in_range, maxGear. game. cbn.
      repeat split; try lra; try lia. constructor.
    + unfold pause_flag. game. split; discriminate.
    + exact m3_well_formed.
    + exists node, (RoutePath.nodes path). game.
      destruct (graph_shape "s1" node Hkey) as (Hid & _).
      split; [reflexivity | ]. split; [rewrite Hid; exact Hkey | ].
      split; [reflexivity | ].
      exact (path_has_samples "s1" node path Hkey Hhd).
  - intros this Hwf Hmax. unfold startRace. cbv zeta.
    match goal with
    | |- context [resetRoute _ _ ?g] =>
        destruct (start_from_s1 fuel random g eq_refl)
          as (node & path & obstacles' & Hkey & Hhd & Hdest & Hreset)
    end.
    eexists. split; [exact Hreset | ]. game.
    do 7 (split; [reflexivity | ]).
    split; [ | split; [split | ]].
    + unfold steady, snapshot_ok, gear_in_range, maxGear in *. game.
      cbn [Vehicle.reset Vehicle.assign Vehicle.set_state Vehicle.state Vehicle.tuning
           Vehicle.gear Vehicle.set_speed Vehicle.set_wheelSpeed Vehicle.set_gear].
      repeat split; try lra; try lia. constructor.
    + apply (well_formed_same_setup (vehicle this)); [ | exact Hwf].
      repeat split; reflexivity.
    + exists node, (RoutePath.nodes path). game.
      destruct (graph_shape "s1" node Hkey) as (Hid & _).
      split; [reflexivity | ]. split; [rewrite Hid; exact Hkey | ].
      split; [reflexivity | ].
      exact (path_has_samples "s1" node path Hkey Hhd).
    + intros Hp. unfold pause_flag. game. rewrite Hp. split; discriminate.
Qed.

Lemma new_game_steady_witness :
  well_formed (vehicle Stage.racing) /\
  (1 <= maxGear (vehicle Stage.racing))%Z /\
  exists this',
    startRace 5 (fun _ => 0.5) Stage.racing = Some (Returns this') /\
    Race.state this' = GameState.countdown /\
    timer this' = 55.
Proof.
  assert (Hmax : (1 <= maxGear (vehicle Stage.racing))%Z) by (cbn; lia).
  split; [exact m3_well_formed | ]. split; [exact Hmax | ].
  destruct (proj2 (new_game_steady 0 (fun _ => 0.5) 0 InputManager.new) Stage.racing
              m3_well_formed Hmax) as (this' & Hrun & Hstate & _ & Htimer & _).
  exists this'. split; [exact Hrun | ]. split; [exact Hstate | exact Htimer].
Defined.

(** ** Pause *)

(** X30. Pausing a game that is not paused sets its state to ["pause"], and
    resuming sets it to ["race"], whatever the state was before the pause: a
    pause during the countdown, at a checkpoint or at a fork resumes into
    the race.  Vehicle, timer, countdown and stage are kept.  While the game
    is paused a frame in which the pause is not released and pressed again
    changes nothing but the input manager. *)
Theorem togglePause_resumes_into_race (this : Game) :
  isPaused this = false ->
  Race.state (togglePause this) = GameState.pause /\
  isPaused (togglePause this) = true /\
  Race.state (togglePause (togglePause this)) = GameState.race /\
  isPaused (togglePause (togglePause this)) = false /\
  togglePause (togglePause this) = set_state GameState.race this /\
  (forall dt now fuel random pad,
     fst (Race.consume InputAction.pause pad (togglePause this)) = false ->
     exists input',
       Race.update dt now fuel random pad (togglePause this)
       = Some (Returns (set_input input' (togglePause this)))).
Proof.
  intros Hp.
  assert (H1 : togglePause this = set_state GameState.pause (set_isPaused true this)).
  { unfold togglePause. cbv zeta. game. rewrite Hp. reflexivity. }
  assert (H2 : togglePause (togglePause this) = set_state GameState.race this).
  { rewrite H1. unfold togglePause. cbv zeta. game. cbn [negb GameState.eqb].
    destruct this. cbn in Hp. subst. reflexivity. }
  split; [rewrite H1; reflexivity | ]. split; [rewrite H1; reflexivity | ].
  split; [rewrite H2; reflexivity | ]. split; [rewrite H2; exact Hp | ].
  split; [exact H2 | ].
  intros dt now fuel random pad Hconsume.
  destruct (consume_input InputAction.pause pad (togglePause this)) as [input' Hinput].
  exists input'. unfold Race.update.
  replace (GameState.eqb (Race.state (togglePause this)) GameState.start) with false
    by (rewrite H1; reflexivity).
  cbv zeta.
  destruct (Race.consume InputAction.pause pad (togglePause this)) as [b g].
  cbn [fst snd] in Hconsume, Hinput. subst b g.
  rewrite H1. reflexivity.
Qed.

Lemma togglePause_resumes_into_race_witness :
  isPaused Stage.racing = false /\
  Race.state (togglePause (togglePause (set_state GameState.countdown Stage.racing)))
    = GameState.race.
Proof.
  split; [reflexivity | ].
  exact (proj1 (proj2 (proj2
           (togglePause_resumes_into_race (set_state GameState.countdown Stage.racing)
              eq_refl)))).
Defined.

End RaceFacts.
